(** * pyMooltipass: the protocol session of [mooltipass.py] over [hid.py]

    A shallow embedding of the host-side Mooltipass client.  The USB
    transport is a stream of read outcomes (a packet, or a timeout); the
    session threads a state that holds the position in that stream and a
    log of what the client did (packets written, reads issued, sleeps).
    Python exceptions are values of [exn]; loops that may spin forever
    take fuel and answer [OutOfFuel] when it is spent. *)

From stdpp Require Import gmap strings list fin_maps.
From Stdlib Require Import ZArith Lia Ascii String HexString.

Local Open Scope Z_scope.

(** ** Commands and status codes *)

Inductive MooltipassCmd : Set :=
  | EXPORT_FLASH_START | EXPORT_FLASH | EXPORT_FLASH_END
  | IMPORT_FLASH_BEGIN | IMPORT_FLASH | IMPORT_FLASH_END
  | EXPORT_EEPROM_START | EXPORT_EEPROM | EXPORT_EEPROM_END
  | IMPORT_EEPROM_BEGIN | IMPORT_EEPROM | IMPORT_EEPROM_END
  | ERASE_EEPROM | ERASE_FLASH | ERASE_SMC | DRAW_BITMAP | SET_FONT
  | USB_KEYBOARD_PRESS | STACK_FREE | CLONE_SMARTCARD
  | DEBUG | PING | VERSION | CONTEXT | GET_LOGIN | GET_PASSWORD
  | SET_LOGIN | SET_PASSWORD | CHECK_PASSWORD | ADD_CONTEXT
  | SET_BOOTLOADER_PWD | JUMP_TO_BOOTLOADER | GET_RANDOM_NUMBER
  | START_MEMORYMGMT | IMPORT_MEDIA_START | IMPORT_MEDIA | IMPORT_MEDIA_END
  | SET_MOOLTIPASS_PARM | GET_MOOLTIPASS_PARM | RESET_CARD
  | READ_CARD_LOGIN | READ_CARD_PASS | SET_CARD_LOGIN | SET_CARD_PASS
  | ADD_UNKNOWN_CARD | MOOLTIPASS_STATUS | FUNCTIONAL_TEST_RES
  | SET_DATE | SET_UID | GET_UID | SET_DATA_SERVICE | ADD_DATA_SERVICE
  | WRITE_32B_IN_DN | READ_32B_IN_DN | GET_CUR_CARD_CPZ | CANCEL_REQUEST
  | PLEASE_RETRY | READ_FLASH_NODE | WRITE_FLASH_NODE
  | GET_FAVORITE | SET_FAVORITE | GET_STARTING_PARENT | SET_STARTING_PARENT
  | GET_CTRVALUE | SET_CTRVALUE | ADD_CARD_CPZ_CTR | GET_CARD_CPZ_CTR
  | CARD_CPZ_CTR_PACKET | GET_FREE_SLOTS_ADDR
  | GET_DN_START_PARENT | SET_DN_START_PARENT | END_MEMORYMGMT.

(** The integer value of each member of the [IntEnum]. *)
Definition cmd_code (c : MooltipassCmd) : Z :=
  match c with
  | EXPORT_FLASH_START => 0x8A | EXPORT_FLASH => 0x8B | EXPORT_FLASH_END => 0x8C
  | IMPORT_FLASH_BEGIN => 0x8D | IMPORT_FLASH => 0x8E | IMPORT_FLASH_END => 0x8F
  | EXPORT_EEPROM_START => 0x90 | EXPORT_EEPROM => 0x91
  | EXPORT_EEPROM_END => 0x92 | IMPORT_EEPROM_BEGIN => 0x93
  | IMPORT_EEPROM => 0x94 | IMPORT_EEPROM_END => 0x95
  | ERASE_EEPROM => 0x96 | ERASE_FLASH => 0x97 | ERASE_SMC => 0x98
  | DRAW_BITMAP => 0x99 | SET_FONT => 0x9A | USB_KEYBOARD_PRESS => 0x9B
  | STACK_FREE => 0x9C | CLONE_SMARTCARD => 0x9D
  | DEBUG => 0xA0 | PING => 0xA1 | VERSION => 0xA2 | CONTEXT => 0xA3
  | GET_LOGIN => 0xA4 | GET_PASSWORD => 0xA5 | SET_LOGIN => 0xA6
  | SET_PASSWORD => 0xA7 | CHECK_PASSWORD => 0xA8 | ADD_CONTEXT => 0xA9
  | SET_BOOTLOADER_PWD => 0xAA | JUMP_TO_BOOTLOADER => 0xAB
  | GET_RANDOM_NUMBER => 0xAC | START_MEMORYMGMT => 0xAD
  | IMPORT_MEDIA_START => 0xAE | IMPORT_MEDIA => 0xAF
  | IMPORT_MEDIA_END => 0xB0 | SET_MOOLTIPASS_PARM => 0xB1
  | GET_MOOLTIPASS_PARM => 0xB2 | RESET_CARD => 0xB3
  | READ_CARD_LOGIN => 0xB4 | READ_CARD_PASS => 0xB5
  | SET_CARD_LOGIN => 0xB6 | SET_CARD_PASS => 0xB7
  | ADD_UNKNOWN_CARD => 0xB8 | MOOLTIPASS_STATUS => 0xB9
  | FUNCTIONAL_TEST_RES => 0xBA | SET_DATE => 0xBB | SET_UID => 0xBC
  | GET_UID => 0xBD | SET_DATA_SERVICE => 0xBE | ADD_DATA_SERVICE => 0xBF
  | WRITE_32B_IN_DN => 0xC0 | READ_32B_IN_DN => 0xC1
  | GET_CUR_CARD_CPZ => 0xC2 | CANCEL_REQUEST => 0xC3 | PLEASE_RETRY => 0xC4
  | READ_FLASH_NODE => 0xC5 | WRITE_FLASH_NODE => 0xC6
  | GET_FAVORITE => 0xC7 | SET_FAVORITE => 0xC8
  | GET_STARTING_PARENT => 0xC9 | SET_STARTING_PARENT => 0xCA
  | GET_CTRVALUE => 0xCB | SET_CTRVALUE => 0xCC
  | ADD_CARD_CPZ_CTR => 0xCD | GET_CARD_CPZ_CTR => 0xCE
  | CARD_CPZ_CTR_PACKET => 0xCF | GET_FREE_SLOTS_ADDR => 0xD0
  | GET_DN_START_PARENT => 0xD1 | SET_DN_START_PARENT => 0xD2
  | END_MEMORYMGMT => 0xD3
  end.

Inductive MooltipassStatus : Set :=
  | NO_CARDS | LOCKED | UNLOCKING | UNLOCKED | INVALID_SMARTCARD.

Definition status_code (s : MooltipassStatus) : Z :=
  match s with
  | NO_CARDS => 0 | LOCKED => 1 | UNLOCKING => 3
  | UNLOCKED => 5 | INVALID_SMARTCARD => 9
  end.

(** ** Class constants of [Mooltipass] *)

Definition SUCCESS : Z := 0x01.

Definition LEN_INDEX : nat := 0.
Definition CMD_INDEX : nat := 1.
Definition DATA_INDEX : nat := 2.
Definition SERVICE_INDEX : nat := 8.
Definition LOGIN_INDEX : nat := 37.

Definition BITMAP_ID_OFFSET : Z := 128.
Definition KEYBD_ID_OFFSET : Z := BITMAP_ID_OFFSET + 18.

(** Python dictionaries keep insertion order, and [get_keyboard_layout]
    walks [KEYBOARD_LAYOUT.items()] in that order: both tables are
    association lists. *)
Definition PARAMETERS : list (string * Z) :=
  [ ("keyboard_layout", 1); ("user_inter_timeout", 2);
    ("lock_timeout_enable", 3); ("lock_timeout", 4); ("touch_di", 5);
    ("touch_wheel_os_old", 6); ("touch_prox_os", 7); ("offline_mode", 8);
    ("screensaver", 9); ("touch_charge_time", 10); ("touch_wheel_os0", 11);
    ("touch_wheel_os1", 12); ("touch_wheel_os2", 13); ("flash_screen", 14);
    ("user_req_cancel", 15); ("tutorial_bool", 16);
    ("screen_saver_speed", 17) ]%string.

Definition KEYBOARD_LAYOUT : list (string * Z) :=
  [ ("EN_US", 0); ("FR_FR", 1); ("ES_ES", 2); ("DE_DE", 3); ("ES_AR", 4);
    ("EN_AU", 5); ("FR_BE", 6); ("PO_BR", 7); ("EN_CA", 8); ("CZ_CZ", 9);
    ("DA_DK", 10); ("FI_FI", 11); ("HU_HU", 12); ("IS_IS", 13);
    ("IT_IT", 14); ("NL_NL", 15); ("NO_NO", 16); ("PO_PO", 17);
    ("RO_RO", 18); ("SL_SL", 19); ("FRDE_CH", 20); ("EN_UK", 21) ]%string.

(** [d[key]] on a dictionary literal with distinct keys. *)
Fixpoint dict_get (d : list (string * Z)) (key : string) : option Z :=
  match d with
  | [] => None
  | (k, v) :: d' => if String.eqb k key then Some v else dict_get d' key
  end.

Record status_entry : Set := { status : MooltipassStatus; text : string }.

(** The [STATUS] table, keyed by the status byte. *)
Definition STATUS (code : Z) : option status_entry :=
  if code =? 0 then Some {| status := NO_CARDS; text := "no smartcard" |}
  else if code =? 1 then Some {| status := LOCKED; text := "locked" |}
  else if code =? 3 then Some {| status := UNLOCKING; text := "unlocking" |}
  else if code =? 5 then Some {| status := UNLOCKED; text := "unlocked" |}
  else if code =? 9 then
    Some {| status := INVALID_SMARTCARD; text := "unknown smartcard" |}
  else None.

(** ** Transport, session state and outcomes *)

(** An [array('B')]: its items are in [0, 255]. *)
Abbreviation DataBuffer := (list Z).

Definition is_byte (v : Z) : bool := (0 <=? v) && (v <=? 255).

Inductive exn : Set :=
  | TimeoutError | InterruptedError | IndexError | KeyError | ValueError
  | TypeError | IOError | OverflowError | USBError | UnboundLocalError.

Inductive event : Type :=
  | EvWrite (packet : DataBuffer)   (* HIDDevice.write *)
  | EvRead (timeout : Z) (got : option DataBuffer)
                                    (* HIDDevice.read, timeout in ms *)
  | EvSleep (ms : Z).               (* time.sleep, in ms *)

(** [device n] is the outcome of the [n]-th read of the IN endpoint:
    a packet, or [None] when the endpoint read fails, which
    [HIDDevice.read] turns into [TimeoutError].  [log] is newest first. *)
Record state : Type := {
  device : nat -> option DataBuffer;
  pos : nat;
  log : list event
}.

Inductive result (A : Type) : Type :=
  | Ok (a : A) (st : state)
  | Raise (e : exn) (st : state)
  | OutOfFuel.
Arguments Ok {A} a st.
Arguments Raise {A} e st.
Arguments OutOfFuel {A}.

Definition bind {A B} (m : state -> result A) (k : A -> state -> result B)
  : state -> result B :=
  fun st => match m st with
            | Ok a st' => k a st'
            | Raise e st' => Raise e st'
            | OutOfFuel => OutOfFuel
            end.

Definition ret {A} (a : A) : state -> result A := fun st => Ok a st.
Definition raise {A} (e : exn) : state -> result A := fun st => Raise e st.

Notation "'let*' x := m 'in' k" := (bind m (fun x => k))
  (at level 10, x name, m at level 100, k at level 200).
Notation "'run' m 'in' k" := (bind m (fun _ => k))
  (at level 10, m at level 100, k at level 200).

(** [try: m  except e: h e]; [h] answers [None] for the exceptions the
    statement has no clause for. *)
Definition try_except {A} (m : state -> result A)
    (h : exn -> option (state -> result A)) : state -> result A :=
  fun st => match m st with
            | Raise e st' =>
                match h e with
                | Some k => k st'
                | None => Raise e st'
                end
            | r => r
            end.

(** The state a computation stopped in, when it stopped. *)
Definition final {A} (r : result A) : option state :=
  match r with
  | Ok _ st => Some st
  | Raise _ st => Some st
  | OutOfFuel => None
  end.

Definition emit (ev : event) (st : state) : state :=
  {| device := device st; pos := pos st; log := ev :: log st |}.

(** [time.sleep]. *)
Definition sleep (ms : Z) : state -> result unit :=
  fun st => Ok tt (emit (EvSleep ms) st).

(** [HIDDevice.write]: a [USBError] of the endpoint is logged and
    dropped, so the call always returns. *)
Definition write (_data : DataBuffer) : state -> result unit :=
  fun st => Ok tt (emit (EvWrite _data) st).

(** [HIDDevice.read]. *)
Definition read (timeout : Z) : state -> result DataBuffer :=
  fun st =>
    let st' := {| device := device st; pos := S (pos st);
                  log := EvRead timeout (device st (pos st)) :: log st |} in
    match device st (pos st) with
    | Some _data => Ok _data st'
    | None => Raise TimeoutError st'
    end.

(** [a[i]] for a constant index [i >= 0]. *)
Definition item (a : DataBuffer) (i : nat) : state -> result Z :=
  fun st => match a !! i with
            | Some v => Ok v st
            | None => Raise IndexError st
            end.

(** [a[i:j]] for [0 <= i], [0 <= j]. *)
Definition slice (a : DataBuffer) (i j : nat) : DataBuffer :=
  drop i (take j a).

(** [array.append]: items outside [0, 255] raise [OverflowError]. *)
Definition append (_data : DataBuffer) (v : Z) : state -> result DataBuffer :=
  fun st => if is_byte v then Ok (_data ++ [v]) st
            else Raise OverflowError st.

(** [DataBuffer.__lshift__].  The right operand is an array, a tuple
    or a single item.  The buffer is changed in place, so an exception
    leaves it with what was appended before: the result is the buffer
    after the call, and the exception if one was raised. *)
Inductive operand : Type :=
  | OpArray (a : DataBuffer)     (* isinstance(value, array.array) *)
  | OpTuple (items : list Z)     (* isinstance(value, tuple) *)
  | OpItem (v : Z).

(** [for val in value: self.append(val)]. *)
Fixpoint append_each (buf : DataBuffer) (items : list Z)
    : DataBuffer * option exn :=
  match items with
  | [] => (buf, None)
  | v :: items' =>
      if is_byte v then append_each (buf ++ [v]) items'
      else (buf, Some OverflowError)
  end.

Definition __lshift__ (buf : DataBuffer) (value : operand)
    : DataBuffer * option exn :=
  match value with
  | OpArray a => (buf ++ a, None)
  | OpTuple items => append_each buf items
  | OpItem v =>
      if is_byte v then (buf ++ [v], None) else (buf, Some OverflowError)
  end.

(** ** Command exchange *)

Record kwargs : Set := {
  timeout : Z;
  full_packet : bool;
  retry_on_locked : bool
}.

(** What [kwargs.pop] finds when the caller passes nothing. *)
Definition no_kwargs : kwargs :=
  {| timeout := 1500; full_packet := false; retry_on_locked := false |}.

(** [_res[CMD_INDEX] == MOOLTIPASS_STATUS and _res[DATA_INDEX] == UNLOCKING],
    with the short circuit of [and]. *)
Definition unlocking_report (_res : DataBuffer) : state -> result bool :=
  let* c := item _res CMD_INDEX in
  if c =? cmd_code MOOLTIPASS_STATUS then
    let* d := item _res DATA_INDEX in
    ret (d =? status_code UNLOCKING)
  else ret false.

(** The [while] of the [retry_on_locked] branch of [_read_data]: a read
    that times out leaves [_res] as it was, after a sleep of 2 s. *)
Fixpoint retry_locked (fuel : nat) (_timeout : Z) (_res : DataBuffer)
    : state -> result DataBuffer :=
  match fuel with
  | O => fun _ => OutOfFuel
  | S n =>
      let* again := unlocking_report _res in
      if again then
        let* _res' :=
          try_except (read _timeout)
            (fun e => match e with
                      | TimeoutError => Some (run sleep 2000 in ret _res)
                      | _ => None
                      end) in
        retry_locked n _timeout _res'
      else ret _res
  end.

Definition _read_data (fuel : nat) (kw : kwargs) : state -> result DataBuffer :=
  let _timeout := timeout kw in
  let* _res := read _timeout in
  let _beginning := if full_packet kw then CMD_INDEX else DATA_INDEX in
  let* _res :=
    if retry_on_locked kw then retry_locked fuel _timeout _res
    else
      let* unlocking := unlocking_report _res in
      if unlocking then raise InterruptedError else ret _res in
  let* n := item _res LEN_INDEX in
  ret (slice _res _beginning (DATA_INDEX + Z.to_nat n)).

(** The packet [_send_command] hands to [write]: every positional
    argument at the call sites is an array, which [<<] extends with. *)
Definition build_packet (command : MooltipassCmd) (arg : list DataBuffer)
    : state -> result DataBuffer :=
  let _data_val := List.concat arg in
  let* _data := append [] (Z.of_nat (List.length _data_val)) in
  let* _data := append _data (cmd_code command) in
  ret (_data ++ _data_val).

Definition _send_command (fuel : nat) (command : MooltipassCmd)
    (arg : list DataBuffer) (kw : kwargs) : state -> result DataBuffer :=
  let* _data := build_packet command arg in
  run write _data in
  _read_data fuel kw.

(** ** Parameters *)

Inductive pyval : Set := PyStr (s : string) | PyInt (n : Z).

(** The builtin [hex]: defined on integers only. *)
Definition hex (v : pyval) : state -> result string :=
  match v with
  | PyInt n => ret (HexString.of_Z n)
  | PyStr _ => raise TypeError
  end.

(** [d[key]], raising [KeyError]. *)
Definition subscript (d : list (string * Z)) (key : string)
    : state -> result Z :=
  match dict_get d key with
  | Some v => ret v
  | None => raise KeyError
  end.

Definition _set_parameter (fuel : nat) (param : string) (value : Z)
    : state -> result unit :=
  let* index := subscript PARAMETERS param in
  let* _data := append [] index in
  let* _data := append _data value in
  let* _res := _send_command fuel SET_MOOLTIPASS_PARM [_data] no_kwargs in
  let* r0 := item _res 0 in
  if r0 =? SUCCESS then ret tt
  else
    (* raise ValueError("...".format(hex(param))): the argument first *)
    run hex (PyStr param) in
    raise ValueError.

Definition _get_parameter (fuel : nat) (param : string)
    : state -> result DataBuffer :=
  let* index := subscript PARAMETERS param in
  let* _data := append [] index in
  _send_command fuel GET_MOOLTIPASS_PARM [_data] no_kwargs.

Definition select_keyboard_layout (fuel : nat) (layout : string)
    : state -> result unit :=
  let* code := subscript KEYBOARD_LAYOUT layout in
  _set_parameter fuel "keyboard_layout" (KEYBD_ID_OFFSET + code).

(** The [for _key, _val in KEYBOARD_LAYOUT.items()] of
    [get_keyboard_layout]: the first key whose value is [_lay_val]. *)
Fixpoint layout_of (d : list (string * Z)) (_lay_val : Z) : option string :=
  match d with
  | [] => None
  | (_key, _val) :: d' =>
      if _val =? _lay_val then Some _key else layout_of d' _lay_val
  end.

Definition get_keyboard_layout (fuel : nat) : state -> result (option string) :=
  let* _res := _get_parameter fuel "keyboard_layout" in
  let* r0 := item _res 0 in
  let _lay_val := r0 - KEYBD_ID_OFFSET in
  ret (layout_of KEYBOARD_LAYOUT _lay_val).

(** ** Device status *)

Definition get_status (fuel : nat) : state -> result status_entry :=
  let* _res :=
    try_except (_send_command fuel MOOLTIPASS_STATUS [] no_kwargs)
      (fun e => match e with
                | InterruptedError => Some (ret [status_code UNLOCKING])
                | _ => None
                end) in
  let* r0 := item _res 0 in
  match STATUS r0 with
  | Some entry => ret entry
  | None => raise KeyError
  end.

(** The [while] of [wait_status_unlocked]. *)
Fixpoint wait_loop (fuel : nat) (_res : DataBuffer) : state -> result unit :=
  match fuel with
  | O => fun _ => OutOfFuel
  | S n =>
      let* r0 := item _res 0 in
      if r0 =? status_code UNLOCKED then ret tt
      else
        let* _res' :=
          try_except (_send_command n MOOLTIPASS_STATUS [] no_kwargs)
            (fun e => match e with
                      | TimeoutError => Some (run sleep 1000 in ret _res)
                      | InterruptedError => Some (run sleep 1000 in ret _res)
                      | _ => None
                      end) in
        wait_loop n _res'
  end.

Definition wait_status_unlocked (fuel : nat) : state -> result unit :=
  let* entry := get_status fuel in
  wait_loop fuel [status_code (status entry)].

(** ** Connection handshake *)

Definition _max_reties : Z := 3.

(** The condition of the [while] of [_ping]:
    [_res is None or not (_res[0] == _data[0] and _res[1] == _data[1])]. *)
Definition ping_unanswered (_res : option DataBuffer) (_data : DataBuffer)
    : state -> result bool :=
  match _res with
  | None => ret true
  | Some r =>
      let* a := item r 0 in
      let* d0 := item _data 0 in
      if a =? d0 then
        let* b := item r 1 in
        let* d1 := item _data 1 in
        ret (negb (b =? d1))
      else ret true
  end.

Definition ping_kwargs : kwargs :=
  {| timeout := 2000; full_packet := false; retry_on_locked := false |}.

(** The [while] of [_ping]. *)
Fixpoint ping_loop (fuel : nat) (_data : DataBuffer)
    (_res : option DataBuffer) (_retries : Z) : state -> result bool :=
  match fuel with
  | O => fun _ => OutOfFuel
  | S n =>
      let* unanswered := ping_unanswered _res _data in
      if unanswered then
        if _retries >? _max_reties then ret false
        else
          run sleep 200 in
          let* _res' :=
            try_except
              (let* r := _read_data n ping_kwargs in ret (Some r))
              (fun e => match e with
                        | TimeoutError => Some (ret None)
                        | _ => None
                        end) in
          ping_loop n _data _res' (_retries + 1)
      else ret true
  end.

(** [_ping]; [r0] and [r1] are the two draws of [random.randint(0, 255)].
    [_send_command] never raises [USBError]; the clause for it leaves
    [_res] unbound, which the loop condition then trips over. *)
Definition _ping (fuel : nat) (r0 r1 : Z) : state -> result bool :=
  let* _data := append [] r0 in
  let* _data := append _data r1 in
  let* _res :=
    try_except
      (let* r := _send_command fuel PING [_data] ping_kwargs in ret (Some r))
      (fun e => match e with
                | USBError => Some (raise UnboundLocalError)
                | InterruptedError =>
                    Some (run wait_status_unlocked fuel in
                          let* r := _send_command fuel PING [_data] ping_kwargs in
                          ret (Some r))
                | _ => None
                end) in
  ping_loop fuel _data _res 0.

(** [Mooltipass.__enter__], from the point where [HIDDevice.__enter__]
    has found the device and claimed its endpoints. *)
Definition __enter__ (fuel : nat) (r0 r1 : Z) : state -> result unit :=
  run sleep 500 in
  let* answered := _ping fuel r0 r1 in
  if negb answered then raise IOError
  else
    let* _res := _send_command fuel VERSION [] no_kwargs in
    run item _res 0 in
    ret tt.

(** ** Memory-management mode *)

(** The locals of the generator [_data_management_mode] that outlive its
    [try] block: [_success] is [False], [True] or [None]; [_res] is
    unbound until a [START_MEMORYMGMT] exchange returns. *)
Record frame : Type := {
  _success : option bool;
  _res : option DataBuffer
}.

Definition start_kwargs : kwargs :=
  {| timeout := 2000; full_packet := false; retry_on_locked := true |}.

(** The [while not _success] of [_data_management_mode], entered with
    [_success = False]; answers the locals together with the outcome. *)
Fixpoint start_loop (fuel : nat) (st : state) : frame * result unit :=
  match fuel with
  | O => ({| _success := Some false; _res := None |}, OutOfFuel)
  | S n =>
      match _send_command n START_MEMORYMGMT [] start_kwargs st with
      | Ok res st1 =>
          match item res 0 st1 with
          | Ok r0 st2 =>
              if r0 =? SUCCESS then
                ({| _success := Some true; _res := Some res |}, Ok tt st2)
              else
                ({| _success := None; _res := Some res |},
                 Raise InterruptedError st2)
          | Raise e st2 =>
              ({| _success := Some false; _res := Some res |}, Raise e st2)
          | OutOfFuel =>
              ({| _success := Some false; _res := Some res |}, OutOfFuel)
          end
      | Raise TimeoutError st1 =>
          (* time.sleep(1), then the next turn *)
          start_loop n (emit (EvSleep 1000) st1)
      | Raise e st1 =>
          ({| _success := Some false; _res := None |}, Raise e st1)
      | OutOfFuel => ({| _success := Some false; _res := None |}, OutOfFuel)
      end
  end.

(** The [try] block of the generator, up to its [yield]. *)
Definition mgmt_enter (fuel : nat) (st : state) : frame * result unit :=
  match wait_status_unlocked fuel st with
  | Ok _ st1 => start_loop fuel st1
  | Raise e st1 => ({| _success := Some false; _res := None |}, Raise e st1)
  | OutOfFuel => ({| _success := Some false; _res := None |}, OutOfFuel)
  end.

(** The [finally] block: [if not _success is None]. *)
Definition mgmt_exit (fuel : nat) (fr : frame) : state -> result unit :=
  match _success fr with
  | None => ret tt
  | Some _ =>
      run _send_command fuel END_MEMORYMGMT [] no_kwargs in
      ret tt
  end.

(** [with self._data_management_mode(): body].  An exception of the
    [try] block or of the body runs the [finally] block and then goes on
    to the caller, unless the [finally] block raises one of its own. *)
Definition _data_management_mode {A} (fuel : nat)
    (body : state -> result A) (st : state) : result A :=
  let (fr, entered) := mgmt_enter fuel st in
  match entered with
  | Ok _ st1 =>
      match body st1 with
      | Ok a st2 => (run mgmt_exit fuel fr in ret a) st2
      | Raise e st2 => (run mgmt_exit fuel fr in raise e) st2
      | OutOfFuel => OutOfFuel
      end
  | Raise e st1 => (run mgmt_exit fuel fr in raise e) st1
  | OutOfFuel => OutOfFuel
  end.

(** ** Favorites *)

Record favorite : Set := { context : string; login : string }.

Definition chr (c : Z) : ascii := ascii_of_N (Z.to_N c).

(** ["".join(chr(c) for c in buf).split('\x00')[0]]. *)
Fixpoint c_string (buf : list Z) : string :=
  match buf with
  | [] => EmptyString
  | c :: buf' => if c =? 0 then EmptyString else String (chr c) (c_string buf')
  end.

(** [not (_fav_data[0] == 0 and _fav_data[1] == 0)], negated. *)
Definition slot_empty (_fav_data : DataBuffer) : state -> result bool :=
  let* a := item _fav_data 0 in
  if a =? 0 then
    let* b := item _fav_data 1 in
    ret (b =? 0)
  else ret false.

(** A flash node: the reply to [READ_FLASH_NODE] extended by two more
    reads, as [get_favorites_list] does for the parent and for the child. *)
Definition read_node (fuel : nat) (addr : DataBuffer)
    : state -> result DataBuffer :=
  let* node := _send_command fuel READ_FLASH_NODE [addr] no_kwargs in
  let* more := _read_data fuel no_kwargs in
  let node := node ++ more in
  let* more := _read_data fuel no_kwargs in
  ret (node ++ more).

(** One turn of the [for _fav_count in range(14)]. *)
Definition fav_slot (fuel : nat) (_fav_count : Z)
    (_favorite : gmap Z favorite) : state -> result (gmap Z favorite) :=
  let* _fav_arg := append [] _fav_count in
  let* _fav_data := _send_command fuel GET_FAVORITE [_fav_arg] no_kwargs in
  let* empty := slot_empty _fav_data in
  if empty then ret _favorite
  else
    let* _parent_data := read_node fuel (slice _fav_data 0 2) in
    let _context := c_string (drop SERVICE_INDEX _parent_data) in
    let* _child_data := read_node fuel (slice _fav_data 2 4) in
    let _login := c_string (drop LOGIN_INDEX _child_data) in
    ret (<[_fav_count := {| context := _context; login := _login |}]>
           _favorite).

Fixpoint fav_loop (fuel : nat) (slots : list Z)
    (_favorite : gmap Z favorite) : state -> result (gmap Z favorite) :=
  match slots with
  | [] => ret _favorite
  | _fav_count :: rest =>
      let* _favorite' := fav_slot fuel _fav_count _favorite in
      fav_loop fuel rest _favorite'
  end.

Definition get_favorites_list (fuel : nat)
    : state -> result (gmap Z favorite) :=
  _data_management_mode fuel (fav_loop fuel (seqZ 0 14) ∅).

(** * The vocabulary of the statements *)

(** ** Logs and states *)

(** The state right after one call of [read]. *)
Definition after_read (tmo : Z) (st : state) : state :=
  {| device := device st; pos := S (pos st);
     log := EvRead tmo (device st (pos st)) :: log st |}.

(** Where a run has stopped ([otherwise] if it has not). *)
Definition stopped {A} (r : result A) (otherwise : state) : state :=
  match final r with
  | Some st => st
  | None => otherwise
  end.

(** The event is the writing of an [END_MEMORYMGMT] packet. *)
Definition is_END (ev : event) : bool :=
  match ev with
  | EvWrite packet =>
      match packet !! CMD_INDEX with
      | Some c => c =? cmd_code END_MEMORYMGMT
      | None => false
      end
  | _ => false
  end.

(** How many [END_MEMORYMGMT] packets have been written so far. *)
Definition ENDs (st : state) : nat := List.length (List.filter is_END (log st)).

(** A computation that sends no [END_MEMORYMGMT], whatever its outcome. *)
Definition quiet {A} (m : state -> result A) : Prop :=
  forall st st', final (m st) = Some st' -> ENDs st' = ENDs st.

(** ** Packets *)

(** The keys of the [STATUS] table. *)
Definition known_status_codes : list Z := [0; 1; 3; 5; 9].

(** The packet is an unlocking report: opcode [MOOLTIPASS_STATUS],
    first data byte [UNLOCKING]. *)
Definition unlocking (pkt : DataBuffer) : Prop :=
  pkt !! CMD_INDEX = Some (cmd_code MOOLTIPASS_STATUS)
  /\ pkt !! DATA_INDEX = Some (status_code UNLOCKING).

(** The payload [_read_data] decodes from [pkt]. *)
Definition payload_of (pkt : DataBuffer) (n : Z) : DataBuffer :=
  slice pkt DATA_INDEX (DATA_INDEX + Z.to_nat n).

(** The first byte of the payload decoded from [pkt] is the code of [s]. *)
Definition reports (pkt : DataBuffer) (s : MooltipassStatus) : Prop :=
  exists n,
    pkt !! LEN_INDEX = Some n
    /\ payload_of pkt n !! 0%nat = Some (status_code s).

(** The packet of a [MOOLTIPASS_STATUS] command. *)
Definition status_query : DataBuffer := [0; cmd_code MOOLTIPASS_STATUS].

(** What the polling loop of [wait_status_unlocked] does, oldest event
    first: each turn sends a status query and reads once; a read that
    times out or brings an unlocking report is followed by a sleep of
    one second; a read that brings anything else is not. *)
Inductive poll_trace : list event -> Prop :=
  | poll_done : poll_trace []
  | poll_reply pkt tr :
      ~ unlocking pkt ->
      poll_trace tr ->
      poll_trace (EvWrite status_query :: EvRead 1500 (Some pkt) :: tr)
  | poll_timeout tr :
      poll_trace tr ->
      poll_trace (EvWrite status_query :: EvRead 1500 None
                    :: EvSleep 1000 :: tr)
  | poll_interrupted pkt tr :
      unlocking pkt ->
      poll_trace tr ->
      poll_trace (EvWrite status_query :: EvRead 1500 (Some pkt)
                    :: EvSleep 1000 :: tr).

(** A reply that does not echo the two bytes [r0], [r1] of a ping. *)
Definition no_echo (r0 r1 : Z) (pkt : DataBuffer) : Prop :=
  ~ unlocking pkt
  /\ exists n a,
       pkt !! LEN_INDEX = Some n
       /\ payload_of pkt n !! 0%nat = Some a
       /\ (a <> r0
           \/ exists b, payload_of pkt n !! 1%nat = Some b /\ b <> r1).

(** A read of the retry loop of [_ping] that brings no echo: a timeout,
    or a reply that does not echo. *)
Definition no_answer (r0 r1 : Z) (got : option DataBuffer) : Prop :=
  match got with
  | None => True
  | Some pkt => no_echo r0 r1 pkt
  end.

(** What the retry loop of [_ping] leaves in the log for the reads at
    [pos st + from], ..., [pos st + from + j - 1], newest first. *)
Definition retry_log (st : state) (from j : nat) : list event :=
  rev (flat_map (fun i => [EvSleep 200;
                           EvRead 2000 (device st (pos st + i)%nat)])
         (seq from j)).

(** ** Devices to run the session on *)

(** A device that gives the listed outcomes, then falls silent. *)
Definition script (outcomes : list (option DataBuffer))
    : nat -> option DataBuffer :=
  fun n => match outcomes !! n with
           | Some outcome => outcome
           | None => None
           end.

(** A device that is unlocking, then silent, then locked, then unlocked. *)
Definition being_unlocked : state :=
  {| device := script [Some [1; 0xB9; 3]; None;
                       Some [1; 0xB9; 1]; Some [1; 0xB9; 5]];
     pos := 0; log := [] |}.

(** A device that answers every read with the same reply to a ping,
    carrying the bytes 0 and 0. *)
Definition never_echoes : state :=
  {| device := fun _ => Some [2; 0xA1; 0; 0]; pos := 0; log := [] |}.

(** An unlocked device that grants the mode and acknowledges its end. *)
Definition grants_mode : state :=
  {| device := script [Some [1; 0xB9; 5]; Some [1; 0xAD; 1];
                       Some [1; 0xD3; 1]];
     pos := 0; log := [] |}.

(** A device with fourteen empty slots. *)
Definition all_empty : state :=
  {| device := script ([Some [1; 0xB9; 5]; Some [1; 0xAD; 1]]
                         ++ replicate 14 (Some [4; 0xC7; 0; 0; 0; 0])
                         ++ [Some [1; 0xD3; 1]]);
     pos := 0; log := [] |}.

(** ** Further vocabulary: what a run writes *)

(** Every packet written so far satisfies [P]. *)
Definition written (P : DataBuffer -> Prop) (l : list event) : Prop :=
  forall packet, EvWrite packet ∈ l -> P packet.

(** A computation under which a property of the log carries over from
    the state it starts in to the state it stops in. *)
Definition keeps {A} (I : list event -> Prop) (m : state -> result A)
    : Prop :=
  forall st st', final (m st) = Some st' -> I (log st) -> I (log st').

(** The packet carries the opcode of one of the listed commands. *)
Definition opcode_among (allowed : list MooltipassCmd) (packet : DataBuffer)
    : Prop :=
  exists c, c ∈ allowed /\ packet !! CMD_INDEX = Some (cmd_code c).

(** The packet is a length byte, an opcode and as many payload bytes as
    the length byte says, 255 at most. *)
Definition well_framed (packet : DataBuffer) : Prop :=
  exists n c payload,
    packet = Z.of_nat n :: cmd_code c :: payload
    /\ List.length payload = n
    /\ (n <= 255)%nat.

(** [P] holds of every packet that frames the command [c]. *)
Definition frames (P : DataBuffer -> Prop) (c : MooltipassCmd) : Prop :=
  forall payload,
    (List.length payload <= 255)%nat ->
    P (Z.of_nat (List.length payload) :: cmd_code c :: payload).

(** ** Further vocabulary: waiting *)

(** A read outcome that keeps [retry_on_locked] waiting: a timeout or
    an unlocking report. *)
Definition busy (outcome : option DataBuffer) : Prop :=
  match outcome with
  | None => True
  | Some pkt => unlocking pkt
  end.

(** What one such outcome adds to the log under [retry_on_locked],
    newest first: the read, and after a timeout a sleep of [ms]. *)
Definition waited (tmo ms : Z) (outcome : option DataBuffer) : list event :=
  match outcome with
  | None => [EvSleep ms; EvRead tmo None]
  | Some pkt => [EvRead tmo (Some pkt)]
  end.

(** The device gives the listed outcomes from position [from] on. *)
Definition gives (st : state) (from : nat) (outcomes : list (option DataBuffer))
    : Prop :=
  forall i outcome,
    outcomes !! i = Some outcome -> device st (from + i)%nat = outcome.

(** A read outcome that keeps [wait_status_unlocked] polling: a
    timeout, an unlocking report, or a reply whose payload starts with
    a byte other than the code of [UNLOCKED]. *)
Definition pending (outcome : option DataBuffer) : Prop :=
  match outcome with
  | None => True
  | Some pkt =>
      unlocking pkt
      \/ (~ unlocking pkt
          /\ exists n a,
               pkt !! LEN_INDEX = Some n
               /\ payload_of pkt n !! 0%nat = Some a
               /\ a <> status_code UNLOCKED)
  end.

(** A reply that echoes the two bytes [r0], [r1] of a ping. *)
Definition echo (r0 r1 : Z) (pkt : DataBuffer) : Prop :=
  ~ unlocking pkt
  /\ exists n,
       pkt !! LEN_INDEX = Some n
       /\ payload_of pkt n !! 0%nat = Some r0
       /\ payload_of pkt n !! 1%nat = Some r1.

(** ** Further vocabulary: favorites *)

(** The longest prefix of in-range items. *)
Fixpoint leading_bytes (items : list Z) : list Z :=
  match items with
  | [] => []
  | v :: items' => if is_byte v then v :: leading_bytes items' else []
  end.

(** The state after a flash node has been read at [addr]: the
    [READ_FLASH_NODE] packet, and three reads. *)
Definition node_read (addr : DataBuffer) (st : state) : state :=
  after_read 1500
    (after_read 1500
       (after_read 1500
          (emit (EvWrite (Z.of_nat (List.length addr)
                            :: cmd_code READ_FLASH_NODE :: addr)) st))).

(** The reply to [GET_FAVORITE] of an empty slot: a payload that starts
    with two zero bytes. *)
Definition empty_slot_reply (pkt : DataBuffer) : Prop :=
  ~ unlocking pkt
  /\ exists n,
       pkt !! LEN_INDEX = Some n
       /\ payload_of pkt n !! 0%nat = Some 0
       /\ payload_of pkt n !! 1%nat = Some 0.

(** The state after the [GET_FAVORITE] exchange for [slot]. *)
Definition slot_query (slot : Z) (st : state) : state :=
  after_read 1500 (emit (EvWrite [1; cmd_code GET_FAVORITE; slot]) st).

(** A device whose slot 0 is bound (parent node "git", child node "ab")
    and whose other slots are empty. *)
Definition one_bound : state :=
  {| device :=
       script ([Some [1; 0xB9; 5]; Some [1; 0xAD; 1];
                Some [4; 0xC7; 1; 2; 3; 4];
                Some [10; 0xC5; 0; 0; 0; 0; 0; 0; 0; 0; 103; 105];
                Some [3; 0xC5; 116; 0; 7];
                Some [1; 0xC5; 0];
                Some [2; 0xC5; 0; 0];
                Some ([36; 0xC5] ++ replicate 35 0 ++ [97]);
                Some [2; 0xC5; 98; 0]]
                 ++ replicate 13 (Some [4; 0xC7; 0; 0; 0; 0])
                 ++ [Some [1; 0xD3; 1]]);
     pos := 0; log := [] |}.

(** A device that gives back the packet of a [MOOLTIPASS_STATUS]
    command carrying the one byte 3. *)
Definition echoes_unlocking : state :=
  {| device := fun _ => Some [1; 0xB9; 3]; pos := 0; log := [] |}.

(** [unlocking], as a test. *)
Definition is_unlocking (pkt : DataBuffer) : bool :=
  match pkt !! CMD_INDEX, pkt !! DATA_INDEX with
  | Some c, Some d =>
      (c =? cmd_code MOOLTIPASS_STATUS) && (d =? status_code UNLOCKING)
  | _, _ => false
  end.

(** The read outcomes the loop of [wait_status_unlocked] sleeps on: a
    timeout and an unlocking report. *)
Definition slept (outcome : option DataBuffer) : bool :=
  match outcome with
  | None => true
  | Some pkt => is_unlocking pkt
  end.

(** What one turn of that loop adds to the log, newest first: the
    status query, the read, and a sleep of one second after an outcome
    that is slept on. *)
Definition polled (outcome : option DataBuffer) : list event :=
  (if slept outcome then [EvSleep 1000] else [])
    ++ [EvRead 1500 outcome; EvWrite status_query].

(** A first reply after which [wait_status_unlocked] polls: an
    unlocking report, or a reply carrying a status of the table other
    than [UNLOCKED]. *)
Definition still_locked (first : DataBuffer) : Prop :=
  unlocking first
  \/ (~ unlocking first
      /\ exists n a,
           first !! LEN_INDEX = Some n
           /\ payload_of first n !! 0%nat = Some a
           /\ a ∈ known_status_codes
           /\ a <> status_code UNLOCKED).

(** A device that is locked, then unlocking, then silent, then reports
    an invalid card, then is unlocked. *)
Definition slow_unlock : state :=
  {| device := script [Some [1; 0xB9; 1]; Some [1; 0xB9; 3]; None;
                       Some [1; 0xB9; 9]; Some [1; 0xB9; 5]];
     pos := 0; log := [] |}.

(** A device that is unlocking at the first query and unlocked at the
    second. *)
Definition interrupted_once : state :=
  {| device := script [Some [1; 0xB9; 3]; Some [1; 0xB9; 5]];
     pos := 0; log := [] |}.

(** * Properties *)

(** Case analysis on a status byte, one table key at a time. *)
Ltac case_status code :=
  destruct (Z.eqb_spec code 0) as [->|?];
  [|destruct (Z.eqb_spec code 1) as [->|?];
    [|destruct (Z.eqb_spec code 3) as [->|?];
      [|destruct (Z.eqb_spec code 5) as [->|?];
        [|destruct (Z.eqb_spec code 9) as [->|?]]]]].

(** Goes down a table whose keys are literals, one entry at a time. *)
Ltac walk_table :=
  cbn [dict_get];
  repeat match goal with
         | |- (if String.eqb ?k ?key then _ else _) = _ -> _ =>
             destruct (String.eqb k key);
             [let H := fresh in intros H; injection H as <-; reflexivity|]
         end;
  try discriminate.

(** ** Basic facts about the exchange *)

Lemma read_packet tmo st pkt :
  device st (pos st) = Some pkt ->
  read tmo st =
    Ok pkt {| device := device st; pos := S (pos st);
              log := EvRead tmo (Some pkt) :: log st |}.
Proof. intros H. unfold read. now rewrite H. Qed.

Lemma unlocking_report_true pkt st :
  pkt !! CMD_INDEX = Some (cmd_code MOOLTIPASS_STATUS) ->
  pkt !! DATA_INDEX = Some (status_code UNLOCKING) ->
  unlocking_report pkt st = Ok true st.
Proof.
  intros Hc Hd. unfold unlocking_report, bind, item.
  rewrite Hc. simpl. now rewrite Hd.
Qed.

(** [unlocking_report] leaves the state alone. *)
Lemma unlocking_report_state pkt st :
  (exists b, unlocking_report pkt st = Ok b st)
  \/ unlocking_report pkt st = Raise IndexError st.
Proof.
  unfold unlocking_report, bind, item, ret.
  destruct (pkt !! CMD_INDEX) as [c|]; [|now right].
  destruct (c =? cmd_code MOOLTIPASS_STATUS); [|left; eauto].
  destruct (pkt !! DATA_INDEX) as [d|]; [left; eauto|now right].
Qed.

(** ** One exchange without [retry_on_locked] *)

Lemma unlocking_report_cases pkt st :
  (unlocking_report pkt st = Ok true st /\ unlocking pkt)
  \/ (unlocking_report pkt st = Ok false st /\ ~ unlocking pkt)
  \/ unlocking_report pkt st = Raise IndexError st.
Proof.
  unfold unlocking_report, unlocking, bind, item, ret.
  destruct (pkt !! CMD_INDEX) as [c|]; [|now right; right].
  destruct (Z.eqb_spec c (cmd_code MOOLTIPASS_STATUS)) as [->|Hc].
  - destruct (pkt !! DATA_INDEX) as [d|]; [|now right; right].
    destruct (Z.eqb_spec d (status_code UNLOCKING)) as [->|Hd].
    + left. now split.
    + right; left. split; [reflexivity|]. intros [_ [= ?]]. contradiction.
  - right; left. split; [reflexivity|]. intros [[= ?] _]. contradiction.
Qed.

(** The outcomes of [_read_data] without [retry_on_locked], by what the
    device has to say. *)
Lemma read_data_cases fuel kw st :
  retry_on_locked kw = false ->
  let st1 := after_read (timeout kw) st in
  match device st (pos st) with
  | None => _read_data fuel kw st = Raise TimeoutError st1
  | Some pkt =>
      (unlocking pkt /\ _read_data fuel kw st = Raise InterruptedError st1)
      \/ _read_data fuel kw st = Raise IndexError st1
      \/ (~ unlocking pkt
          /\ exists n, pkt !! LEN_INDEX = Some n
             /\ _read_data fuel kw st =
                  Ok (slice pkt (if full_packet kw then CMD_INDEX
                                 else DATA_INDEX)
                        (DATA_INDEX + Z.to_nat n)) st1)
  end.
Proof.
  intros Hkw st1. unfold _read_data, bind, read. rewrite Hkw.
  fold (after_read (timeout kw) st). fold st1.
  destruct (device st (pos st)) as [pkt|]; [|reflexivity].
  unfold bind.
  destruct (unlocking_report_cases pkt st1) as [[-> U]|[[-> U]| ->]].
  - left. now split.
  - right. simpl. unfold item.
    destruct (pkt !! LEN_INDEX) as [n|]; [right|now left].
    split; [exact U|]. now exists n.
  - right. now left.
Qed.

(** ** Status interception *)

(** C2. A response whose opcode byte is [MOOLTIPASS_STATUS] and whose
    first data byte is the code of [UNLOCKING] makes [_read_data],
    called without [retry_on_locked], raise [InterruptedError]: no
    payload is returned for that packet, whatever the timeout and
    whether or not the full packet was asked for. *)
Theorem read_data_interrupted_on_unlocking fuel kw st pkt :
  retry_on_locked kw = false ->
  device st (pos st) = Some pkt ->
  pkt !! CMD_INDEX = Some (cmd_code MOOLTIPASS_STATUS) ->
  pkt !! DATA_INDEX = Some (status_code UNLOCKING) ->
  (exists st',
      _read_data fuel kw st = Raise InterruptedError st'
      /\ log st' = EvRead (timeout kw) (Some pkt) :: log st)
  /\ (forall payload st', _read_data fuel kw st <> Ok payload st').
Proof.
  intros Hkw Hdev Hc Hd.
  assert (exists st',
      _read_data fuel kw st = Raise InterruptedError st'
      /\ log st' = EvRead (timeout kw) (Some pkt) :: log st) as Hraise.
  { unfold _read_data, bind.
    rewrite (read_packet _ _ _ Hdev), Hkw. unfold bind.
    rewrite (unlocking_report_true _ _ Hc Hd). simpl. eauto. }
  split; [exact Hraise|].
  destruct Hraise as (st' & -> & _). discriminate.
Qed.

Lemma read_data_interrupted_on_unlocking_witness :
  exists st',
    _read_data 0 no_kwargs
      {| device := fun _ => Some [1; 0xB9; 3]; pos := 0; log := [] |}
    = Raise InterruptedError st'
    /\ log st' = [EvRead 1500 (Some [1; 0xB9; 3])].
Proof.
  exact (proj1 (read_data_interrupted_on_unlocking 0 no_kwargs
           {| device := fun _ => Some [1; 0xB9; 3]; pos := 0; log := [] |}
           [1; 0xB9; 3] eq_refl eq_refl eq_refl eq_refl)).
Defined.

(** ** [get_status] *)

Lemma STATUS_None code : STATUS code = None <-> code ∉ known_status_codes.
Proof.
  unfold STATUS, known_status_codes.
  rewrite !not_elem_of_cons.
  case_status code; split; intros H; try discriminate; try tauto.
  repeat split; try assumption. apply not_elem_of_nil.
Qed.

Lemma STATUS_Some code entry :
  STATUS code = Some entry ->
  code ∈ known_status_codes /\ status_code (status entry) = code.
Proof.
  unfold STATUS, known_status_codes. rewrite !elem_of_cons.
  case_status code; intros [= <-]; simpl; tauto.
Qed.

(** C9. [get_status] never lets [InterruptedError] through: when the
    [MOOLTIPASS_STATUS] exchange raises it, [get_status] returns the
    [STATUS] entry of [UNLOCKING] (code 3, text "unlocking"), and no run
    of [get_status] ends in [InterruptedError]. *)
Theorem get_status_absorbs_interrupted fuel st :
  (forall st',
      _send_command fuel MOOLTIPASS_STATUS [] no_kwargs st
        = Raise InterruptedError st' ->
      get_status fuel st
        = Ok {| status := UNLOCKING; text := "unlocking" |} st'
      /\ status_code UNLOCKING = 3)
  /\ (forall st', get_status fuel st <> Raise InterruptedError st').
Proof.
  split.
  - intros st' H. unfold get_status, bind, try_except. now rewrite H.
  - intros st'. unfold get_status, bind, try_except.
    destruct (_send_command fuel MOOLTIPASS_STATUS [] no_kwargs st)
      as [res st1|e st1|]; [| destruct e |]; simpl; try discriminate.
    + unfold item. destruct (res !! 0%nat) as [r0|]; [|discriminate].
      destruct (STATUS r0); discriminate.
Qed.

Lemma get_status_absorbs_interrupted_witness :
  get_status 0 {| device := fun _ => Some [1; 0xB9; 3]; pos := 0; log := [] |}
  = Ok {| status := UNLOCKING; text := "unlocking" |}
       {| device := fun _ => Some [1; 0xB9; 3]; pos := 1;
          log := [EvRead 1500 (Some [1; 0xB9; 3]); EvWrite [0; 0xB9]] |}.
Proof.
  exact (proj1 (proj1 (get_status_absorbs_interrupted 0
           {| device := fun _ => Some [1; 0xB9; 3]; pos := 0; log := [] |})
           _ eq_refl)).
Defined.

(** C10. [get_status] is partial over the reply byte: when the exchange
    returns a payload whose first byte is none of 0, 1, 3, 5, 9, the
    lookup in [STATUS] raises [KeyError]; and a normal return after such
    an exchange means that byte is one of the five codes, the one of the
    entry returned. *)
Theorem get_status_only_known_codes fuel st reply st' r0 :
  _send_command fuel MOOLTIPASS_STATUS [] no_kwargs st = Ok reply st' ->
  reply !! 0%nat = Some r0 ->
  (r0 ∉ known_status_codes -> get_status fuel st = Raise KeyError st')
  /\ (forall entry st'',
        get_status fuel st = Ok entry st'' ->
        r0 ∈ known_status_codes /\ status_code (status entry) = r0).
Proof.
  intros Hx Hr0.
  assert (get_status fuel st =
          match STATUS r0 with
          | Some entry => Ok entry st'
          | None => Raise KeyError st'
          end) as ->.
  { unfold get_status, bind, try_except, item. rewrite Hx, Hr0.
    now destruct (STATUS r0). }
  split.
  - intros Hnot. apply STATUS_None in Hnot. now rewrite Hnot.
  - intros entry st'' H. destruct (STATUS r0) as [e0|] eqn:E; [|discriminate].
    injection H as <- <-. now apply STATUS_Some.
Qed.

Lemma get_status_only_known_codes_witness :
  get_status 0 {| device := fun _ => Some [1; 0xB9; 4]; pos := 0; log := [] |}
  = Raise KeyError
       {| device := fun _ => Some [1; 0xB9; 4]; pos := 1;
          log := [EvRead 1500 (Some [1; 0xB9; 4]); EvWrite [0; 0xB9]] |}.
Proof.
  refine (proj1 (get_status_only_known_codes 0
           {| device := fun _ => Some [1; 0xB9; 4]; pos := 0; log := [] |}
           [4] _ 4 eq_refl eq_refl) _).
  apply STATUS_None. reflexivity.
Defined.

(** ** Framing *)

Lemma cmd_code_byte c : is_byte (cmd_code c) = true.
Proof. destruct c; reflexivity. Qed.

Lemma build_packet_ok command arg st :
  (List.length (List.concat arg) <= 255)%nat ->
  build_packet command arg st =
    Ok (Z.of_nat (List.length (List.concat arg))
          :: cmd_code command :: List.concat arg) st.
Proof.
  intros Hlen. unfold build_packet, bind, append.
  assert (is_byte (Z.of_nat (List.length (List.concat arg))) = true) as ->.
  { unfold is_byte. apply andb_true_iff. split; apply Z.leb_le; lia. }
  now rewrite cmd_code_byte.
Qed.

Lemma send_command_writes fuel command arg kw st :
  (List.length (List.concat arg) <= 255)%nat ->
  _send_command fuel command arg kw st =
    _read_data fuel kw
      (emit (EvWrite (Z.of_nat (List.length (List.concat arg))
                        :: cmd_code command :: List.concat arg)) st).
Proof.
  intros Hlen. unfold _send_command, bind.
  now rewrite build_packet_ok.
Qed.

(** Without [retry_on_locked], [_read_data] is one read and no more. *)
Lemma read_data_final fuel kw st :
  retry_on_locked kw = false ->
  final (_read_data fuel kw st) = Some (after_read (timeout kw) st).
Proof.
  intros Hkw. unfold _read_data, bind, read. rewrite Hkw.
  fold (after_read (timeout kw) st).
  destruct (device st (pos st)) as [pkt|]; [|reflexivity].
  unfold bind.
  destruct (unlocking_report_state pkt (after_read (timeout kw) st))
    as [[b ->]| ->]; [|reflexivity].
  destruct b; [reflexivity|]. simpl. unfold item.
  now destruct (pkt !! LEN_INDEX).
Qed.

(** What [_read_data] decodes from a packet that is not an unlocking
    report. *)
Lemma read_data_decodes fuel kw st pkt n :
  retry_on_locked kw = false ->
  device st (pos st) = Some pkt ->
  unlocking_report pkt (after_read (timeout kw) st)
    = Ok false (after_read (timeout kw) st) ->
  pkt !! LEN_INDEX = Some n ->
  _read_data fuel kw st =
    Ok (slice pkt (if full_packet kw then CMD_INDEX else DATA_INDEX)
          (DATA_INDEX + Z.to_nat n))
       (after_read (timeout kw) st).
Proof.
  intros Hkw Hdev Hrep Hn. unfold _read_data, bind, read.
  rewrite Hkw. fold (after_read (timeout kw) st). rewrite Hdev.
  unfold bind. rewrite Hrep. simpl. unfold item. now rewrite Hn.
Qed.

Section Framing.

(** The payload capacity of a report of the device: the endpoint's
    [wMaxPacketSize] less the two header bytes.  The length is sent
    in one byte. *)
Variable mtu : nat.
Hypothesis mtu_fits_length_byte : (mtu <= 255)%nat.

(** C3. Framing round trip, through the code.  For every opcode and
    every payload of at most [mtu] bytes, [_send_command] builds and
    writes the packet [[len(payload), opcode, ...payload]].  When the
    device gives that packet back, followed by any transport padding,
    [_read_data] finds the declared length [len(payload)] at index 0
    and the opcode at index 1, and returns the payload, the padding
    dropped (with [full_packet]: the opcode, then the payload) --
    unless the packet reads as an unlocking report: for the opcode
    [MOOLTIPASS_STATUS], when the byte after the header (the first of
    the payload, or of the padding if the payload is empty) is the code
    of [UNLOCKING], [_read_data] raises [InterruptedError] and returns
    nothing. *)
Theorem framing_round_trip (opcode : MooltipassCmd)
    (arg : list DataBuffer) (padding : DataBuffer) :
  let payload := List.concat arg in
  let n := Z.of_nat (List.length payload) in
  (List.length payload <= mtu)%nat ->
  exists packet,
    packet = n :: cmd_code opcode :: payload
    /\ (forall fuel kw st,
          build_packet opcode arg st = Ok packet st
          /\ _send_command fuel opcode arg kw st =
               _read_data fuel kw (emit (EvWrite packet) st))
    /\ (packet ++ padding) !! LEN_INDEX = Some n
    /\ (packet ++ padding) !! CMD_INDEX = Some (cmd_code opcode)
    /\ slice (packet ++ padding) DATA_INDEX (DATA_INDEX + Z.to_nat n)
       = payload
    /\ (forall fuel tmo full st,
          device st (pos st) = Some (packet ++ padding) ->
          let kw := {| timeout := tmo; full_packet := full;
                       retry_on_locked := false |} in
          (opcode <> MOOLTIPASS_STATUS
           \/ (exists b, (payload ++ padding) !! 0%nat = Some b
                         /\ b <> status_code UNLOCKING) ->
           _read_data fuel kw st =
             Ok ((if full then [cmd_code opcode] else []) ++ payload)
                (after_read tmo st))
          /\ (opcode = MOOLTIPASS_STATUS ->
              (payload ++ padding) !! 0%nat = Some (status_code UNLOCKING) ->
              _read_data fuel kw st =
                Raise InterruptedError (after_read tmo st))).
Proof.
  intros payload n Hlen.
  assert (take (Z.to_nat n) (payload ++ padding) = payload) as Htake.
  { unfold n. rewrite Nat2Z.id. apply take_app_length. }
  exists (n :: cmd_code opcode :: payload).
  split; [reflexivity|split; [|split; [|split; [|split]]]];
    try reflexivity.
  - intros fuel kw st. split.
    + apply build_packet_ok. fold payload. lia.
    + apply send_command_writes. fold payload. lia.
  - unfold slice, DATA_INDEX. simpl. exact Htake.
  - intros fuel tmo full st Hdev kw.
    assert (forall again,
      unlocking_report ((n :: cmd_code opcode :: payload) ++ padding)
        (after_read tmo st) = Ok again (after_read tmo st) ->
      _read_data fuel kw st =
        if again then Raise InterruptedError (after_read tmo st)
        else Ok ((if full then [cmd_code opcode] else []) ++ payload)
                (after_read tmo st)) as Hread.
    { intros again Hrep. unfold _read_data, bind, read. cbn [kw timeout
        retry_on_locked full_packet]. fold (after_read tmo st).
      rewrite Hdev. unfold bind. rewrite Hrep.
      destruct again; [reflexivity|]. cbn [ret item]. simpl lookup.
      unfold slice, DATA_INDEX, CMD_INDEX. simpl.
      rewrite Htake. now destruct full. }
    split.
    + intros Hsafe. apply (Hread false).
      unfold unlocking_report, bind, item, ret. simpl.
      destruct (Z.eqb_spec (cmd_code opcode) 185) as [Heq|_]; [|reflexivity].
      assert (opcode = MOOLTIPASS_STATUS) as Hop
        by (destruct opcode; try discriminate Heq; reflexivity).
      destruct Hsafe as [Hne|(b & Hb & Hne)]; [contradiction|].
      fold payload. rewrite Hb.
      now destruct (Z.eqb_spec b 3) as [->|_].
    + intros -> Hthree. apply (Hread true).
      apply unlocking_report_true; [reflexivity|exact Hthree].
Qed.

End Framing.

Lemma framing_round_trip_witness :
  exists packet,
    packet = [1; 0xC7; 7]
    /\ (forall fuel kw st,
          build_packet GET_FAVORITE [[7]] st = Ok packet st
          /\ _send_command fuel GET_FAVORITE [[7]] kw st =
               _read_data fuel kw (emit (EvWrite packet) st))
    /\ (packet ++ [0; 0; 0]) !! LEN_INDEX = Some 1
    /\ (packet ++ [0; 0; 0]) !! CMD_INDEX = Some 0xC7
    /\ slice (packet ++ [0; 0; 0]) DATA_INDEX (DATA_INDEX + Z.to_nat 1) = [7]
    /\ (forall fuel tmo full st,
          device st (pos st) = Some (packet ++ [0; 0; 0]) ->
          let kw := {| timeout := tmo; full_packet := full;
                       retry_on_locked := false |} in
          (GET_FAVORITE <> MOOLTIPASS_STATUS
           \/ (exists b, ([7] ++ [0; 0; 0]) !! 0%nat = Some b
                         /\ b <> status_code UNLOCKING) ->
           _read_data fuel kw st =
             Ok ((if full then [0xC7] else []) ++ [7]) (after_read tmo st))
          /\ (GET_FAVORITE = MOOLTIPASS_STATUS ->
              ([7] ++ [0; 0; 0]) !! 0%nat = Some (status_code UNLOCKING) ->
              _read_data fuel kw st =
                Raise InterruptedError (after_read tmo st))).
Proof.
  apply (framing_round_trip 62 ltac:(lia) GET_FAVORITE [[7]] [0; 0; 0]).
  simpl. lia.
Defined.

(** The round trip fails where the packet sent reads as an unlocking
    report: [_send_command] frames the status byte 3 under the opcode
    [MOOLTIPASS_STATUS] as [[1; 0xB9; 3]], and [_read_data] raises
    [InterruptedError] on that packet instead of returning [[3]]. *)
Lemma framing_round_trip_counterexample :
  build_packet MOOLTIPASS_STATUS [[3]] echoes_unlocking
    = Ok [1; 0xB9; 3] echoes_unlocking
  /\ device echoes_unlocking (pos echoes_unlocking) = Some [1; 0xB9; 3]
  /\ _read_data 1 no_kwargs echoes_unlocking
     = Raise InterruptedError (after_read 1500 echoes_unlocking)
  /\ forall fuel st', _read_data fuel no_kwargs echoes_unlocking <> Ok [3] st'.
Proof.
  split; [reflexivity|split; [reflexivity|split; [reflexivity|]]].
  intros fuel st' H. discriminate H.
Qed.

(** The same round trip through the session: a device that answers a
    command with the very packet it was sent, padded, gets the payload
    back from [_send_command], unless the packet reads as an unlocking
    report. *)
Lemma send_command_loopback fuel opcode arg padding st :
  let payload := List.concat arg in
  let packet := Z.of_nat (List.length payload) :: cmd_code opcode :: payload in
  (List.length payload <= 255)%nat ->
  device st (pos st) = Some (packet ++ padding) ->
  ~ (opcode = MOOLTIPASS_STATUS
     /\ (payload ++ padding) !! 0%nat = Some (status_code UNLOCKING)) ->
  (opcode = MOOLTIPASS_STATUS -> is_Some ((payload ++ padding) !! 0%nat)) ->
  exists st', _send_command fuel opcode arg no_kwargs st = Ok payload st'.
Proof.
  intros payload packet Hlen Hdev Hnot Hlong.
  rewrite send_command_writes by exact Hlen.
  fold payload. fold packet.
  eexists.
  erewrite read_data_decodes with (pkt := packet ++ padding)
                                  (n := Z.of_nat (List.length payload));
    try reflexivity; try exact Hdev.
  - simpl. unfold slice. rewrite Nat2Z.id.
    change (take (DATA_INDEX + List.length payload) (packet ++ padding))
      with (Z.of_nat (List.length payload) :: cmd_code opcode
              :: take (List.length payload) (payload ++ padding)).
    simpl. now rewrite take_app_length.
  - unfold unlocking_report, bind, item, ret. simpl.
    destruct (Z.eqb_spec (cmd_code opcode) 185) as [Heq|Hne]; [|reflexivity].
    assert (opcode = MOOLTIPASS_STATUS) as Hop
      by (destruct opcode; try discriminate Heq; reflexivity).
    destruct (Hlong Hop) as [d Hd]. rewrite Hd.
    destruct (Z.eqb_spec d 3) as [->|?]; [|reflexivity].
    exfalso. apply Hnot. now split.
Qed.

(** ** Parameters and keyboard layouts *)

Lemma PARAMETERS_byte param index :
  dict_get PARAMETERS param = Some index -> is_byte index = true.
Proof. unfold PARAMETERS. walk_table. Qed.

Lemma KEYBOARD_LAYOUT_byte layout code :
  dict_get KEYBOARD_LAYOUT layout = Some code ->
  is_byte (KEYBD_ID_OFFSET + code) = true.
Proof. unfold KEYBOARD_LAYOUT. walk_table. Qed.

(** What [_set_parameter] does around its one exchange. *)
Lemma set_parameter_unfold fuel param index value st :
  dict_get PARAMETERS param = Some index ->
  is_byte value = true ->
  _set_parameter fuel param value st =
    (let* _res := _read_data fuel no_kwargs in
     let* r0 := item _res 0 in
     if r0 =? SUCCESS then ret tt
     else run hex (PyStr param) in raise ValueError)
      (emit (EvWrite [2; cmd_code SET_MOOLTIPASS_PARM; index; value]) st).
Proof.
  intros Hp Hv. unfold _set_parameter, subscript.
  unfold bind at 1. rewrite Hp. unfold ret at 1.
  unfold bind at 1. unfold append at 1. rewrite (PARAMETERS_byte _ _ Hp).
  unfold bind at 1. unfold append at 1. rewrite Hv.
  unfold bind at 1. rewrite send_command_writes by (simpl; lia).
  reflexivity.
Qed.

(** One packet out, one read, and nothing after it. *)
Lemma set_parameter_log fuel param index value st :
  dict_get PARAMETERS param = Some index ->
  is_byte value = true ->
  final (_set_parameter fuel param value st) =
    Some (after_read 1500
            (emit (EvWrite [2; cmd_code SET_MOOLTIPASS_PARM; index; value]) st)).
Proof.
  intros Hp Hv. rewrite (set_parameter_unfold _ _ _ _ _ Hp Hv).
  set (st1 := emit _ st).
  pose proof (read_data_final fuel no_kwargs st1 eq_refl) as Hf.
  unfold bind. destruct (_read_data fuel no_kwargs st1) as [res st2|e st2|];
    simpl in Hf; try discriminate Hf; [|exact Hf].
  injection Hf as ->. unfold item.
  destruct (res !! 0%nat) as [r0|]; [|reflexivity].
  destruct (r0 =? SUCCESS); reflexivity.
Qed.

(** C6 (what the code does). For a known parameter and a byte value,
    [_set_parameter] sends [SET_MOOLTIPASS_PARM] with [[index, value]]
    and reads one response.  A first payload byte equal to [SUCCESS]
    completes the call.  Any other first byte ends the call in
    [TypeError], not in the [ValueError] the source spells out: the
    message of that [ValueError] is built with [hex(param)], and [param]
    is the parameter's name, a string.  Either way nothing is sent after
    the response. *)
Theorem set_parameter_outcome fuel param index value st reply st' r0 :
  dict_get PARAMETERS param = Some index ->
  is_byte value = true ->
  _read_data fuel no_kwargs
    (emit (EvWrite [2; cmd_code SET_MOOLTIPASS_PARM; index; value]) st)
    = Ok reply st' ->
  reply !! 0%nat = Some r0 ->
  _set_parameter fuel param value st =
    (if r0 =? SUCCESS then Ok tt st' else Raise TypeError st')
  /\ log st' =
       EvRead 1500 (device st (pos st))
         :: EvWrite [2; cmd_code SET_MOOLTIPASS_PARM; index; value] :: log st.
Proof.
  intros Hp Hv Hx Hr0. split.
  - rewrite (set_parameter_unfold _ _ _ _ _ Hp Hv).
    unfold bind. rewrite Hx. unfold item. rewrite Hr0.
    now destruct (r0 =? SUCCESS).
  - pose proof (read_data_final fuel no_kwargs
                  (emit (EvWrite [2; cmd_code SET_MOOLTIPASS_PARM; index; value]) st)
                  eq_refl) as Hf.
    rewrite Hx in Hf. simpl in Hf. injection Hf as ->. reflexivity.
Qed.

Lemma set_parameter_outcome_witness :
  _set_parameter 0 "keyboard_layout" 146
    {| device := fun _ => Some [1; 0xB1; 0]; pos := 0; log := [] |}
  = Raise TypeError
      {| device := fun _ => Some [1; 0xB1; 0]; pos := 1;
         log := [EvRead 1500 (Some [1; 0xB1; 0]);
                 EvWrite [2; 0xB1; 1; 146]] |}.
Proof.
  exact (proj1 (set_parameter_outcome 0 "keyboard_layout" 1 146
           {| device := fun _ => Some [1; 0xB1; 0]; pos := 0; log := [] |}
           [0] _ 0 eq_refl eq_refl eq_refl eq_refl)).
Defined.

(** The success half of the same contract, on a concrete device. *)
Example set_parameter_success :
  _set_parameter 0 "keyboard_layout" 146
    {| device := fun _ => Some [1; 0xB1; 1]; pos := 0; log := [] |}
  = Ok tt
      {| device := fun _ => Some [1; 0xB1; 1]; pos := 1;
         log := [EvRead 1500 (Some [1; 0xB1; 1]);
                 EvWrite [2; 0xB1; 1; 146]] |}.
Proof. reflexivity. Qed.

(** Without [retry_on_locked], [_read_data] raises nothing but
    [TimeoutError], [InterruptedError] and [IndexError]. *)
Lemma read_data_raises fuel kw st e st' :
  retry_on_locked kw = false ->
  _read_data fuel kw st = Raise e st' ->
  e = TimeoutError \/ e = InterruptedError \/ e = IndexError.
Proof.
  intros Hkw. unfold _read_data, bind, read, raise, ret. rewrite Hkw.
  destruct (device st (pos st)) as [pkt|]; [|intros [= <- _]; tauto].
  match goal with
  | |- context [unlocking_report pkt ?s] =>
      destruct (unlocking_report_state pkt s) as [[b ->]| ->]
  end; [|intros [= <- _]; tauto].
  destruct b; [intros [= <- _]; tauto|].
  unfold item. destruct (pkt !! LEN_INDEX); [discriminate|].
  intros [= <- _]; tauto.
Qed.

(** [_set_parameter] never ends in [ValueError]. *)
Lemma set_parameter_never_ValueError fuel param value st st' :
  _set_parameter fuel param value st <> Raise ValueError st'.
Proof.
  unfold _set_parameter, bind, subscript, append, ret, raise.
  destruct (dict_get PARAMETERS param) as [index|]; [|discriminate].
  destruct (is_byte index); [|discriminate].
  destruct (is_byte value); [|discriminate].
  destruct (_send_command fuel SET_MOOLTIPASS_PARM _ no_kwargs st)
    as [res st1|e st1|] eqn:Hx; [| |discriminate].
  - unfold item. destruct (res !! 0%nat) as [r0|]; [|discriminate].
    destruct (r0 =? SUCCESS); discriminate.
  - intros [= -> ->].
    rewrite send_command_writes in Hx by (simpl; lia).
    apply read_data_raises in Hx; [|reflexivity].
    destruct Hx as [?|[?|?]]; discriminate.
Qed.

(** The codes of [KEYBOARD_LAYOUT] are pairwise distinct. *)
Lemma KEYBOARD_LAYOUT_codes_NoDup : NoDup (KEYBOARD_LAYOUT.*2).
Proof. apply (bool_decide_unpack _). vm_compute. reflexivity. Qed.

(** With distinct codes the reverse lookup undoes the lookup. *)
Lemma layout_of_dict_get d name code :
  NoDup (d.*2) ->
  dict_get d name = Some code ->
  layout_of d code = Some name.
Proof.
  induction d as [|[k v] d IH]; intros Hnd Hget; [discriminate|].
  simpl in *. apply NoDup_cons in Hnd as [Hv Hnd].
  destruct (String.eqb_spec k name) as [->|Hk].
  - injection Hget as ->. now rewrite Z.eqb_refl.
  - destruct (Z.eqb_spec v code) as [->|Hvc]; [|now apply IH].
    exfalso. apply Hv. clear -Hget.
    induction d as [|[k' v'] d IH]; [discriminate|]. simpl in *.
    destruct (String.eqb k' name).
    + injection Hget as ->. apply list_elem_of_here.
    + apply list_elem_of_further. now apply IH.
Qed.

Lemma layout_of_None d v : v ∉ d.*2 -> layout_of d v = None.
Proof.
  induction d as [|[k c] d IH]; intros Hv; [reflexivity|].
  simpl in *. apply not_elem_of_cons in Hv as [Hne Hv].
  destruct (Z.eqb_spec c v) as [->|_]; [contradiction|now apply IH].
Qed.

(** C8. Keyboard layouts go out as [KEYBD_ID_OFFSET + code] and come
    back by name.  For a layout name of [KEYBOARD_LAYOUT] with code
    [code]: [select_keyboard_layout] sends [SET_MOOLTIPASS_PARM] for
    parameter 1 with the value [KEYBD_ID_OFFSET + code]; and when the
    parameter byte read back is [KEYBD_ID_OFFSET + code],
    [get_keyboard_layout] returns that name.  When the byte read back,
    less [KEYBD_ID_OFFSET], is no code of the table,
    [get_keyboard_layout] returns [None]. *)
Theorem keyboard_layout_round_trip fuel name code :
  dict_get KEYBOARD_LAYOUT name = Some code ->
  (forall st,
      final (select_keyboard_layout fuel name st) =
        Some (after_read 1500
                (emit (EvWrite [2; cmd_code SET_MOOLTIPASS_PARM; 1;
                                KEYBD_ID_OFFSET + code]) st)))
  /\ (forall st reply st',
        _get_parameter fuel "keyboard_layout" st = Ok reply st' ->
        reply !! 0%nat = Some (KEYBD_ID_OFFSET + code) ->
        get_keyboard_layout fuel st = Ok (Some name) st')
  /\ (forall st reply st' b,
        _get_parameter fuel "keyboard_layout" st = Ok reply st' ->
        reply !! 0%nat = Some b ->
        b - KEYBD_ID_OFFSET ∉ KEYBOARD_LAYOUT.*2 ->
        get_keyboard_layout fuel st = Ok None st').
Proof.
  intros Hcode. split; [|split].
  - intros st. unfold select_keyboard_layout, subscript.
    unfold bind at 1. rewrite Hcode. unfold ret at 1.
    apply set_parameter_log; [reflexivity|].
    exact (KEYBOARD_LAYOUT_byte _ _ Hcode).
  - intros st reply st' Hx Hr0.
    unfold get_keyboard_layout, bind, item, ret. rewrite Hx, Hr0.
    replace (KEYBD_ID_OFFSET + code - KEYBD_ID_OFFSET) with code by lia.
    now rewrite (layout_of_dict_get _ _ _ KEYBOARD_LAYOUT_codes_NoDup Hcode).
  - intros st reply st' b Hx Hr0 Hb.
    unfold get_keyboard_layout, bind, item, ret. rewrite Hx, Hr0.
    now rewrite (layout_of_None _ _ Hb).
Qed.

Lemma keyboard_layout_round_trip_witness :
  final (select_keyboard_layout 0 "FRDE_CH"
           {| device := fun _ => Some [1; 0xB1; 1]; pos := 0; log := [] |})
  = Some {| device := fun _ => Some [1; 0xB1; 1]; pos := 1;
            log := [EvRead 1500 (Some [1; 0xB1; 1]);
                    EvWrite [2; 0xB1; 1; 166]] |}
  /\ get_keyboard_layout 0
       {| device := fun _ => Some [1; 0xB2; 166]; pos := 0; log := [] |}
     = Ok (Some "FRDE_CH"%string)
          {| device := fun _ => Some [1; 0xB2; 166]; pos := 1;
             log := [EvRead 1500 (Some [1; 0xB2; 166]);
                     EvWrite [1; 0xB2; 1]] |}
  /\ get_keyboard_layout 0
       {| device := fun _ => Some [1; 0xB2; 7]; pos := 0; log := [] |}
     = Ok None
          {| device := fun _ => Some [1; 0xB2; 7]; pos := 1;
             log := [EvRead 1500 (Some [1; 0xB2; 7]);
                     EvWrite [1; 0xB2; 1]] |}.
Proof.
  destruct (keyboard_layout_round_trip 0 "FRDE_CH" 20 eq_refl)
    as (Hsel & Hget & Hnone).
  split; [exact (Hsel _)|split].
  - exact (Hget {| device := fun _ => Some [1; 0xB2; 166]; pos := 0;
                   log := [] |} [166] _ eq_refl eq_refl).
  - refine (Hnone {| device := fun _ => Some [1; 0xB2; 7]; pos := 0;
                     log := [] |} [7] _ 7 eq_refl eq_refl _).
    apply (bool_decide_unpack _). vm_compute. reflexivity.
Defined.

(** ** Waiting for the device to be unlocked *)

Lemma status_exchange fuel st :
  _send_command fuel MOOLTIPASS_STATUS [] no_kwargs st =
    _read_data fuel no_kwargs (emit (EvWrite status_query) st).
Proof. apply send_command_writes. simpl. lia. Qed.

Lemma wait_loop_ok fuel :
  forall _res st st',
    wait_loop fuel _res st = Ok tt st' ->
    exists polls,
      log st' = rev polls ++ log st
      /\ poll_trace polls
      /\ device st' = device st
      /\ ((st' = st /\ _res !! 0%nat = Some (status_code UNLOCKED))
          \/ exists pkt,
               head (log st') = Some (EvRead 1500 (Some pkt))
               /\ device st (pred (pos st')) = Some pkt
               /\ reports pkt UNLOCKED).
Proof.
  induction fuel as [|n IH]; intros _res st st' H; [discriminate|].
  cbn [wait_loop] in H. unfold bind at 1 in H. unfold item in H.
  destruct (_res !! 0%nat) as [r0|] eqn:Hr0; [|discriminate].
  destruct (Z.eqb_spec r0 (status_code UNLOCKED)) as [->|Hne].
  { injection H as <-. exists [].
    split; [reflexivity|split; [constructor|split; [reflexivity|]]].
    left. now split. }
  unfold bind, try_except in H. rewrite status_exchange in H.
  pose proof (read_data_cases n no_kwargs (emit (EvWrite status_query) st)
                eq_refl) as Hc.
  cbn [device pos emit timeout no_kwargs full_packet] in Hc.
  set (st1 := after_read 1500 (emit (EvWrite status_query) st)) in *.
  assert (log st1 = EvRead 1500 (device st (pos st))
                      :: EvWrite status_query :: log st) as Hlog1
    by reflexivity.
  destruct (device st (pos st)) as [pkt|] eqn:Hdev.
  - destruct Hc as [[U Hc]|[Hc|[U (len & Hlen & Hc)]]]; rewrite Hc in H.
    + (* an unlocking report: sleep, [_res] as it was *)
      cbn in H. apply IH in H as (polls & Hlog & Htr & Hd & Hlast).
      exists (EvWrite status_query :: EvRead 1500 (Some pkt)
                :: EvSleep 1000 :: polls).
      split; [|split; [|split]].
      * rewrite Hlog. cbn [log emit]. rewrite Hlog1.
        simpl. now rewrite <- !app_assoc.
      * now apply poll_interrupted.
      * exact Hd.
      * right. destruct Hlast as [[_ Hu]|Hlast]; [|exact Hlast].
        rewrite Hr0 in Hu. injection Hu as ->. contradiction.
    + discriminate H.
    + (* a reply: it becomes [_res] *)
      apply IH in H as (polls & Hlog & Htr & Hd & Hlast).
      exists (EvWrite status_query :: EvRead 1500 (Some pkt) :: polls).
      split; [|split; [|split]].
      * rewrite Hlog, Hlog1. simpl. now rewrite <- !app_assoc.
      * now apply poll_reply.
      * exact Hd.
      * right. destruct Hlast as [[-> Hu]|Hlast]; [|exact Hlast].
        exists pkt. split; [|split].
        -- now rewrite Hlog1.
        -- exact Hdev.
        -- exists len. now split.
  - (* a timeout: sleep, [_res] as it was *)
    rewrite Hc in H. cbn in H.
    apply IH in H as (polls & Hlog & Htr & Hd & Hlast).
    exists (EvWrite status_query :: EvRead 1500 None
              :: EvSleep 1000 :: polls).
    split; [|split; [|split]].
    + rewrite Hlog. cbn [log emit]. rewrite Hlog1.
      simpl. now rewrite <- !app_assoc.
    + now apply poll_timeout.
    + exact Hd.
    + right. destruct Hlast as [[_ Hu]|Hlast]; [|exact Hlast].
      rewrite Hr0 in Hu. injection Hu as ->. contradiction.
Qed.

Lemma get_status_ok fuel st entry st1 :
  get_status fuel st = Ok entry st1 ->
  st1 = after_read 1500 (emit (EvWrite status_query) st)
  /\ exists pkt,
       device st (pos st) = Some pkt
       /\ ((unlocking pkt /\ status entry = UNLOCKING)
           \/ (~ unlocking pkt /\ reports pkt (status entry))).
Proof.
  unfold get_status, bind, try_except. rewrite status_exchange.
  pose proof (read_data_cases fuel no_kwargs (emit (EvWrite status_query) st)
                eq_refl) as Hc.
  cbn [device pos emit timeout no_kwargs full_packet] in Hc.
  destruct (device st (pos st)) as [pkt|] eqn:Hdev;
    [|rewrite Hc; discriminate].
  destruct Hc as [[U ->]|[->|[U (len & Hlen & ->)]]]; [| discriminate |].
  - cbn. intros [= <- <-]. split; [reflexivity|].
    exists pkt. split; [reflexivity|]. now left.
  - unfold item.
    destruct (slice pkt DATA_INDEX (DATA_INDEX + Z.to_nat len) !! 0%nat)
      as [r0|] eqn:Hr0; [|discriminate].
    destruct (STATUS r0) as [e0|] eqn:Hst; [|discriminate].
    intros [= <- <-]. split; [reflexivity|].
    exists pkt. split; [reflexivity|]. right. split; [exact U|].
    exists len. split; [exact Hlen|]. unfold payload_of.
    rewrite Hr0. f_equal. symmetry. now apply STATUS_Some.
Qed.

(** The run on [being_unlocked], oldest event first: the unlocking
    report is absorbed by [get_status]; the timeout costs one second. *)
Example wait_status_unlocked_run :
  (fun st => rev (log st)) <$> final (wait_status_unlocked 4 being_unlocked) =
    Some [EvWrite [0; 0xB9]; EvRead 1500 (Some [1; 0xB9; 3]);
          EvWrite [0; 0xB9]; EvRead 1500 None; EvSleep 1000;
          EvWrite [0; 0xB9]; EvRead 1500 (Some [1; 0xB9; 1]);
          EvWrite [0; 0xB9]; EvRead 1500 (Some [1; 0xB9; 5])].
Proof. reflexivity. Qed.

(** ** The handshake *)

Lemma payload_first pkt n a :
  payload_of pkt n !! 0%nat = Some a -> pkt !! DATA_INDEX = Some a.
Proof.
  unfold payload_of, slice. rewrite lookup_drop, Nat.add_0_r.
  intros H. now apply lookup_take_Some in H as [H _].
Qed.

(** A packet with a non-empty payload that is not an unlocking report
    is decoded and returned. *)
Lemma read_data_reply fuel kw st pkt n :
  retry_on_locked kw = false ->
  full_packet kw = false ->
  device st (pos st) = Some pkt ->
  ~ unlocking pkt ->
  pkt !! LEN_INDEX = Some n ->
  is_Some (payload_of pkt n !! 0%nat) ->
  _read_data fuel kw st = Ok (payload_of pkt n) (after_read (timeout kw) st).
Proof.
  intros Hkw Hfull Hdev U Hn [a Ha].
  rewrite (read_data_decodes fuel kw st pkt n Hkw Hdev); [now rewrite Hfull| |exact Hn].
  destruct (unlocking_report_cases pkt (after_read (timeout kw) st))
    as [[_ U']|[[H _]|H]]; [contradiction|exact H|].
  exfalso. apply payload_first in Ha.
  unfold unlocking_report, bind, item, ret in H.
  assert (is_Some (pkt !! CMD_INDEX)) as [c Hc].
  { apply lookup_lt_is_Some. apply lookup_lt_Some in Ha.
    unfold CMD_INDEX, DATA_INDEX in *. lia. }
  rewrite Hc, Ha in H. destruct (c =? cmd_code MOOLTIPASS_STATUS); discriminate H.
Qed.

Lemma flat_map_seq_S {A} (f : nat -> list A) from j :
  flat_map f (seq (S from) j) = flat_map (fun i => f (S i)) (seq from j).
Proof.
  rewrite <- seq_shift. induction (seq from j) as [|i l IH]; simpl;
    [reflexivity|now rewrite IH].
Qed.

Section Handshake.

(** The two bytes drawn for the ping. *)
Variables r0 r1 : Z.

Lemma no_echo_unanswered pkt n st :
  no_echo r0 r1 pkt ->
  pkt !! LEN_INDEX = Some n ->
  ping_unanswered (Some (payload_of pkt n)) [r0; r1] st = Ok true st.
Proof.
  intros (_ & n' & a & Hn' & Ha & Hmis) Hn.
  rewrite Hn in Hn'. injection Hn' as <-.
  unfold ping_unanswered, bind, item, ret. rewrite Ha. simpl.
  destruct (Z.eqb_spec a r0) as [->|Hne]; [|reflexivity].
  destruct Hmis as [Hne|(b & Hb & Hne)]; [contradiction|].
  rewrite Hb. simpl. now destruct (Z.eqb_spec b r1).
Qed.

(** With [_retries = 4 - j], the loop reads [j] more times before it
    gives up. *)
Lemma ping_loop_gives_up j :
  forall fuel _res st,
    (j <= 4)%nat -> (j < fuel)%nat ->
    (forall s, ping_unanswered _res [r0; r1] s = Ok true s) ->
    (forall i, (i < j)%nat ->
               no_answer r0 r1 (device st (pos st + i)%nat)) ->
    exists st',
      ping_loop fuel [r0; r1] _res (4 - Z.of_nat j) st = Ok false st'
      /\ pos st' = (pos st + j)%nat
      /\ device st' = device st
      /\ log st' = retry_log st 0 j ++ log st.
Proof.
  induction j as [|j IH]; intros fuel _res st Hj Hfuel Hun Hdev;
    (destruct fuel as [|n]; [lia|]);
    cbn [ping_loop]; unfold bind at 1; rewrite Hun.
  - simpl. eexists. split; [reflexivity|].
    split; [lia|split; reflexivity].
  - assert ((4 - Z.of_nat (S j) >? _max_reties) = false) as ->
      by (unfold _max_reties; rewrite Z.gtb_ltb; apply Z.ltb_ge; lia).
    unfold bind at 1. cbn [sleep].
    set (st1 := emit (EvSleep 200) st).
    assert (exists _res',
      try_except (let* r := _read_data n ping_kwargs in ret (Some r))
        (fun e => match e with
                  | TimeoutError => Some (ret None)
                  | _ => None
                  end) st1 = Ok _res' (after_read 2000 st1)
      /\ forall s, ping_unanswered _res' [r0; r1] s = Ok true s)
      as (_res' & Hread & Hun').
    { pose proof (Hdev 0%nat ltac:(lia)) as H0.
      rewrite Nat.add_0_r in H0. unfold try_except, bind.
      destruct (device st (pos st)) as [pkt|] eqn:Hpkt.
      - destruct H0 as (U & len & a & Hlen & Ha & Hmis).
        exists (Some (payload_of pkt len)).
        rewrite (read_data_reply n ping_kwargs st1 pkt len);
          try reflexivity; try assumption; [|now exists a].
        split; [reflexivity|]. intros s.
        apply no_echo_unanswered; [|exact Hlen].
        split; [exact U|]. now exists len, a.
      - exists None.
        pose proof (read_data_cases n ping_kwargs st1 eq_refl) as Hc.
        cbn [device pos emit st1] in Hc. rewrite Hpkt in Hc.
        rewrite Hc. split; reflexivity. }
    unfold bind at 1. rewrite Hread.
    replace (4 - Z.of_nat (S j) + 1) with (4 - Z.of_nat j) by lia.
    destruct (IH n _res' (after_read 2000 st1)) as (st' & Hrun & Hpos & Hd & Hlog);
      [lia|lia|exact Hun'| |].
    { intros i Hi. cbn [device pos after_read emit st1].
      replace (S (pos st) + i)%nat with (pos st + S i)%nat by lia.
      apply Hdev. lia. }
    exists st'. split; [exact Hrun|].
    split; [rewrite Hpos; cbn; lia|split; [exact Hd|]].
    rewrite Hlog. unfold retry_log. cbn [device pos after_read emit st1 log].
    change (seq 0 (S j)) with (0%nat :: seq 1 j).
    cbn [flat_map]. rewrite flat_map_seq_S.
    rewrite Nat.add_0_r, rev_app_distr. simpl. rewrite <- !app_assoc.
    f_equal. f_equal. apply flat_map_ext. intros i.
    now replace (pos st + S i)%nat with (S (pos st) + i)%nat by lia.
Qed.

End Handshake.

(** After a first reply that is decoded, [_ping] is its retry loop. *)
Lemma ping_first_reply fuel r0 r1 st pkt n :
  is_byte r0 = true ->
  is_byte r1 = true ->
  device st (pos st) = Some pkt ->
  ~ unlocking pkt ->
  pkt !! LEN_INDEX = Some n ->
  is_Some (payload_of pkt n !! 0%nat) ->
  _ping fuel r0 r1 st =
    ping_loop fuel [r0; r1] (Some (payload_of pkt n)) 0
      (after_read 2000 (emit (EvWrite [2; cmd_code PING; r0; r1]) st)).
Proof.
  intros Hr0 Hr1 Hdev U Hlen Ha.
  unfold _ping, bind, append, try_except. rewrite Hr0, Hr1. cbn [app].
  fold (bind (A := DataBuffer) (B := option DataBuffer)).
  rewrite send_command_writes by (simpl; lia).
  cbn [List.concat List.length app Z.of_nat Pos.of_succ_nat Pos.succ].
  now rewrite (read_data_reply _ ping_kwargs _ pkt n).
Qed.

(** C4 (what the code does). On a transport that never echoes the two
    ping bytes (a first reply that does not echo, then four reads that
    time out or bring a reply that does not echo), connecting fails with
    [IOError] after five reads: the one of the [PING] exchange and four
    of the retry loop, each of the four after a sleep of 200 ms.  The
    loop gives up when [_retries > _max_reties], with [_max_reties = 3]:
    at [_retries = 4], one retry later than a bound of three retries. *)
Theorem handshake_gives_up_after_five_reads r0 r1 k st pkt :
  is_byte r0 = true ->
  is_byte r1 = true ->
  device st (pos st) = Some pkt ->
  no_echo r0 r1 pkt ->
  (forall i, (1 <= i <= 4)%nat ->
             no_answer r0 r1 (device st (pos st + i)%nat)) ->
  exists st',
    __enter__ (5 + k) r0 r1 st = Raise IOError st'
    /\ pos st' = (pos st + 5)%nat
    /\ log st' =
         retry_log st 1 4
           ++ EvRead 2000 (Some pkt) :: EvWrite [2; cmd_code PING; r0; r1]
           :: EvSleep 500 :: log st.
Proof.
  intros Hr0 Hr1 Hdev Hno Hrest.
  pose proof Hno as (U & len & a & Hlen & Ha & Hmis).
  unfold __enter__. unfold bind at 1. cbn [sleep].
  set (st0 := emit (EvSleep 500) st).
  unfold bind at 1.
  rewrite (ping_first_reply _ r0 r1 st0 pkt len);
    try assumption; [|now exists a].
  set (st2 := after_read 2000 _).
  destruct (ping_loop_gives_up r0 r1 4 (5 + k)
              (Some (payload_of pkt len)) st2)
    as (st' & Hrun & Hpos & Hd & Hlog); [lia|lia| | |].
  { intros s. now apply no_echo_unanswered. }
  { intros i Hi. cbn [device pos st2 st0 after_read emit].
    replace (S (pos st) + i)%nat with (pos st + S i)%nat by lia.
    apply Hrest. lia. }
  change (4 - Z.of_nat 4) with 0 in Hrun.
  rewrite Hrun. cbn [negb].
  exists st'. split; [reflexivity|].
  split; [rewrite Hpos; cbn; lia|].
  rewrite Hlog. unfold retry_log.
  cbn [seq flat_map app device pos log st2 st0 after_read emit].
  rewrite Hdev, !Nat.add_succ_r, !Nat.add_0_r. reflexivity.
Qed.

Lemma handshake_gives_up_after_five_reads_witness :
  exists st',
    __enter__ 5 1 2 never_echoes = Raise IOError st'
    /\ pos st' = 5%nat
    /\ log st' =
         [EvRead 2000 (Some [2; 0xA1; 0; 0]); EvSleep 200;
          EvRead 2000 (Some [2; 0xA1; 0; 0]); EvSleep 200;
          EvRead 2000 (Some [2; 0xA1; 0; 0]); EvSleep 200;
          EvRead 2000 (Some [2; 0xA1; 0; 0]); EvSleep 200;
          EvRead 2000 (Some [2; 0xA1; 0; 0]);
          EvWrite [2; 0xA1; 1; 2]; EvSleep 500].
Proof.
  assert (no_echo 1 2 [2; 0xA1; 0; 0]) as Hno.
  { split.
    - intros [_ [= ]].
    - exists 2, 0. split; [reflexivity|split; [reflexivity|]]. left. lia. }
  exact (handshake_gives_up_after_five_reads 1 2 0 never_echoes
           [2; 0xA1; 0; 0] eq_refl eq_refl eq_refl Hno (fun _ _ => Hno)).
Defined.

(** The same count when the retries time out instead. *)
Example handshake_silent_after_first_reply :
  (fun st => rev (log st))
    <$> final (__enter__ 5 1 2
                 {| device := script [Some [2; 0xA1; 0; 0]];
                    pos := 0; log := [] |}) =
    Some [EvSleep 500; EvWrite [2; 0xA1; 1; 2];
          EvRead 2000 (Some [2; 0xA1; 0; 0]);
          EvSleep 200; EvRead 2000 None; EvSleep 200; EvRead 2000 None;
          EvSleep 200; EvRead 2000 None; EvSleep 200; EvRead 2000 None].
Proof. reflexivity. Qed.

(** A transport that is silent from the start does not reach the retry
    loop: the [TimeoutError] of the first exchange has no handler in
    [_ping] and leaves [__enter__] as it is. *)
Example handshake_silent_device fuel :
  __enter__ fuel 1 2 {| device := fun _ => None; pos := 0; log := [] |} =
    Raise TimeoutError
      {| device := fun _ => None; pos := 1;
         log := [EvRead 2000 None; EvWrite [2; 0xA1; 1; 2]; EvSleep 500] |}.
Proof. reflexivity. Qed.

(** ** Counting [END_MEMORYMGMT] commands *)

Lemma quiet_ret {A} (a : A) : quiet (ret a).
Proof. intros st st' [= <-]. reflexivity. Qed.

Lemma quiet_raise {A} e : quiet (raise (A := A) e).
Proof. intros st st' [= <-]. reflexivity. Qed.

Lemma quiet_bind {A B} (m : state -> result A) (k : A -> state -> result B) :
  quiet m -> (forall a, quiet (k a)) -> quiet (bind m k).
Proof.
  intros Hm Hk st st' H. unfold bind in H.
  destruct (m st) as [a st1|e st1|] eqn:E; [| |discriminate].
  - rewrite (Hk a st1 st' H). apply Hm. now rewrite E.
  - injection H as <-. apply Hm. now rewrite E.
Qed.

Lemma quiet_try_except {A} (m : state -> result A) h :
  quiet m -> (forall e k, h e = Some k -> quiet k) -> quiet (try_except m h).
Proof.
  intros Hm Hh st st' H. unfold try_except in H.
  destruct (m st) as [a st1|e st1|] eqn:E; [| |discriminate].
  - apply Hm. now rewrite E.
  - destruct (h e) as [k|] eqn:Ek.
    + rewrite (Hh e k Ek st1 st' H). apply Hm. now rewrite E.
    + apply Hm. now rewrite E.
Qed.

Lemma quiet_sleep ms : quiet (sleep ms).
Proof. intros st st' [= <-]. reflexivity. Qed.

Lemma quiet_read tmo : quiet (read tmo).
Proof.
  intros st st' H. unfold read in H.
  destruct (device st (pos st)); injection H as <-; reflexivity.
Qed.

Lemma quiet_item a i : quiet (item a i).
Proof.
  intros st st' H. unfold item in H.
  destruct (a !! i); injection H as <-; reflexivity.
Qed.

Lemma quiet_append a v : quiet (append a v).
Proof.
  intros st st' H. unfold append in H.
  destruct (is_byte v); injection H as <-; reflexivity.
Qed.

Lemma quiet_unlocking_report pkt : quiet (unlocking_report pkt).
Proof.
  unfold unlocking_report. apply quiet_bind; [apply quiet_item|].
  intros c. destruct (c =? _); [|apply quiet_ret].
  apply quiet_bind; [apply quiet_item|]. intros d. apply quiet_ret.
Qed.

Lemma quiet_retry_locked fuel :
  forall tmo res, quiet (retry_locked fuel tmo res).
Proof.
  induction fuel as [|n IH]; intros tmo res; [intros st st' [=]|].
  cbn [retry_locked].
  apply quiet_bind; [apply quiet_unlocking_report|].
  intros [|]; [|apply quiet_ret].
  apply quiet_bind; [|intros r; apply IH].
  apply quiet_try_except; [apply quiet_read|].
  intros e k Hk. destruct e; try discriminate Hk. injection Hk as <-.
  apply quiet_bind; [apply quiet_sleep|]. intros _. apply quiet_ret.
Qed.

Lemma quiet_read_data fuel kw : quiet (_read_data fuel kw).
Proof.
  unfold _read_data. apply quiet_bind; [apply quiet_read|]. intros res.
  apply quiet_bind.
  - destruct (retry_on_locked kw); [apply quiet_retry_locked|].
    apply quiet_bind; [apply quiet_unlocking_report|].
    intros [|]; [apply quiet_raise|apply quiet_ret].
  - intros res'. apply quiet_bind; [apply quiet_item|].
    intros n. apply quiet_ret.
Qed.

Lemma cmd_code_END c :
  cmd_code c = cmd_code END_MEMORYMGMT -> c = END_MEMORYMGMT.
Proof. destruct c; intros H; try discriminate H; reflexivity. Qed.

(** [build_packet] leaves the state alone and puts the command at
    [CMD_INDEX]. *)
Lemma build_packet_inv command arg st :
  (exists packet,
      build_packet command arg st = Ok packet st
      /\ packet !! CMD_INDEX = Some (cmd_code command))
  \/ exists e, build_packet command arg st = Raise e st.
Proof.
  unfold build_packet, bind, append, ret.
  destruct (is_byte (Z.of_nat (List.length (List.concat arg))));
    [|right; eauto].
  rewrite cmd_code_byte. left. eexists. split; reflexivity.
Qed.

(** Only the command [END_MEMORYMGMT] sends an [END_MEMORYMGMT]. *)
Lemma quiet_send_command fuel command arg kw :
  command <> END_MEMORYMGMT -> quiet (_send_command fuel command arg kw).
Proof.
  intros Hc st st' H. unfold _send_command, bind in H.
  destruct (build_packet_inv command arg st) as [(packet & E & Hcmd)|[e E]];
    rewrite E in H; [|now injection H as <-].
  cbn [write] in H. rewrite (quiet_read_data fuel kw _ _ H).
  unfold ENDs. cbn [emit log List.filter is_END]. rewrite Hcmd.
  destruct (Z.eqb_spec (cmd_code command) (cmd_code END_MEMORYMGMT))
    as [Heq|]; [|reflexivity].
  now apply cmd_code_END in Heq.
Qed.

Lemma quiet_get_status fuel : quiet (get_status fuel).
Proof.
  unfold get_status. apply quiet_bind.
  - apply quiet_try_except; [now apply quiet_send_command|].
    intros e k Hk. destruct e; try discriminate Hk. injection Hk as <-.
    apply quiet_ret.
  - intros res. apply quiet_bind; [apply quiet_item|]. intros r0.
    destruct (STATUS r0); [apply quiet_ret|apply quiet_raise].
Qed.

Lemma quiet_wait_loop fuel : forall res, quiet (wait_loop fuel res).
Proof.
  induction fuel as [|n IH]; intros res; [intros st st' [=]|].
  cbn [wait_loop]. apply quiet_bind; [apply quiet_item|]. intros r0.
  destruct (r0 =? _); [apply quiet_ret|].
  apply quiet_bind; [|intros r; apply IH].
  apply quiet_try_except; [now apply quiet_send_command|].
  intros e k Hk.
  destruct e; try discriminate Hk; injection Hk as <-;
    (apply quiet_bind; [apply quiet_sleep|]; intros _; apply quiet_ret).
Qed.

Lemma quiet_wait_status_unlocked fuel : quiet (wait_status_unlocked fuel).
Proof.
  unfold wait_status_unlocked.
  apply quiet_bind; [apply quiet_get_status|]. intros entry.
  apply quiet_wait_loop.
Qed.

(** ** Memory-management mode: entry and exit are paired *)

(** The locals tell how the entry went: once [_res] is bound, its first
    byte decides between [_success = True] with a normal end of the
    [try] block and [_success = None] with [InterruptedError]; and no
    [END_MEMORYMGMT] was sent on the way. *)
Lemma start_loop_frame fuel :
  forall st fr entered reply r0,
    start_loop fuel st = (fr, entered) ->
    _res fr = Some reply ->
    reply !! 0%nat = Some r0 ->
    exists st1,
      ENDs st1 = ENDs st
      /\ if r0 =? SUCCESS
         then _success fr = Some true /\ entered = Ok tt st1
         else _success fr = None /\ entered = Raise InterruptedError st1.
Proof.
  induction fuel as [|n IH]; intros st fr entered reply r0 H Hres Hr0;
    cbn [start_loop] in H.
  { injection H as <- <-. discriminate Hres. }
  destruct (_send_command n START_MEMORYMGMT [] start_kwargs st)
    as [res st1|e st1|] eqn:E.
  - assert (ENDs st1 = ENDs st) as Hq.
    { apply (quiet_send_command n START_MEMORYMGMT [] start_kwargs);
        [discriminate|now rewrite E]. }
    unfold item in H. destruct (res !! 0%nat) as [r|] eqn:Hr.
    + destruct (r =? SUCCESS) eqn:Hs; injection H as <- <-;
        injection Hres as <-; rewrite Hr in Hr0; injection Hr0 as <-;
        exists st1; rewrite Hs; auto.
    + injection H as <- <-. injection Hres as <-. congruence.
  - assert (ENDs st1 = ENDs st) as Hq.
    { apply (quiet_send_command n START_MEMORYMGMT [] start_kwargs);
        [discriminate|now rewrite E]. }
    destruct e; try (injection H as <- <-; discriminate Hres).
    destruct (IH _ _ _ _ _ H Hres Hr0) as (st2 & Hq2 & Hout).
    exists st2. split; [|exact Hout]. now rewrite Hq2.
  - injection H as <- <-. discriminate Hres.
Qed.

Lemma mgmt_enter_frame fuel st fr entered reply r0 :
  mgmt_enter fuel st = (fr, entered) ->
  _res fr = Some reply ->
  reply !! 0%nat = Some r0 ->
  exists st1,
    ENDs st1 = ENDs st
    /\ if r0 =? SUCCESS
       then _success fr = Some true /\ entered = Ok tt st1
       else _success fr = None /\ entered = Raise InterruptedError st1.
Proof.
  unfold mgmt_enter. intros H Hres Hr0.
  destruct (wait_status_unlocked fuel st) as [[] st0|e st0|] eqn:E;
    try (injection H as <- <-; discriminate Hres).
  destruct (start_loop_frame _ _ _ _ _ _ H Hres Hr0) as (st1 & Hq & Hout).
  exists st1. split; [|exact Hout].
  rewrite Hq. apply (quiet_wait_status_unlocked fuel). now rewrite E.
Qed.

(** The [finally] block with [_success] other than [None]: one
    [END_MEMORYMGMT] packet, one read. *)
Lemma mgmt_exit_sends fuel fr st flag :
  _success fr = Some flag ->
  final (mgmt_exit fuel fr st) =
    Some (after_read 1500
            (emit (EvWrite [0; cmd_code END_MEMORYMGMT]) st)).
Proof.
  intros Hs. unfold mgmt_exit. rewrite Hs. unfold bind.
  rewrite send_command_writes by (simpl; lia).
  pose proof (read_data_final fuel no_kwargs
                (emit (EvWrite [0; cmd_code END_MEMORYMGMT]) st) eq_refl)
    as Hf.
  cbn [List.concat List.length Z.of_nat] in *.
  now destruct (_read_data fuel no_kwargs _).
Qed.

Lemma ENDs_after_exit st :
  ENDs (after_read 1500 (emit (EvWrite [0; cmd_code END_MEMORYMGMT]) st))
  = S (ENDs st).
Proof. reflexivity. Qed.

(** Leaving a scope that was entered with [_success = True]: whatever
    way the body stopped, the [finally] block sends its packet. *)
Lemma entered_scope_final {A} fuel (body : state -> result A)
    st fr st1 stb :
  mgmt_enter fuel st = (fr, Ok tt st1) ->
  _success fr = Some true ->
  final (body st1) = Some stb ->
  final (_data_management_mode fuel body st) =
    Some (after_read 1500
            (emit (EvWrite [0; cmd_code END_MEMORYMGMT]) stb)).
Proof.
  intros Henter Hs Hb. unfold _data_management_mode. rewrite Henter.
  pose proof (mgmt_exit_sends fuel fr stb true Hs) as Hx.
  destruct (body st1) as [a st2|e st2|]; try discriminate Hb;
    injection Hb as ->; unfold bind;
    destruct (mgmt_exit fuel fr stb); try discriminate Hx; exact Hx.
Qed.

(** A scope whose entry was declined: [InterruptedError], and the
    [finally] block sends nothing. *)
Lemma declined_scope {A} fuel (body : state -> result A) st fr st1 :
  mgmt_enter fuel st = (fr, Raise InterruptedError st1) ->
  _success fr = None ->
  _data_management_mode fuel body st = Raise InterruptedError st1.
Proof.
  intros Henter Hs. unfold _data_management_mode. rewrite Henter.
  unfold mgmt_exit, bind. now rewrite Hs.
Qed.

(** C1. Entry and exit of the memory-management mode are paired.  Take a
    run whose [START_MEMORYMGMT] exchange returned [reply], with first
    byte [r0].  If [r0] is the success code, the mode is entered, no
    [END_MEMORYMGMT] has been sent by then, and whenever the enclosed
    operation stops, by returning or by raising, the scope ends by
    sending one [END_MEMORYMGMT] packet, and reading once, right after
    it: one more [END_MEMORYMGMT] than the enclosed operation left.  If
    [r0] is anything else, the scope raises [InterruptedError] and no
    [END_MEMORYMGMT] is sent. *)
Theorem data_management_mode_pairing {A} fuel (body : state -> result A)
    st fr entered reply r0 :
  mgmt_enter fuel st = (fr, entered) ->
  _res fr = Some reply ->
  reply !! 0%nat = Some r0 ->
  if r0 =? SUCCESS then
    exists st1,
      entered = Ok tt st1
      /\ ENDs st1 = ENDs st
      /\ forall stb,
           final (body st1) = Some stb ->
           final (_data_management_mode fuel body st) =
             Some (after_read 1500
                     (emit (EvWrite [0; cmd_code END_MEMORYMGMT]) stb))
           /\ (ENDs stb = ENDs st1 ->
               forall stf,
                 final (_data_management_mode fuel body st) = Some stf ->
                 ENDs stf = S (ENDs st))
  else
    exists st1,
      _data_management_mode fuel body st = Raise InterruptedError st1
      /\ ENDs st1 = ENDs st.
Proof.
  intros Henter Hres Hr0.
  destruct (mgmt_enter_frame _ _ _ _ _ _ Henter Hres Hr0) as (st1 & Hq & Hout).
  destruct (r0 =? SUCCESS).
  - destruct Hout as [Hs ->]. exists st1. split; [reflexivity|].
    split; [exact Hq|]. intros stb Hb.
    pose proof (entered_scope_final fuel body st fr st1 stb Henter Hs Hb)
      as Hfinal.
    split; [exact Hfinal|].
    intros Hbq stf Hf. rewrite Hfinal in Hf. injection Hf as <-.
    rewrite ENDs_after_exit. congruence.
  - destruct Hout as [Hs ->]. exists st1. split; [|exact Hq].
    now apply declined_scope with (fr := fr).
Qed.

(** The enclosed operation raises; the scope still sends its one
    [END_MEMORYMGMT]. *)
Lemma data_management_mode_pairing_witness :
  exists st1,
    snd (mgmt_enter 2 grants_mode) = Ok tt st1
    /\ ENDs st1 = ENDs grants_mode
    /\ forall stb,
         final (raise (A := unit) ValueError st1) = Some stb ->
         final (_data_management_mode 2 (raise (A := unit) ValueError)
                  grants_mode) =
           Some (after_read 1500
                   (emit (EvWrite [0; cmd_code END_MEMORYMGMT]) stb))
         /\ (ENDs stb = ENDs st1 ->
             forall stf,
               final (_data_management_mode 2 (raise (A := unit) ValueError)
                        grants_mode) = Some stf ->
               ENDs stf = S (ENDs grants_mode)).
Proof.
  exact (data_management_mode_pairing 2 (raise (A := unit) ValueError)
           grants_mode _ _ [1] 1 eq_refl eq_refl eq_refl).
Defined.

(** That run, oldest event first. *)
Example raising_body_run :
  _data_management_mode 2 (raise (A := unit) ValueError) grants_mode =
    Raise ValueError
      {| device := device grants_mode; pos := 3;
         log := rev [EvWrite [0; 0xB9]; EvRead 1500 (Some [1; 0xB9; 5]);
                     EvWrite [0; 0xAD]; EvRead 2000 (Some [1; 0xAD; 1]);
                     EvWrite [0; 0xD3]; EvRead 1500 (Some [1; 0xD3; 1])] |}.
Proof. reflexivity. Qed.

(** A declined entry: the user refused on the device. *)
Example declined_run :
  _data_management_mode 2 (ret tt)
    {| device := script [Some [1; 0xB9; 5]; Some [1; 0xAD; 0]];
       pos := 0; log := [] |} =
    Raise InterruptedError
      {| device := script [Some [1; 0xB9; 5]; Some [1; 0xAD; 0]]; pos := 2;
         log := rev [EvWrite [0; 0xB9]; EvRead 1500 (Some [1; 0xB9; 5]);
                     EvWrite [0; 0xAD]; EvRead 2000 (Some [1; 0xAD; 0])] |}.
Proof. reflexivity. Qed.

(** ** Favorites *)

(** A turn of the loop leaves the mapping as it was or binds its own
    slot. *)
Lemma fav_slot_keeps fuel slot (favs favs' : gmap Z favorite) st st' :
  fav_slot fuel slot favs st = Ok favs' st' ->
  favs' = favs \/ exists entry, favs' = <[slot := entry]> favs.
Proof.
  unfold fav_slot. intros H.
  unfold bind at 1 in H.
  destruct (append [] slot st) as [arg s1|?|]; try discriminate H.
  unfold bind at 1 in H.
  destruct (_send_command fuel GET_FAVORITE [arg] no_kwargs s1)
    as [data s2|?|]; try discriminate H.
  unfold bind at 1 in H.
  destruct (slot_empty data s2) as [[|] s3|?|]; try discriminate H.
  { left. now injection H as <- _. }
  unfold bind at 1 in H.
  destruct (read_node fuel (slice data 0 2) s3) as [parent s4|?|];
    try discriminate H.
  unfold bind at 1 in H.
  destruct (read_node fuel (slice data 2 4) s4) as [child s5|?|];
    try discriminate H.
  right. injection H as <- _. eauto.
Qed.

Lemma fav_loop_other fuel slots :
  forall (favs favs' : gmap Z favorite) st st' k,
    k ∉ slots ->
    fav_loop fuel slots favs st = Ok favs' st' ->
    favs' !! k = favs !! k.
Proof.
  induction slots as [|slot rest IH]; intros favs favs' st st' k Hk H.
  - now injection H as <- _.
  - apply not_elem_of_cons in Hk as [Hne Hk].
    cbn [fav_loop] in H. unfold bind in H.
    destruct (fav_slot fuel slot favs st) as [favs1 st1|?|] eqn:E;
      try discriminate H.
    rewrite (IH _ _ _ _ _ Hk H).
    destruct (fav_slot_keeps _ _ _ _ _ _ E) as [->|[entry ->]];
      [reflexivity|].
    now apply lookup_insert_ne.
Qed.

Lemma fav_loop_app fuel slots1 slots2 (favs : gmap Z favorite) st :
  fav_loop fuel (slots1 ++ slots2) favs st =
    (let* favs1 := fav_loop fuel slots1 favs in
     fav_loop fuel slots2 favs1) st.
Proof.
  revert favs st. induction slots1 as [|slot rest IH]; intros favs st;
    [reflexivity|].
  cbn [app fav_loop]. unfold bind.
  destruct (fav_slot fuel slot favs st) as [favs1 st1|?|]; try reflexivity.
  rewrite IH. reflexivity.
Qed.

(** The turn for a slot whose [GET_FAVORITE] reply starts with two zero
    bytes is that exchange and nothing else. *)
Lemma fav_slot_empty fuel slot (favs : gmap Z favorite) st reply st1 :
  is_byte slot = true ->
  _send_command fuel GET_FAVORITE [[slot]] no_kwargs st = Ok reply st1 ->
  reply !! 0%nat = Some 0 ->
  reply !! 1%nat = Some 0 ->
  fav_slot fuel slot favs st = Ok favs st1.
Proof.
  intros Hb Hx H0 H1. unfold fav_slot, bind, append. rewrite Hb.
  cbn [app]. rewrite Hx. unfold slot_empty, bind, item, ret.
  now rewrite H0, H1.
Qed.

(** C5. An empty favorite slot is left out.  Take a slot index between
    0 and 13 that the loop of [get_favorites_list] reaches, the mode
    having been entered, and let the [GET_FAVORITE] reply for it start
    with the address bytes 0 and 0.  Then the turn for that slot
    consists of the [GET_FAVORITE] exchange alone (one packet written,
    one read: no [READ_FLASH_NODE]) and leaves the mapping untouched;
    and a mapping that [get_favorites_list] returns has no entry for
    that slot. *)
Theorem empty_favorite_slot_omitted fuel slot s fr st0 favs st reply st1 :
  0 <= slot < 14 ->
  mgmt_enter fuel s = (fr, Ok tt st0) ->
  fav_loop fuel (seqZ 0 slot) ∅ st0 = Ok favs st ->
  _send_command fuel GET_FAVORITE [[slot]] no_kwargs st = Ok reply st1 ->
  reply !! 0%nat = Some 0 ->
  reply !! 1%nat = Some 0 ->
  fav_slot fuel slot favs st = Ok favs st1
  /\ log st1 =
       EvRead 1500 (device st (pos st))
         :: EvWrite [1; cmd_code GET_FAVORITE; slot] :: log st
  /\ forall result s',
       get_favorites_list fuel s = Ok result s' ->
       result !! slot = None.
Proof.
  intros Hslot Henter Hpre Hx H0 H1.
  assert (is_byte slot = true) as Hb.
  { unfold is_byte. apply andb_true_iff. split; apply Z.leb_le; lia. }
  pose proof (fav_slot_empty fuel slot favs st reply st1 Hb Hx H0 H1) as Hturn.
  split; [exact Hturn|split].
  - rewrite send_command_writes in Hx by (simpl; lia).
    pose proof (read_data_final fuel no_kwargs
                  (emit (EvWrite [1; cmd_code GET_FAVORITE; slot]) st)
                  eq_refl) as Hf.
    change (_read_data fuel no_kwargs
              (emit (EvWrite [1; cmd_code GET_FAVORITE; slot]) st)
            = Ok reply st1) in Hx.
    rewrite Hx in Hf. now injection Hf as ->.
  - intros result s' Hget.
    unfold get_favorites_list, _data_management_mode in Hget.
    rewrite Henter in Hget.
    destruct (fav_loop fuel (seqZ 0 14) ∅ st0) as [favs14 st2|?|] eqn:Hloop;
      [| |discriminate Hget].
    2:{ unfold bind in Hget.
        destruct (mgmt_exit fuel fr _); discriminate Hget. }
    assert (result = favs14) as ->.
    { unfold bind in Hget.
      destruct (mgmt_exit fuel fr st2); try discriminate Hget.
      now injection Hget as <- _. }
    replace 14 with (slot + (1 + (13 - slot))) in Hloop by lia.
    rewrite seqZ_app, (seqZ_cons (0 + slot)) in Hloop by lia.
    rewrite fav_loop_app in Hloop. unfold bind in Hloop.
    rewrite Hpre in Hloop. cbn [fav_loop] in Hloop. unfold bind in Hloop.
    rewrite Z.add_0_l in Hloop. rewrite Hturn in Hloop.
    apply (fav_loop_other _ _ _ _ _ _ slot) in Hloop;
      [|rewrite elem_of_seqZ; lia].
    apply (fav_loop_other _ _ _ _ _ _ slot) in Hpre;
      [|rewrite elem_of_seqZ; lia].
    rewrite Hloop, Hpre. apply lookup_empty.
Qed.

Lemma empty_favorite_slot_omitted_witness :
  exists result s',
    get_favorites_list 2 all_empty = Ok result s'
    /\ result !! 3 = None.
Proof.
  pose (st0 := stopped (snd (mgmt_enter 2 all_empty)) all_empty).
  pose (st := stopped (fav_loop 2 (seqZ 0 3) ∅ st0) all_empty).
  pose (st1 := stopped (fav_slot 2 3 ∅ st) all_empty).
  pose (s' := stopped (get_favorites_list 2 all_empty) all_empty).
  assert (mgmt_enter 2 all_empty = (fst (mgmt_enter 2 all_empty), Ok tt st0))
    as Henter by (vm_compute; reflexivity).
  assert (fav_loop 2 (seqZ 0 3) ∅ st0 = Ok ∅ st) as Hpre
    by (vm_compute; reflexivity).
  assert (_send_command 2 GET_FAVORITE [[3]] no_kwargs st
          = Ok [0; 0; 0; 0] st1) as Hx
    by (vm_compute; reflexivity).
  assert (get_favorites_list 2 all_empty = Ok ∅ s') as Hget
    by (vm_compute; reflexivity).
  exists ∅, s'. split; [exact Hget|].
  exact (proj2 (proj2 (empty_favorite_slot_omitted 2 3 all_empty _ st0 ∅ st
                         [0; 0; 0; 0] st1 ltac:(lia) Henter Hpre Hx
                         eq_refl eq_refl)) ∅ s' Hget).
Defined.

(** A device whose slot 0 is bound and whose other slots are empty:
    the parent node gives the context, the child node the login. *)
Example one_favorite :
  let st :=
    {| device :=
         script ([Some [1; 0xB9; 5]; Some [1; 0xAD; 1];
                  Some [4; 0xC7; 1; 2; 3; 4];
                  Some [10; 0xC5; 0; 0; 0; 0; 0; 0; 0; 0; 103; 105];
                  Some [3; 0xC5; 116; 0; 7];
                  Some [1; 0xC5; 0];
                  Some [2; 0xC5; 0; 0];
                  Some ([36; 0xC5] ++ replicate 35 0 ++ [97]);
                  Some [2; 0xC5; 98; 0]]
                   ++ replicate 13 (Some [4; 0xC7; 0; 0; 0; 0])
                   ++ [Some [1; 0xD3; 1]]);
       pos := 0; log := [] |} in
  match get_favorites_list 2 st with
  | Ok result _ => map_to_list result
  | _ => []
  end = [(0, {| context := "git"; login := "ab" |})].
Proof. vm_compute. reflexivity. Qed.

Lemma quiet_read_node fuel addr : quiet (read_node fuel addr).
Proof.
  unfold read_node.
  apply quiet_bind; [now apply quiet_send_command|]. intros node.
  apply quiet_bind; [apply quiet_read_data|]. intros more.
  apply quiet_bind; [apply quiet_read_data|]. intros more'.
  apply quiet_ret.
Qed.

Lemma quiet_fav_slot fuel slot (favs : gmap Z favorite) :
  quiet (fav_slot fuel slot favs).
Proof.
  unfold fav_slot.
  apply quiet_bind; [apply quiet_append|]. intros arg.
  apply quiet_bind; [now apply quiet_send_command|]. intros data.
  apply quiet_bind.
  { unfold slot_empty. apply quiet_bind; [apply quiet_item|]. intros a.
    destruct (a =? 0); [|apply quiet_ret].
    apply quiet_bind; [apply quiet_item|]. intros b. apply quiet_ret. }
  intros [|]; [apply quiet_ret|].
  apply quiet_bind; [apply quiet_read_node|]. intros parent.
  apply quiet_bind; [apply quiet_read_node|]. intros child.
  apply quiet_ret.
Qed.

Lemma quiet_fav_loop fuel slots :
  forall favs : gmap Z favorite, quiet (fav_loop fuel slots favs).
Proof.
  induction slots as [|slot rest IH]; intros favs; cbn [fav_loop];
    [apply quiet_ret|].
  apply quiet_bind; [apply quiet_fav_slot|]. exact IH.
Qed.

(** The pairing, for [get_favorites_list] itself: its loop sends no
    [END_MEMORYMGMT], so a granted run that stops has sent exactly one,
    and a declined run none. *)
Corollary get_favorites_list_pairing fuel st fr entered reply r0 :
  mgmt_enter fuel st = (fr, entered) ->
  _res fr = Some reply ->
  reply !! 0%nat = Some r0 ->
  if r0 =? SUCCESS then
    forall stf,
      final (get_favorites_list fuel st) = Some stf ->
      ENDs stf = S (ENDs st)
  else
    exists st1,
      get_favorites_list fuel st = Raise InterruptedError st1
      /\ ENDs st1 = ENDs st.
Proof.
  intros Henter Hres Hr0.
  destruct (mgmt_enter_frame _ _ _ _ _ _ Henter Hres Hr0) as (st1 & Hq & Hout).
  unfold get_favorites_list. destruct (r0 =? SUCCESS).
  - destruct Hout as [Hs ->]. intros stf Hf.
    destruct (final (fav_loop fuel (seqZ 0 14) ∅ st1)) as [stb|] eqn:Hb.
    + rewrite (entered_scope_final _ _ _ _ _ _ Henter Hs Hb) in Hf.
      injection Hf as <-. rewrite ENDs_after_exit. f_equal.
      rewrite <- Hq. now apply (quiet_fav_loop fuel (seqZ 0 14) ∅).
    + unfold _data_management_mode in Hf. rewrite Henter in Hf.
      destruct (fav_loop fuel (seqZ 0 14) ∅ st1); discriminate.
  - destruct Hout as [Hs ->]. exists st1. split; [|exact Hq].
    now apply declined_scope with (fr := fr).
Qed.

(** * More of the session *)

(** ** What a run writes *)

Section Written.

Context (P : DataBuffer -> Prop).

Lemma keeps_ret {A} (a : A) : keeps (written P) (ret a).
Proof. intros st st' [= <-] H. exact H. Qed.

Lemma keeps_raise {A} e : keeps (written P) (raise (A := A) e).
Proof. intros st st' [= <-] H. exact H. Qed.

Lemma keeps_bind {A B} (m : state -> result A) (k : A -> state -> result B) :
  keeps (written P) m -> (forall a, keeps (written P) (k a)) ->
  keeps (written P) (bind m k).
Proof.
  intros Hm Hk st st' H HI. unfold bind in H.
  destruct (m st) as [a st1|e st1|] eqn:E; [| |discriminate].
  - apply (Hk a st1 st' H). apply (Hm st st1); [now rewrite E|exact HI].
  - injection H as <-. apply (Hm st st1); [now rewrite E|exact HI].
Qed.

Lemma keeps_try_except {A} (m : state -> result A) h :
  keeps (written P) m ->
  (forall e k, h e = Some k -> keeps (written P) k) ->
  keeps (written P) (try_except m h).
Proof.
  intros Hm Hh st st' H HI. unfold try_except in H.
  destruct (m st) as [a st1|e st1|] eqn:E; [| |discriminate].
  - apply (Hm st st'); [now rewrite E|exact HI].
  - assert (written P (log st1)) as HI1
      by (apply (Hm st st1); [now rewrite E|exact HI]).
    destruct (h e) as [k|] eqn:Ek.
    + exact (Hh e k Ek st1 st' H HI1).
    + now injection H as <-.
Qed.

Lemma written_cons_other ev l :
  (forall packet, ev <> EvWrite packet) ->
  written P l -> written P (ev :: l).
Proof.
  intros Hev H packet Hin. apply elem_of_cons in Hin as [Heq|Hin].
  - symmetry in Heq. now destruct (Hev packet).
  - now apply H.
Qed.

Lemma written_cons_write packet l :
  P packet -> written P l -> written P (EvWrite packet :: l).
Proof.
  intros Hp H packet' Hin. apply elem_of_cons in Hin as [[= ->]|Hin].
  - exact Hp.
  - now apply H.
Qed.

Lemma keeps_sleep ms : keeps (written P) (sleep ms).
Proof.
  intros st st' [= <-] H. cbn [emit log].
  now apply written_cons_other.
Qed.

Lemma keeps_read tmo : keeps (written P) (read tmo).
Proof.
  intros st st' H HI. unfold read in H.
  destruct (device st (pos st)); injection H as <-; cbn [log];
    now apply written_cons_other.
Qed.

Lemma keeps_item a i : keeps (written P) (item a i).
Proof.
  intros st st' H HI. unfold item in H.
  destruct (a !! i); now injection H as <-.
Qed.

Lemma keeps_append a v : keeps (written P) (append a v).
Proof.
  intros st st' H HI. unfold append in H.
  destruct (is_byte v); now injection H as <-.
Qed.

Lemma keeps_unlocking_report pkt : keeps (written P) (unlocking_report pkt).
Proof.
  unfold unlocking_report. apply keeps_bind; [apply keeps_item|].
  intros c. destruct (c =? _); [|apply keeps_ret].
  apply keeps_bind; [apply keeps_item|]. intros d. apply keeps_ret.
Qed.

Lemma keeps_retry_locked fuel :
  forall tmo res, keeps (written P) (retry_locked fuel tmo res).
Proof.
  induction fuel as [|n IH]; intros tmo res; [intros st st' [=]|].
  cbn [retry_locked].
  apply keeps_bind; [apply keeps_unlocking_report|].
  intros [|]; [|apply keeps_ret].
  apply keeps_bind; [|intros r; apply IH].
  apply keeps_try_except; [apply keeps_read|].
  intros e k Hk. destruct e; try discriminate Hk. injection Hk as <-.
  apply keeps_bind; [apply keeps_sleep|]. intros _. apply keeps_ret.
Qed.

Lemma keeps_read_data fuel kw : keeps (written P) (_read_data fuel kw).
Proof.
  unfold _read_data. apply keeps_bind; [apply keeps_read|]. intros res.
  apply keeps_bind.
  - destruct (retry_on_locked kw); [apply keeps_retry_locked|].
    apply keeps_bind; [apply keeps_unlocking_report|].
    intros [|]; [apply keeps_raise|apply keeps_ret].
  - intros res'. apply keeps_bind; [apply keeps_item|].
    intros n. apply keeps_ret.
Qed.

(** An exchange adds the one packet of its command. *)
Lemma keeps_send_command fuel command arg kw :
  (forall payload,
      (List.length payload <= 255)%nat ->
      P (Z.of_nat (List.length payload) :: cmd_code command :: payload)) ->
  keeps (written P) (_send_command fuel command arg kw).
Proof.
  intros Hp st st' H HI. unfold _send_command, bind in H.
  unfold build_packet, bind, append, ret in H.
  destruct (is_byte (Z.of_nat (List.length (List.concat arg)))) eqn:Hb;
    [|now injection H as <-].
  rewrite cmd_code_byte in H. cbn [write app] in H.
  apply (keeps_read_data fuel kw _ st' H). cbn [emit log].
  apply written_cons_write; [|exact HI].
  apply Hp. unfold is_byte in Hb. apply andb_true_iff in Hb as [_ Hb].
  apply Z.leb_le in Hb. lia.
Qed.

End Written.

Section WrittenBySession.

Context (P : DataBuffer -> Prop).

Lemma keeps_exchange fuel command arg kw :
  frames P command -> keeps (written P) (_send_command fuel command arg kw).
Proof. intros H. apply keeps_send_command. exact H. Qed.

Lemma keeps_get_status fuel :
  frames P MOOLTIPASS_STATUS -> keeps (written P) (get_status fuel).
Proof.
  intros Hs. unfold get_status. apply keeps_bind.
  - apply keeps_try_except; [now apply keeps_exchange|].
    intros e k Hk. destruct e; try discriminate Hk. injection Hk as <-.
    apply keeps_ret.
  - intros res. apply keeps_bind; [apply keeps_item|]. intros r0.
    destruct (STATUS r0); [apply keeps_ret|apply keeps_raise].
Qed.

Lemma keeps_wait_loop fuel :
  frames P MOOLTIPASS_STATUS ->
  forall res, keeps (written P) (wait_loop fuel res).
Proof.
  intros Hs. induction fuel as [|n IH]; intros res; [intros st st' [=]|].
  cbn [wait_loop]. apply keeps_bind; [apply keeps_item|]. intros r0.
  destruct (r0 =? _); [apply keeps_ret|].
  apply keeps_bind; [|intros r; apply IH].
  apply keeps_try_except; [now apply keeps_exchange|].
  intros e k Hk.
  destruct e; try discriminate Hk; injection Hk as <-;
    (apply keeps_bind; [apply keeps_sleep|]; intros _; apply keeps_ret).
Qed.

Lemma keeps_wait_status_unlocked fuel :
  frames P MOOLTIPASS_STATUS ->
  keeps (written P) (wait_status_unlocked fuel).
Proof.
  intros Hs. unfold wait_status_unlocked.
  apply keeps_bind; [now apply keeps_get_status|]. intros entry.
  now apply keeps_wait_loop.
Qed.

Lemma keeps_ping_loop fuel :
  forall _data res retries,
    keeps (written P) (ping_loop fuel _data res retries).
Proof.
  induction fuel as [|n IH]; intros _data res retries;
    [intros st st' [=]|].
  cbn [ping_loop]. apply keeps_bind.
  { unfold ping_unanswered. destruct res as [r|]; [|apply keeps_ret].
    apply keeps_bind; [apply keeps_item|]. intros a.
    apply keeps_bind; [apply keeps_item|]. intros d0.
    destruct (a =? d0); [|apply keeps_ret].
    apply keeps_bind; [apply keeps_item|]. intros b.
    apply keeps_bind; [apply keeps_item|]. intros d1. apply keeps_ret. }
  intros [|]; [|apply keeps_ret].
  destruct (retries >? _max_reties); [apply keeps_ret|].
  apply keeps_bind; [apply keeps_sleep|]. intros _.
  apply keeps_bind; [|intros r; apply IH].
  apply keeps_try_except.
  - apply keeps_bind; [apply keeps_read_data|]. intros r. apply keeps_ret.
  - intros e k Hk. destruct e; try discriminate Hk. injection Hk as <-.
    apply keeps_ret.
Qed.

Lemma keeps_ping fuel r0 r1 :
  frames P PING -> frames P MOOLTIPASS_STATUS ->
  keeps (written P) (_ping fuel r0 r1).
Proof.
  intros Hp Hs. unfold _ping.
  apply keeps_bind; [apply keeps_append|]. intros d.
  apply keeps_bind; [apply keeps_append|]. intros d'.
  apply keeps_bind; [|intros res; apply keeps_ping_loop].
  apply keeps_try_except.
  - apply keeps_bind; [now apply keeps_exchange|]. intros r.
    apply keeps_ret.
  - intros e k Hk. destruct e; try discriminate Hk; injection Hk as <-.
    + apply keeps_bind; [now apply keeps_wait_status_unlocked|]. intros _.
      apply keeps_bind; [now apply keeps_exchange|]. intros r.
      apply keeps_ret.
    + apply keeps_raise.
Qed.

Lemma keeps_enter fuel r0 r1 :
  frames P PING -> frames P MOOLTIPASS_STATUS -> frames P VERSION ->
  keeps (written P) (__enter__ fuel r0 r1).
Proof.
  intros Hp Hs Hv. unfold __enter__.
  apply keeps_bind; [apply keeps_sleep|]. intros _.
  apply keeps_bind; [now apply keeps_ping|]. intros answered.
  destruct (negb answered); [apply keeps_raise|].
  apply keeps_bind; [now apply keeps_exchange|]. intros res.
  apply keeps_bind; [apply keeps_item|]. intros _. apply keeps_ret.
Qed.

Lemma keeps_set_parameter fuel param value :
  frames P SET_MOOLTIPASS_PARM ->
  keeps (written P) (_set_parameter fuel param value).
Proof.
  intros Hc. unfold _set_parameter.
  apply keeps_bind.
  { unfold subscript. destruct (dict_get _ _);
      [apply keeps_ret|apply keeps_raise]. }
  intros index.
  apply keeps_bind; [apply keeps_append|]. intros d.
  apply keeps_bind; [apply keeps_append|]. intros d'.
  apply keeps_bind; [now apply keeps_exchange|]. intros res.
  apply keeps_bind; [apply keeps_item|]. intros r0.
  destruct (r0 =? SUCCESS); [apply keeps_ret|].
  apply keeps_bind; [apply keeps_raise|]. intros _. apply keeps_raise.
Qed.

Lemma keeps_get_parameter fuel param :
  frames P GET_MOOLTIPASS_PARM ->
  keeps (written P) (_get_parameter fuel param).
Proof.
  intros Hc. unfold _get_parameter.
  apply keeps_bind.
  { unfold subscript. destruct (dict_get _ _);
      [apply keeps_ret|apply keeps_raise]. }
  intros index.
  apply keeps_bind; [apply keeps_append|]. intros d.
  now apply keeps_exchange.
Qed.

Lemma keeps_select_keyboard_layout fuel layout :
  frames P SET_MOOLTIPASS_PARM ->
  keeps (written P) (select_keyboard_layout fuel layout).
Proof.
  intros Hc. unfold select_keyboard_layout.
  apply keeps_bind.
  { unfold subscript. destruct (dict_get _ _);
      [apply keeps_ret|apply keeps_raise]. }
  intros code. now apply keeps_set_parameter.
Qed.

Lemma keeps_get_keyboard_layout fuel :
  frames P GET_MOOLTIPASS_PARM ->
  keeps (written P) (get_keyboard_layout fuel).
Proof.
  intros Hc. unfold get_keyboard_layout.
  apply keeps_bind; [now apply keeps_get_parameter|]. intros res.
  apply keeps_bind; [apply keeps_item|]. intros r0. apply keeps_ret.
Qed.

Lemma keeps_start_loop fuel :
  frames P START_MEMORYMGMT ->
  forall st fr entered st',
    start_loop fuel st = (fr, entered) ->
    final entered = Some st' ->
    written P (log st) -> written P (log st').
Proof.
  intros Hc. induction fuel as [|n IH]; intros st fr entered st' H Hf HI;
    cbn [start_loop] in H.
  { injection H as <- <-. discriminate Hf. }
  pose proof (keeps_exchange n START_MEMORYMGMT [] start_kwargs Hc st) as Hx.
  destruct (_send_command n START_MEMORYMGMT [] start_kwargs st)
    as [res st1|e st1|] eqn:E.
  - specialize (Hx st1 eq_refl HI). unfold item in H.
    destruct (res !! 0%nat) as [r|];
      [destruct (r =? SUCCESS)|]; injection H as <- <-;
      now injection Hf as <-.
  - specialize (Hx st1 eq_refl HI).
    destruct e; try (injection H as <- <-; now injection Hf as <-).
    apply (IH _ _ _ _ H Hf). cbn [emit log].
    now apply written_cons_other.
  - injection H as <- <-. discriminate Hf.
Qed.

Lemma keeps_mgmt_enter fuel st fr entered st' :
  frames P MOOLTIPASS_STATUS -> frames P START_MEMORYMGMT ->
  mgmt_enter fuel st = (fr, entered) ->
  final entered = Some st' ->
  written P (log st) -> written P (log st').
Proof.
  intros Hs Hc H Hf HI. unfold mgmt_enter in H.
  pose proof (keeps_wait_status_unlocked fuel Hs st) as Hw.
  destruct (wait_status_unlocked fuel st) as [[] st0|e st0|].
  - apply (keeps_start_loop fuel Hc _ _ _ _ H Hf). now apply Hw.
  - injection H as <- <-. injection Hf as <-. now apply Hw.
  - injection H as <- <-. discriminate Hf.
Qed.

Lemma keeps_mgmt_exit fuel fr :
  frames P END_MEMORYMGMT -> keeps (written P) (mgmt_exit fuel fr).
Proof.
  intros Hc. unfold mgmt_exit. destruct (_success fr); [|apply keeps_ret].
  apply keeps_bind; [now apply keeps_exchange|]. intros _. apply keeps_ret.
Qed.

Lemma keeps_data_management_mode {A} fuel (body : state -> result A) :
  frames P MOOLTIPASS_STATUS -> frames P START_MEMORYMGMT ->
  frames P END_MEMORYMGMT ->
  keeps (written P) body ->
  keeps (written P) (_data_management_mode fuel body).
Proof.
  intros Hs Hc He Hbody st st' H HI. unfold _data_management_mode in H.
  destruct (mgmt_enter fuel st) as [fr entered] eqn:Henter.
  pose proof (keeps_mgmt_enter fuel st fr entered) as Hin.
  destruct entered as [[] st1|e st1|]; [| |discriminate H].
  - specialize (Hin st1 Hs Hc Henter eq_refl HI).
    pose proof (Hbody st1) as Hb.
    destruct (body st1) as [a st2|e st2|]; [| |discriminate H].
    + refine (keeps_bind P _ _ (keeps_mgmt_exit fuel fr He)
                (fun _ => keeps_ret P a) st2 st' H _). now apply Hb.
    + refine (keeps_bind P _ _ (keeps_mgmt_exit fuel fr He)
                (fun _ => keeps_raise P e) st2 st' H _). now apply Hb.
  - specialize (Hin st1 Hs Hc Henter eq_refl HI).
    exact (keeps_bind P _ _ (keeps_mgmt_exit fuel fr He)
             (fun _ => keeps_raise P e) st1 st' H Hin).
Qed.

Lemma keeps_read_node fuel addr :
  frames P READ_FLASH_NODE -> keeps (written P) (read_node fuel addr).
Proof.
  intros Hc. unfold read_node.
  apply keeps_bind; [now apply keeps_exchange|]. intros node.
  apply keeps_bind; [apply keeps_read_data|]. intros more.
  apply keeps_bind; [apply keeps_read_data|]. intros more'.
  apply keeps_ret.
Qed.

Lemma keeps_fav_slot fuel slot (favs : gmap Z favorite) :
  frames P GET_FAVORITE -> frames P READ_FLASH_NODE ->
  keeps (written P) (fav_slot fuel slot favs).
Proof.
  intros Hg Hr. unfold fav_slot.
  apply keeps_bind; [apply keeps_append|]. intros arg.
  apply keeps_bind; [now apply keeps_exchange|]. intros data.
  apply keeps_bind.
  { unfold slot_empty. apply keeps_bind; [apply keeps_item|]. intros a.
    destruct (a =? 0); [|apply keeps_ret].
    apply keeps_bind; [apply keeps_item|]. intros b. apply keeps_ret. }
  intros [|]; [apply keeps_ret|].
  apply keeps_bind; [now apply keeps_read_node|]. intros parent.
  apply keeps_bind; [now apply keeps_read_node|]. intros child.
  apply keeps_ret.
Qed.

Lemma keeps_fav_loop fuel slots :
  frames P GET_FAVORITE -> frames P READ_FLASH_NODE ->
  forall favs : gmap Z favorite, keeps (written P) (fav_loop fuel slots favs).
Proof.
  intros Hg Hr. induction slots as [|slot rest IH]; intros favs;
    cbn [fav_loop]; [apply keeps_ret|].
  apply keeps_bind; [now apply keeps_fav_slot|]. exact IH.
Qed.

Lemma keeps_get_favorites_list fuel :
  frames P MOOLTIPASS_STATUS -> frames P START_MEMORYMGMT ->
  frames P END_MEMORYMGMT -> frames P GET_FAVORITE ->
  frames P READ_FLASH_NODE ->
  keeps (written P) (get_favorites_list fuel).
Proof.
  intros Hs Hc He Hg Hr. unfold get_favorites_list.
  apply keeps_data_management_mode; try assumption.
  now apply keeps_fav_loop.
Qed.

End WrittenBySession.

Lemma frames_well_framed c : frames well_framed c.
Proof.
  intros payload Hlen. exists (List.length payload), c, payload. auto.
Qed.

Lemma frames_opcode_among allowed c :
  c ∈ allowed -> frames (opcode_among allowed) c.
Proof. intros Hc payload _. exists c. split; [exact Hc|reflexivity]. Qed.

Lemma written_nil P : written P [].
Proof. intros packet Hin. now apply elem_of_nil in Hin. Qed.

(** X1. Every packet the session writes is well framed: whatever
    operation runs, for however long and however it ends, each packet
    it has handed to [write] is a length byte, an opcode of
    [MooltipassCmd] and exactly as many payload bytes as the length byte
    says. *)
Theorem session_packets_well_framed fuel st st' :
  written well_framed (log st) ->
  (forall r0 r1,
      final (__enter__ fuel r0 r1 st) = Some st' ->
      written well_framed (log st'))
  /\ (final (get_status fuel st) = Some st' ->
      written well_framed (log st'))
  /\ (final (wait_status_unlocked fuel st) = Some st' ->
      written well_framed (log st'))
  /\ (forall param value,
        final (_set_parameter fuel param value st) = Some st' ->
        written well_framed (log st'))
  /\ (forall param,
        final (_get_parameter fuel param st) = Some st' ->
        written well_framed (log st'))
  /\ (forall layout,
        final (select_keyboard_layout fuel layout st) = Some st' ->
        written well_framed (log st'))
  /\ (final (get_keyboard_layout fuel st) = Some st' ->
      written well_framed (log st'))
  /\ (final (get_favorites_list fuel st) = Some st' ->
      written well_framed (log st')).
Proof.
  intros HI. repeat split.
  - intros r0 r1 H.
    refine (keeps_enter _ fuel r0 r1 _ _ _ st st' H HI);
      apply frames_well_framed.
  - intros H.
    refine (keeps_get_status _ fuel _ st st' H HI); apply frames_well_framed.
  - intros H.
    refine (keeps_wait_status_unlocked _ fuel _ st st' H HI);
      apply frames_well_framed.
  - intros param value H.
    refine (keeps_set_parameter _ fuel param value _ st st' H HI);
      apply frames_well_framed.
  - intros param H.
    refine (keeps_get_parameter _ fuel param _ st st' H HI);
      apply frames_well_framed.
  - intros layout H.
    refine (keeps_select_keyboard_layout _ fuel layout _ st st' H HI);
      apply frames_well_framed.
  - intros H.
    refine (keeps_get_keyboard_layout _ fuel _ st st' H HI);
      apply frames_well_framed.
  - intros H.
    refine (keeps_get_favorites_list _ fuel _ _ _ _ _ st st' H HI);
      apply frames_well_framed.
Qed.

Lemma session_packets_well_framed_witness :
  written well_framed (log (stopped (get_favorites_list 2 all_empty) all_empty)).
Proof.
  refine (proj2 (proj2 (proj2 (proj2 (proj2 (proj2 (proj2
            (session_packets_well_framed 2 all_empty
               (stopped (get_favorites_list 2 all_empty) all_empty)
               (written_nil _)))))))) _).
  vm_compute. reflexivity.
Defined.

(** X2. [get_favorites_list] only reads from the device: the packets it
    writes are status queries, the entry to and the exit from the
    memory-management mode, [GET_FAVORITE] and [READ_FLASH_NODE], and
    nothing else, whatever the device answers and however the call
    ends. *)
Theorem get_favorites_list_read_only fuel st st' :
  let allowed := [MOOLTIPASS_STATUS; START_MEMORYMGMT; GET_FAVORITE;
                  READ_FLASH_NODE; END_MEMORYMGMT] in
  written (opcode_among allowed) (log st) ->
  final (get_favorites_list fuel st) = Some st' ->
  written (opcode_among allowed) (log st').
Proof.
  intros allowed HI H.
  refine (keeps_get_favorites_list _ fuel _ _ _ _ _ st st' H HI);
    apply frames_opcode_among; unfold allowed;
    rewrite !elem_of_cons; tauto.
Qed.

Lemma get_favorites_list_read_only_witness :
  written (opcode_among [MOOLTIPASS_STATUS; START_MEMORYMGMT; GET_FAVORITE;
                         READ_FLASH_NODE; END_MEMORYMGMT])
    (log (stopped (get_favorites_list 2 all_empty) all_empty)).
Proof.
  refine (get_favorites_list_read_only 2 all_empty
            (stopped (get_favorites_list 2 all_empty) all_empty)
            (written_nil _) _).
  vm_compute. reflexivity.
Defined.

(** X3. Connecting writes [PING], status queries and [VERSION], and
    nothing else. *)
Theorem enter_opcodes fuel r0 r1 st st' :
  let allowed := [PING; MOOLTIPASS_STATUS; VERSION] in
  written (opcode_among allowed) (log st) ->
  final (__enter__ fuel r0 r1 st) = Some st' ->
  written (opcode_among allowed) (log st').
Proof.
  intros allowed HI H.
  refine (keeps_enter _ fuel r0 r1 _ _ _ st st' H HI);
    apply frames_opcode_among; unfold allowed;
    rewrite !elem_of_cons; tauto.
Qed.

Lemma enter_opcodes_witness :
  written (opcode_among [PING; MOOLTIPASS_STATUS; VERSION])
    (log (stopped (__enter__ 5 1 2 never_echoes) never_echoes)).
Proof.
  refine (enter_opcodes 5 1 2 never_echoes
            (stopped (__enter__ 5 1 2 never_echoes) never_echoes)
            (written_nil _) _).
  vm_compute. reflexivity.
Defined.

(** ** More on one exchange *)

(** X4. A payload of more than 255 bytes cannot be framed: the length
    does not fit its byte, [_send_command] raises [OverflowError], and
    nothing is written or read. *)
Theorem send_command_overflow fuel command arg kw st :
  (255 < List.length (List.concat arg))%nat ->
  _send_command fuel command arg kw st = Raise OverflowError st.
Proof.
  intros Hlen. unfold _send_command, build_packet, bind, append.
  assert (is_byte (Z.of_nat (List.length (List.concat arg))) = false) as ->;
    [|reflexivity].
  unfold is_byte. apply andb_false_iff. right. apply Z.leb_gt. lia.
Qed.

Lemma send_command_overflow_witness :
  _send_command 0 WRITE_FLASH_NODE [replicate 200 7; replicate 56 7]
    no_kwargs never_echoes = Raise OverflowError never_echoes.
Proof.
  apply send_command_overflow. vm_compute. lia.
Defined.

(** X5. An exchange without [retry_on_locked] is one packet written and
    one read, whatever comes of it; it returns, or raises [TimeoutError]
    (exactly when the device is silent), [InterruptedError] or
    [IndexError], and nothing else. *)
Theorem exchange_one_write_one_read fuel command arg kw st :
  (List.length (List.concat arg) <= 255)%nat ->
  retry_on_locked kw = false ->
  let packet := Z.of_nat (List.length (List.concat arg))
                  :: cmd_code command :: List.concat arg in
  let st' := after_read (timeout kw) (emit (EvWrite packet) st) in
  final (_send_command fuel command arg kw st) = Some st'
  /\ (forall e st'',
        _send_command fuel command arg kw st = Raise e st'' ->
        e = TimeoutError \/ e = InterruptedError \/ e = IndexError)
  /\ (_send_command fuel command arg kw st = Raise TimeoutError st'
      <-> device st (pos st) = None).
Proof.
  intros Hlen Hkw packet st'.
  rewrite send_command_writes by exact Hlen. fold packet.
  split; [now apply read_data_final|split].
  - intros e st'' H. now apply read_data_raises in H.
  - pose proof (read_data_cases fuel kw (emit (EvWrite packet) st) Hkw) as Hc.
    cbn [device pos emit] in Hc. fold st' in Hc.
    destruct (device st (pos st)) as [pkt|].
    + split; [|discriminate].
      destruct Hc as [[_ ->]|[->|(_ & n & _ & ->)]]; discriminate.
    + now split.
Qed.

Lemma exchange_one_write_one_read_witness :
  final (_send_command 0 VERSION [] no_kwargs never_echoes) =
    Some {| device := device never_echoes; pos := 1;
            log := [EvRead 1500 (Some [2; 0xA1; 0; 0]);
                    EvWrite [0; 0xA2]] |}.
Proof.
  exact (proj1 (exchange_one_write_one_read 0 VERSION [] no_kwargs
                  never_echoes ltac:(simpl; lia) eq_refl)).
Defined.

Lemma slice_full_packet (pkt : DataBuffer) c n :
  pkt !! CMD_INDEX = Some c ->
  slice pkt CMD_INDEX (DATA_INDEX + n) = c :: slice pkt DATA_INDEX (DATA_INDEX + n).
Proof.
  destruct pkt as [|l [|c' rest]]; try discriminate.
  intros [= ->]. reflexivity.
Qed.

(** [_read_data] without [retry_on_locked], spelled out. *)
Lemma read_data_no_retry fuel kw st :
  retry_on_locked kw = false ->
  _read_data fuel kw st =
    let st1 := after_read (timeout kw) st in
    match device st (pos st) with
    | None => Raise TimeoutError st1
    | Some pkt =>
        match unlocking_report pkt st1 with
        | Ok true _ => Raise InterruptedError st1
        | Ok false _ =>
            match pkt !! LEN_INDEX with
            | Some n =>
                Ok (slice pkt (if full_packet kw then CMD_INDEX
                               else DATA_INDEX)
                      (DATA_INDEX + Z.to_nat n)) st1
            | None => Raise IndexError st1
            end
        | Raise e _ => Raise e st1
        | OutOfFuel => OutOfFuel
        end
    end.
Proof.
  intros Hkw. unfold _read_data, bind, read. rewrite Hkw.
  fold (after_read (timeout kw) st). cbn zeta.
  destruct (device st (pos st)) as [pkt|]; [|reflexivity].
  destruct (unlocking_report_state pkt (after_read (timeout kw) st))
    as [[b ->]| ->]; [|reflexivity].
  destruct b; [reflexivity|]. cbn. unfold item.
  now destruct (pkt !! LEN_INDEX).
Qed.

(** X6. With [full_packet], [_read_data] returns what it returns
    without, preceded by the opcode byte of the packet. *)
Theorem read_data_full_packet fuel tmo st pkt data st' :
  device st (pos st) = Some pkt ->
  _read_data fuel {| timeout := tmo; full_packet := false;
                     retry_on_locked := false |} st = Ok data st' ->
  exists c,
    pkt !! CMD_INDEX = Some c
    /\ _read_data fuel {| timeout := tmo; full_packet := true;
                          retry_on_locked := false |} st = Ok (c :: data) st'.
Proof.
  intros Hdev. rewrite !read_data_no_retry by reflexivity.
  cbn [timeout full_packet]. cbn zeta. rewrite Hdev.
  destruct (unlocking_report pkt (after_read tmo st)) as [[|] s|e s|] eqn:Hrep;
    try discriminate.
  destruct (pkt !! LEN_INDEX) as [n|]; [|discriminate].
  intros [= <- <-].
  assert (is_Some (pkt !! CMD_INDEX)) as [c Hcmd].
  { unfold unlocking_report, bind, item in Hrep.
    destruct (pkt !! CMD_INDEX); [eauto|discriminate Hrep]. }
  exists c. split; [exact Hcmd|].
  now rewrite (slice_full_packet pkt c _ Hcmd).
Qed.

Lemma read_data_full_packet_witness :
  exists c,
    [2; 0xA1; 0; 0] !! CMD_INDEX = Some c
    /\ _read_data 0 {| timeout := 1500; full_packet := true;
                       retry_on_locked := false |} never_echoes
       = Ok (c :: [0; 0]) (after_read 1500 never_echoes).
Proof.
  exact (read_data_full_packet 0 1500 never_echoes [2; 0xA1; 0; 0] [0; 0]
           _ eq_refl eq_refl).
Defined.

(** X7. The payload [_read_data] returns is cut to the declared length
    and to what the packet holds after its two header bytes, whichever
    is shorter: a packet shorter than it declares gives a short payload,
    not an error, and padding beyond the declared length is dropped. *)
Theorem read_data_payload_length fuel tmo st pkt n data st' :
  device st (pos st) = Some pkt ->
  pkt !! LEN_INDEX = Some n ->
  _read_data fuel {| timeout := tmo; full_packet := false;
                     retry_on_locked := false |} st = Ok data st' ->
  List.length data = Nat.min (Z.to_nat n) (List.length pkt - 2)
  /\ data = take (Z.to_nat n) (drop 2 pkt).
Proof.
  intros Hdev Hn. rewrite read_data_no_retry by reflexivity.
  cbn [timeout full_packet]. cbn zeta. rewrite Hdev, Hn.
  destruct (unlocking_report pkt (after_read tmo st)) as [[|] s|e s|];
    try discriminate.
  intros [= <- _]. unfold slice, DATA_INDEX.
  rewrite length_drop, length_take. split; [lia|].
  now rewrite take_drop_commute.
Qed.

Lemma read_data_payload_length_witness :
  List.length [7; 8] = Nat.min (Z.to_nat 5) (List.length [5; 0xC5; 7; 8] - 2)
  /\ [7; 8] = take (Z.to_nat 5) (drop 2 [5; 0xC5; 7; 8]).
Proof.
  exact (read_data_payload_length 0 1500
           {| device := fun _ => Some [5; 0xC5; 7; 8]; pos := 0; log := [] |}
           [5; 0xC5; 7; 8] 5 [7; 8] _ eq_refl eq_refl eq_refl).
Defined.

(** X8. A packet too short to hold an opcode, or a status packet too
    short to hold its status byte, makes [_read_data] raise
    [IndexError], with or without [retry_on_locked]. *)
Theorem read_data_short_packet fuel kw st pkt :
  device st (pos st) = Some pkt ->
  (List.length pkt < 2)%nat
  \/ ((List.length pkt < 3)%nat
      /\ pkt !! CMD_INDEX = Some (cmd_code MOOLTIPASS_STATUS)) ->
  _read_data (S fuel) kw st = Raise IndexError (after_read (timeout kw) st).
Proof.
  intros Hdev Hshort.
  assert (forall s, unlocking_report pkt s = Raise IndexError s) as Hrep.
  { intros s. unfold unlocking_report, bind, item, ret.
    destruct Hshort as [Hlen|[Hlen Hcmd]].
    - rewrite (lookup_ge_None_2 pkt CMD_INDEX); [reflexivity|].
      unfold CMD_INDEX. lia.
    - rewrite Hcmd, Z.eqb_refl.
      rewrite (lookup_ge_None_2 pkt DATA_INDEX); [reflexivity|].
      unfold DATA_INDEX. lia. }
  unfold _read_data, bind, read. fold (after_read (timeout kw) st).
  rewrite Hdev. destruct (retry_on_locked kw).
  - cbn [retry_locked]. unfold bind. now rewrite Hrep.
  - unfold bind. now rewrite Hrep.
Qed.

Lemma read_data_short_packet_witness :
  _read_data 1 start_kwargs
    {| device := fun _ => Some [0; 0xB9]; pos := 0; log := [] |}
  = Raise IndexError
      (after_read 2000
         {| device := fun _ => Some [0; 0xB9]; pos := 0; log := [] |}).
Proof.
  apply (read_data_short_packet 0 start_kwargs
           {| device := fun _ => Some [0; 0xB9]; pos := 0; log := [] |}
           [0; 0xB9] eq_refl).
  right. split; [simpl; lia|reflexivity].
Defined.

(** ** [retry_on_locked] *)

Lemma unlocking_report_false pkt st :
  ~ unlocking pkt -> (3 <= List.length pkt)%nat ->
  unlocking_report pkt st = Ok false st.
Proof.
  intros U Hlen.
  destruct (unlocking_report_cases pkt st) as [[_ U']|[[H _]|H]];
    [contradiction|exact H|].
  exfalso. unfold unlocking_report, bind, item, ret in H.
  destruct (lookup_lt_is_Some_2 pkt CMD_INDEX) as [c Hc];
    [unfold CMD_INDEX; lia|].
  destruct (lookup_lt_is_Some_2 pkt DATA_INDEX) as [d Hd];
    [unfold DATA_INDEX; lia|].
  rewrite Hc, Hd in H. destruct (c =? _); discriminate H.
Qed.

(** What the loop of [retry_on_locked] can come to. *)
Lemma retry_locked_spec fuel :
  forall tmo res st,
    match retry_locked fuel tmo res st with
    | Ok res' st' =>
        ~ unlocking res'
        /\ is_Some (res' !! CMD_INDEX)
        /\ device st' = device st
        /\ ((res' = res /\ st' = st)
            \/ ((pos st < pos st')%nat
                /\ device st (pred (pos st')) = Some res'))
    | Raise e st' => e = IndexError
    | OutOfFuel => True
    end.
Proof.
  induction fuel as [|n IH]; intros tmo res st; [exact I|].
  cbn [retry_locked]. unfold bind at 1.
  destruct (unlocking_report_cases res st) as [[-> U]|[[Hr U]| ->]];
    [| |reflexivity].
  - unfold bind, try_except, read.
    destruct (device st (pos st)) as [r|] eqn:Hdev.
    + specialize (IH tmo r (after_read tmo st)).
      unfold after_read in IH. rewrite Hdev in IH.
      destruct (retry_locked n tmo r _) as [res' st'|e st'|];
        [|exact IH|exact I].
      destruct IH as (U' & Hc & Hd & Hlast).
      split; [exact U'|split; [exact Hc|split; [exact Hd|]]].
      right. cbn [pos device] in Hlast.
      destruct Hlast as [[-> ->]|[Hlt Hlast]]; cbn [pos];
        [split; [lia|exact Hdev]|split; [lia|exact Hlast]].
    + cbn [sleep]. unfold ret. specialize (IH tmo res
                      (emit (EvSleep 2000) (after_read tmo st))).
      unfold after_read in IH. rewrite Hdev in IH.
      destruct (retry_locked n tmo res _) as [res' st'|e st'|];
        [|exact IH|exact I].
      destruct IH as (U' & Hc & Hd & Hlast).
      split; [exact U'|split; [exact Hc|split; [exact Hd|]]].
      right. cbn [pos device emit] in Hlast.
      destruct Hlast as [[-> _]|[Hlt Hlast]]; [contradiction|].
      split; [lia|exact Hlast].
  - rewrite Hr. cbn. split; [exact U|].
    split; [|split; [reflexivity|now left]].
    unfold unlocking_report, bind, item in Hr.
    destruct (res !! CMD_INDEX); [eauto|discriminate Hr].
Qed.

(** X9. With [retry_on_locked], [_read_data] never raises
    [InterruptedError]; it raises [TimeoutError] only when its very
    first read times out (later timeouts are slept on); and a payload it
    returns is decoded from the last packet read, which is not an
    unlocking report. *)
Theorem read_data_retry_on_locked fuel tmo full st :
  let kw := {| timeout := tmo; full_packet := full;
               retry_on_locked := true |} in
  (forall st', _read_data fuel kw st <> Raise InterruptedError st')
  /\ (forall st',
        _read_data fuel kw st = Raise TimeoutError st' ->
        device st (pos st) = None /\ st' = after_read tmo st)
  /\ (forall data st',
        _read_data fuel kw st = Ok data st' ->
        exists pkt n,
          device st (pred (pos st')) = Some pkt
          /\ ~ unlocking pkt
          /\ pkt !! LEN_INDEX = Some n
          /\ data = slice pkt (if full then CMD_INDEX else DATA_INDEX)
                      (DATA_INDEX + Z.to_nat n)).
Proof.
  intros kw. unfold _read_data, bind, read. cbn [timeout full_packet
    retry_on_locked kw]. fold (after_read tmo st).
  destruct (device st (pos st)) as [p0|] eqn:Hdev.
  2:{ split; [discriminate|split; [|discriminate]].
      intros st' [= <-]. now split. }
  pose proof (retry_locked_spec fuel tmo p0 (after_read tmo st)) as Hspec.
  destruct (retry_locked fuel tmo p0 (after_read tmo st))
    as [res' st1|e st1|].
  - destruct Hspec as (U & [c Hc] & Hd & Hlast).
    destruct (lookup_lt_is_Some_2 res' LEN_INDEX) as [n Hn].
    { apply lookup_lt_Some in Hc. unfold LEN_INDEX, CMD_INDEX in *. lia. }
    unfold item. rewrite Hn.
    split; [discriminate|split; [discriminate|]].
    intros data st' [= <- <-]. exists res', n.
    split; [|split; [exact U|split; [exact Hn|reflexivity]]].
    destruct Hlast as [[-> ->]|[_ Hlast]]; [exact Hdev|exact Hlast].
  - subst e. split; [discriminate|split; discriminate].
  - split; [discriminate|split; discriminate].
Qed.

Lemma read_data_retry_on_locked_witness :
  exists pkt n,
    script [Some [1; 0xB9; 3]; None; Some [1; 0xAD; 1]] 2%nat = Some pkt
    /\ ~ unlocking pkt
    /\ pkt !! LEN_INDEX = Some n
    /\ [1] = slice pkt DATA_INDEX (DATA_INDEX + Z.to_nat n).
Proof.
  exact (proj2 (proj2 (read_data_retry_on_locked 3 2000 false
           {| device := script [Some [1; 0xB9; 3]; None; Some [1; 0xAD; 1]];
              pos := 0; log := [] |})) [1] _ eq_refl).
Defined.

(** The loop of [retry_on_locked] waits out any run of timeouts and
    unlocking reports and stops at the first other packet. *)
Lemma retry_locked_eventually tmo outcomes :
  forall fuel res st pkt,
    (S (List.length outcomes) < fuel)%nat ->
    unlocking res ->
    gives st (pos st) outcomes ->
    Forall busy outcomes ->
    device st (pos st + List.length outcomes)%nat = Some pkt ->
    ~ unlocking pkt ->
    (3 <= List.length pkt)%nat ->
    retry_locked fuel tmo res st =
      Ok pkt {| device := device st;
                pos := S (pos st + List.length outcomes);
                log := EvRead tmo (Some pkt)
                         :: flat_map (waited tmo 2000) (rev outcomes)
                         ++ log st |}.
Proof.
  induction outcomes as [|o outcomes IH];
    intros fuel res st pkt Hfuel U Hgives Hbusy Hpkt Upkt Hlen;
    (destruct fuel as [|n]; [simpl in Hfuel; lia|]);
    cbn [retry_locked]; unfold bind at 1;
    rewrite (unlocking_report_true res st (proj1 U) (proj2 U)).
  - cbn [List.length] in Hpkt. rewrite Nat.add_0_r in Hpkt.
    unfold bind, try_except, read. rewrite Hpkt.
    destruct n as [|n]; [simpl in Hfuel; lia|].
    cbn [retry_locked]. unfold bind.
    rewrite (unlocking_report_false pkt _ Upkt Hlen).
    cbn. now rewrite Nat.add_0_r.
  - pose proof (Hgives 0%nat o eq_refl) as Ho. rewrite Nat.add_0_r in Ho.
    apply Forall_cons in Hbusy as [Hbo Hbusy].
    assert (forall st2 res2,
      device st2 = device st -> pos st2 = S (pos st) ->
      log st2 = waited tmo 2000 o ++ log st -> unlocking res2 ->
      retry_locked n tmo res2 st2 =
        Ok pkt {| device := device st;
                  pos := S (pos st + List.length (o :: outcomes));
                  log := EvRead tmo (Some pkt)
                           :: flat_map (waited tmo 2000) (rev (o :: outcomes))
                           ++ log st |}) as Hnext.
    { intros st2 res2 Hd2 Hp2 Hl2 U2.
      rewrite (IH n res2 st2 pkt); try assumption.
      - rewrite Hd2, Hp2, Hl2. cbn [List.length rev].
        rewrite flat_map_app. cbn [flat_map]. rewrite app_nil_r, <- app_assoc.
        f_equal. f_equal. lia.
      - cbn [List.length] in Hfuel. lia.
      - intros i oi Hi. rewrite Hd2, Hp2.
        replace (S (pos st) + i)%nat with (pos st + S i)%nat by lia.
        now apply Hgives.
      - rewrite Hd2, Hp2. rewrite <- Hpkt. f_equal. cbn [List.length]. lia. }
    unfold bind, try_except, read. rewrite Ho.
    destruct o as [p|].
    + apply Hnext; try reflexivity. exact Hbo.
    + cbn [sleep]. unfold ret. apply Hnext; try reflexivity. exact U.
Qed.

(** X10. [retry_on_locked] waits: when the first packet read is an
    unlocking report, followed by any run of timeouts and further
    unlocking reports, followed by a packet that is not one,
    [_read_data] returns the payload of that packet, having slept two
    seconds after each timeout and not at all otherwise. *)
Theorem read_data_retry_waits fuel tmo st first outcomes pkt n :
  (List.length outcomes + 1 < fuel)%nat ->
  device st (pos st) = Some first ->
  unlocking first ->
  gives st (S (pos st)) outcomes ->
  Forall busy outcomes ->
  device st (S (pos st) + List.length outcomes)%nat = Some pkt ->
  ~ unlocking pkt ->
  (3 <= List.length pkt)%nat ->
  pkt !! LEN_INDEX = Some n ->
  _read_data fuel {| timeout := tmo; full_packet := false;
                     retry_on_locked := true |} st =
    Ok (payload_of pkt n)
       {| device := device st;
          pos := S (S (pos st) + List.length outcomes);
          log := EvRead tmo (Some pkt)
                   :: flat_map (waited tmo 2000) (rev outcomes)
                   ++ EvRead tmo (Some first) :: log st |}.
Proof.
  intros Hfuel Hfirst U Hgives Hbusy Hpkt Upkt Hlen Hn.
  unfold _read_data, bind, read. cbn [timeout full_packet retry_on_locked].
  rewrite Hfirst.
  rewrite (retry_locked_eventually tmo outcomes fuel first _ pkt);
    try assumption; try lia.
  unfold item. now rewrite Hn.
Qed.

Lemma read_data_retry_waits_witness :
  _read_data 3 start_kwargs
    {| device := script [Some [1; 0xB9; 3]; None; Some [1; 0xAD; 1]];
       pos := 0; log := [] |} =
    Ok [1]
       {| device := script [Some [1; 0xB9; 3]; None; Some [1; 0xAD; 1]];
          pos := 3;
          log := [EvRead 2000 (Some [1; 0xAD; 1]); EvSleep 2000;
                  EvRead 2000 None; EvRead 2000 (Some [1; 0xB9; 3])] |}.
Proof.
  refine (read_data_retry_waits 3 2000
            {| device := script [Some [1; 0xB9; 3]; None; Some [1; 0xAD; 1]];
               pos := 0; log := [] |}
            [1; 0xB9; 3] [None] [1; 0xAD; 1] 1
            ltac:(simpl; lia) eq_refl (conj eq_refl eq_refl) _ _ eq_refl _
            ltac:(simpl; lia) eq_refl).
  - intros [|i] o H; [now injection H as <-|discriminate H].
  - repeat constructor.
  - intros [[= ] _].
Defined.

(** ** More on parameters and layouts *)

(** X11. A name that is not in the table raises [KeyError] before
    anything is sent: an unknown parameter in [_set_parameter] and
    [_get_parameter], an unknown layout in [select_keyboard_layout]. *)
Theorem unknown_name_sends_nothing fuel name value st :
  (dict_get PARAMETERS name = None ->
   _set_parameter fuel name value st = Raise KeyError st
   /\ _get_parameter fuel name st = Raise KeyError st)
  /\ (dict_get KEYBOARD_LAYOUT name = None ->
      select_keyboard_layout fuel name st = Raise KeyError st).
Proof.
  split.
  - intros H. unfold _set_parameter, _get_parameter, bind, subscript.
    now rewrite H.
  - intros H. unfold select_keyboard_layout, bind, subscript. now rewrite H.
Qed.

Lemma unknown_name_sends_nothing_witness :
  _set_parameter 0 "EN_US" 1 never_echoes = Raise KeyError never_echoes
  /\ _get_parameter 0 "EN_US" never_echoes = Raise KeyError never_echoes.
Proof.
  exact (proj1 (unknown_name_sends_nothing 0 "EN_US" 1 never_echoes) eq_refl).
Defined.

(** X12. A parameter value that is not a byte raises [OverflowError]
    before anything is sent. *)
Theorem set_parameter_value_overflow fuel param index value st :
  dict_get PARAMETERS param = Some index ->
  value < 0 \/ 255 < value ->
  _set_parameter fuel param value st = Raise OverflowError st.
Proof.
  intros Hp Hv. unfold _set_parameter, bind, subscript, append.
  rewrite Hp. unfold ret. rewrite (PARAMETERS_byte _ _ Hp).
  assert (is_byte value = false) as ->; [|reflexivity].
  unfold is_byte. apply andb_false_iff.
  destruct Hv; [left; apply Z.leb_gt|right; apply Z.leb_gt]; lia.
Qed.

Lemma set_parameter_value_overflow_witness :
  _set_parameter 0 "lock_timeout" 300 never_echoes
  = Raise OverflowError never_echoes.
Proof.
  apply (set_parameter_value_overflow 0 "lock_timeout" 4 300 never_echoes
           eq_refl).
  right. lia.
Defined.

(** X13. [_get_parameter] sends [GET_MOOLTIPASS_PARM] with the index of
    the parameter and returns the payload of the reply as it is. *)
Theorem get_parameter_returns_payload fuel param index st pkt n :
  dict_get PARAMETERS param = Some index ->
  device st (pos st) = Some pkt ->
  ~ unlocking pkt ->
  (3 <= List.length pkt)%nat ->
  pkt !! LEN_INDEX = Some n ->
  _get_parameter fuel param st =
    Ok (payload_of pkt n)
       {| device := device st; pos := S (pos st);
          log := EvRead 1500 (Some pkt)
                   :: EvWrite [1; cmd_code GET_MOOLTIPASS_PARM; index]
                   :: log st |}.
Proof.
  intros Hp Hdev U Hlen Hn.
  unfold _get_parameter, bind, subscript, append. rewrite Hp. unfold ret.
  rewrite (PARAMETERS_byte _ _ Hp). cbn [app].
  rewrite send_command_writes by (simpl; lia).
  rewrite (read_data_decodes fuel no_kwargs _ pkt n eq_refl);
    [|exact Hdev|now apply unlocking_report_false|exact Hn].
  unfold after_read, payload_of. cbn. now rewrite Hdev.
Qed.

Lemma get_parameter_returns_payload_witness :
  _get_parameter 0 "screensaver"
    {| device := fun _ => Some [1; 0xB2; 1]; pos := 0; log := [] |} =
    Ok [1]
       {| device := fun _ => Some [1; 0xB2; 1]; pos := 1;
          log := [EvRead 1500 (Some [1; 0xB2; 1]); EvWrite [1; 0xB2; 9]] |}.
Proof.
  refine (get_parameter_returns_payload 0 "screensaver" 9
            {| device := fun _ => Some [1; 0xB2; 1]; pos := 0; log := [] |}
            [1; 0xB2; 1] 1 eq_refl eq_refl _ ltac:(simpl; lia) eq_refl).
  intros [[= ] _].
Defined.

Lemma KEYBOARD_LAYOUT_names_NoDup : NoDup (KEYBOARD_LAYOUT.*1).
Proof. apply (bool_decide_unpack _). vm_compute. reflexivity. Qed.

Lemma dict_get_elem_of d name v :
  dict_get d name = Some v -> name ∈ d.*1.
Proof.
  induction d as [|[k c] d IH]; [discriminate|]. simpl.
  destruct (String.eqb_spec k name) as [->|_].
  - intros _. apply list_elem_of_here.
  - intros H. apply list_elem_of_further. now apply IH.
Qed.

(** With distinct names the lookup undoes the reverse lookup. *)
Lemma dict_get_layout_of d name v :
  NoDup (d.*1) ->
  layout_of d v = Some name ->
  dict_get d name = Some v.
Proof.
  induction d as [|[k c] d IH]; intros Hnd H; [discriminate|].
  simpl in *. apply NoDup_cons in Hnd as [Hk Hnd].
  destruct (Z.eqb_spec c v) as [->|Hc].
  - injection H as ->. now rewrite String.eqb_refl.
  - specialize (IH Hnd H).
    destruct (String.eqb_spec k name) as [->|_]; [|exact IH].
    exfalso. apply Hk. now apply dict_get_elem_of with (v := v).
Qed.

Lemma layout_of_None_inv d v : layout_of d v = None -> v ∉ d.*2.
Proof.
  induction d as [|[k c] d IH]; intros H; [apply not_elem_of_nil|].
  simpl in *. destruct (Z.eqb_spec c v) as [->|Hc]; [discriminate|].
  apply not_elem_of_cons. split; [congruence|now apply IH].
Qed.

(** X14. What [get_keyboard_layout] returns is read off the first byte
    of the parameter: a name it returns is the name whose code is that
    byte less [KEYBD_ID_OFFSET], and it returns [None] only when no
    layout has that code. *)
Theorem get_keyboard_layout_sound fuel st answer st' :
  get_keyboard_layout fuel st = Ok answer st' ->
  exists reply b,
    _get_parameter fuel "keyboard_layout" st = Ok reply st'
    /\ reply !! 0%nat = Some b
    /\ match answer with
       | Some name =>
           dict_get KEYBOARD_LAYOUT name = Some (b - KEYBD_ID_OFFSET)
       | None => b - KEYBD_ID_OFFSET ∉ KEYBOARD_LAYOUT.*2
       end.
Proof.
  unfold get_keyboard_layout, bind, item, ret.
  destruct (_get_parameter fuel "keyboard_layout" st)
    as [reply s|e s|]; try discriminate.
  destruct (reply !! 0%nat) as [b|] eqn:Hb; [|discriminate].
  destruct (layout_of KEYBOARD_LAYOUT (b - KEYBD_ID_OFFSET)) as [name|] eqn:E;
    intros H; injection H as <- <-;
    exists reply, b; (split; [reflexivity|split; [exact Hb|]]).
  - exact (dict_get_layout_of _ _ _ KEYBOARD_LAYOUT_names_NoDup E).
  - now apply layout_of_None_inv.
Qed.

Lemma get_keyboard_layout_sound_witness :
  exists reply b,
    _get_parameter 0 "keyboard_layout"
      {| device := fun _ => Some [1; 0xB2; 167]; pos := 0; log := [] |}
      = Ok reply
           (after_read 1500
              {| device := fun _ => Some [1; 0xB2; 167]; pos := 0;
                 log := [EvWrite [1; 0xB2; 1]] |})
    /\ reply !! 0%nat = Some b
    /\ dict_get KEYBOARD_LAYOUT "EN_UK" = Some (b - KEYBD_ID_OFFSET).
Proof.
  exact (get_keyboard_layout_sound 0
           {| device := fun _ => Some [1; 0xB2; 167]; pos := 0; log := [] |}
           (Some "EN_UK"%string) _ eq_refl).
Defined.

(** ** The three ways an exchange without [retry_on_locked] goes *)

Section Exchange.

Context (fuel : nat) (command : MooltipassCmd) (arg : list DataBuffer)
        (kw : kwargs) (st : state).
Hypothesis fits : (List.length (List.concat arg) <= 255)%nat.
Hypothesis no_retry : retry_on_locked kw = false.
Hypothesis payload_only : full_packet kw = false.

Let packet : DataBuffer :=
  Z.of_nat (List.length (List.concat arg)) :: cmd_code command
    :: List.concat arg.
Let st' : state := after_read (timeout kw) (emit (EvWrite packet) st).

Lemma exchange_timeout :
  device st (pos st) = None ->
  _send_command fuel command arg kw st = Raise TimeoutError st'.
Proof.
  intros Hdev. rewrite send_command_writes by exact fits.
  rewrite read_data_no_retry by exact no_retry.
  cbn [device pos emit]. now rewrite Hdev.
Qed.

Lemma exchange_interrupted pkt :
  device st (pos st) = Some pkt -> unlocking pkt ->
  _send_command fuel command arg kw st = Raise InterruptedError st'.
Proof.
  intros Hdev [Hc Hd]. rewrite send_command_writes by exact fits.
  rewrite read_data_no_retry by exact no_retry.
  cbn [device pos emit]. rewrite Hdev.
  now rewrite (unlocking_report_true pkt _ Hc Hd).
Qed.

Lemma exchange_reply pkt n :
  device st (pos st) = Some pkt -> ~ unlocking pkt ->
  pkt !! LEN_INDEX = Some n ->
  is_Some (payload_of pkt n !! 0%nat) ->
  _send_command fuel command arg kw st = Ok (payload_of pkt n) st'.
Proof.
  intros Hdev U Hn Ha. rewrite send_command_writes by exact fits.
  now apply read_data_reply.
Qed.

End Exchange.

(** ** More on the status *)

(** X15. [get_status] is one status query and one read, whatever comes
    of it; it raises nothing but [TimeoutError], [IndexError] and
    [KeyError]; and an entry it returns is the entry of [STATUS] for the
    code it carries. *)
Theorem get_status_outcomes fuel st :
  final (get_status fuel st)
    = Some (after_read 1500 (emit (EvWrite status_query) st))
  /\ (forall e st',
        get_status fuel st = Raise e st' ->
        e = TimeoutError \/ e = IndexError \/ e = KeyError)
  /\ (forall entry st',
        get_status fuel st = Ok entry st' ->
        STATUS (status_code (status entry)) = Some entry).
Proof.
  unfold get_status, bind, try_except. rewrite status_exchange.
  rewrite read_data_no_retry by reflexivity.
  cbn [device pos emit timeout no_kwargs full_packet]. cbn zeta.
  set (st1 := after_read 1500 (emit (EvWrite status_query) st)).
  destruct (device st (pos st)) as [pkt|];
    [|split; [reflexivity|split; [intros e st' [= <- _]; tauto|discriminate]]].
  destruct (unlocking_report_state pkt st1) as [[b ->]| ->];
    [|split; [reflexivity|split; [intros e st' [= <- _]; tauto|discriminate]]].
  destruct b.
  - cbn. split; [reflexivity|split; [discriminate|]].
    now intros entry st' [= <- _].
  - destruct (pkt !! LEN_INDEX) as [n|];
      [|split; [reflexivity|split; [intros e st' [= <- _]; tauto|discriminate]]].
    unfold item.
    destruct (_ !! 0%nat) as [r0|];
      [|split; [reflexivity|split; [intros e st' [= <- _]; tauto|discriminate]]].
    destruct (STATUS r0) as [entry|] eqn:E;
      [|split; [reflexivity|split; [intros e st' [= <- _]; tauto|discriminate]]].
    split; [reflexivity|split; [discriminate|]].
    intros entry' st' [= <- _].
    now rewrite (proj2 (STATUS_Some _ _ E)).
Qed.

Lemma get_status_outcomes_witness :
  final (get_status 0 being_unlocked)
    = Some (after_read 1500 (emit (EvWrite status_query) being_unlocked)).
Proof. exact (proj1 (get_status_outcomes 0 being_unlocked)). Defined.

(** X16. [wait_status_unlocked] does not wait on a device that is silent
    at its first status query: the [TimeoutError] of that first
    exchange is raised at once, without a sleep and without a second
    query. *)
Theorem wait_status_unlocked_first_timeout fuel st :
  device st (pos st) = None ->
  wait_status_unlocked fuel st =
    Raise TimeoutError (after_read 1500 (emit (EvWrite status_query) st)).
Proof.
  intros Hdev. unfold wait_status_unlocked, get_status, bind, try_except.
  now rewrite (exchange_timeout fuel MOOLTIPASS_STATUS [] no_kwargs st
                 ltac:(simpl; lia) eq_refl Hdev).
Qed.

Lemma wait_status_unlocked_first_timeout_witness :
  wait_status_unlocked 9 {| device := script []; pos := 0; log := [] |} =
    Raise TimeoutError
      {| device := script []; pos := 1;
         log := [EvRead 1500 None; EvWrite [0; 0xB9]] |}.
Proof.
  exact (wait_status_unlocked_first_timeout 9
           {| device := script []; pos := 0; log := [] |} eq_refl).
Defined.

Lemma reports_decodable pkt s :
  reports pkt s ->
  s <> UNLOCKING ->
  ~ unlocking pkt.
Proof.
  intros (n & Hn & Ha) Hs [_ Hd]. apply payload_first in Ha.
  rewrite Ha in Hd. injection Hd as Hd. destruct s; try discriminate Hd.
  now apply Hs.
Qed.

(** The loop of [wait_status_unlocked] polls through any run of
    pending outcomes and stops at the first reply that reports
    [UNLOCKED]. *)
Lemma wait_loop_eventually outcomes :
  forall fuel res st pkt a,
    (S (List.length outcomes) < fuel)%nat ->
    res !! 0%nat = Some a ->
    a <> status_code UNLOCKED ->
    gives st (pos st) outcomes ->
    Forall pending outcomes ->
    device st (pos st + List.length outcomes)%nat = Some pkt ->
    reports pkt UNLOCKED ->
    exists st',
      wait_loop fuel res st = Ok tt st'
      /\ pos st' = S (pos st + List.length outcomes)
      /\ device st' = device st.
Proof.
  induction outcomes as [|o outcomes IH];
    intros fuel res st pkt a Hfuel Hres Ha Hgives Hpend Hpkt Hrep;
    (destruct fuel as [|n]; [simpl in Hfuel; lia|]);
    cbn [wait_loop]; unfold bind at 1; unfold item; rewrite Hres;
    (destruct (Z.eqb_spec a (status_code UNLOCKED)) as [|_];
       [contradiction|]).
  - cbn [List.length] in Hpkt. rewrite Nat.add_0_r in Hpkt.
    pose proof (reports_decodable pkt UNLOCKED Hrep ltac:(discriminate)) as U.
    destruct Hrep as (len & Hlen & Hfive).
    unfold bind, try_except.
    rewrite (exchange_reply n MOOLTIPASS_STATUS [] no_kwargs st
               ltac:(simpl; lia) eq_refl eq_refl pkt len Hpkt U Hlen
               ltac:(eauto)).
    destruct n as [|n]; [simpl in Hfuel; lia|].
    cbn [wait_loop]. unfold bind, item. rewrite Hfive.
    rewrite Z.eqb_refl. eexists. split; [reflexivity|].
    cbn. split; [lia|reflexivity].
  - pose proof (Hgives 0%nat o eq_refl) as Ho. rewrite Nat.add_0_r in Ho.
    apply Forall_cons in Hpend as [Hpo Hpend].
    assert (forall st2 res2 a2,
      device st2 = device st -> pos st2 = S (pos st) ->
      res2 !! 0%nat = Some a2 -> a2 <> status_code UNLOCKED ->
      exists st',
        wait_loop n res2 st2 = Ok tt st'
        /\ pos st' = S (pos st + List.length (o :: outcomes))
        /\ device st' = device st) as Hnext.
    { intros st2 res2 a2 Hd2 Hp2 Hres2 Ha2.
      destruct (IH n res2 st2 pkt a2) as (st' & Hrun & Hpos & Hdev);
        try assumption.
      - cbn [List.length] in Hfuel. lia.
      - intros i oi Hi. rewrite Hd2, Hp2.
        replace (S (pos st) + i)%nat with (pos st + S i)%nat by lia.
        now apply Hgives.
      - rewrite Hd2, Hp2. rewrite <- Hpkt. f_equal. cbn [List.length]. lia.
      - exists st'. split; [exact Hrun|].
        split; [rewrite Hpos, Hp2; cbn [List.length]; lia|congruence]. }
    unfold bind, try_except.
    destruct o as [p|].
    + destruct Hpo as [U|(U & len & a' & Hlen & Ha' & Hne)].
      * rewrite (exchange_interrupted n MOOLTIPASS_STATUS [] no_kwargs st
                   ltac:(simpl; lia) eq_refl p Ho U).
        cbn [sleep]. unfold ret. now apply (Hnext _ res a).
      * rewrite (exchange_reply n MOOLTIPASS_STATUS [] no_kwargs st
                   ltac:(simpl; lia) eq_refl eq_refl p len Ho U Hlen
                   ltac:(eauto)).
        now apply (Hnext _ (payload_of p len) a').
    + rewrite (exchange_timeout n MOOLTIPASS_STATUS [] no_kwargs st
                 ltac:(simpl; lia) eq_refl Ho).
      cbn [sleep]. unfold ret. now apply (Hnext _ res a).
Qed.

(** X17. [wait_status_unlocked] returns once the device reports
    [UNLOCKED]: after a first reply that is an unlocking report or
    carries a known status other than [UNLOCKED], it polls through any
    run of timeouts, unlocking reports and replies that do not report
    [UNLOCKED], and returns at the first reply that does, having read
    each of them once. *)
Theorem wait_status_unlocked_eventually fuel st first outcomes pkt :
  (S (List.length outcomes) < fuel)%nat ->
  device st (pos st) = Some first ->
  unlocking first
  \/ (~ unlocking first
      /\ exists n a,
           first !! LEN_INDEX = Some n
           /\ payload_of first n !! 0%nat = Some a
           /\ a ∈ known_status_codes
           /\ a <> status_code UNLOCKED) ->
  gives st (S (pos st)) outcomes ->
  Forall pending outcomes ->
  device st (S (pos st) + List.length outcomes)%nat = Some pkt ->
  reports pkt UNLOCKED ->
  exists st',
    wait_status_unlocked fuel st = Ok tt st'
    /\ pos st' = S (S (pos st) + List.length outcomes)
    /\ device st' = device st.
Proof.
  intros Hfuel Hfirst Hkind Hgives Hpend Hpkt Hrep.
  unfold wait_status_unlocked, get_status. unfold bind at 1 2.
  unfold try_except.
  assert (forall st1 a,
    device st1 = device st -> pos st1 = S (pos st) ->
    a <> status_code UNLOCKED ->
    exists st',
      wait_loop fuel [a] st1 = Ok tt st'
      /\ pos st' = S (S (pos st) + List.length outcomes)
      /\ device st' = device st) as Hloop.
  { intros st1 a Hd1 Hp1 Ha.
    destruct (wait_loop_eventually outcomes fuel [a] st1 pkt a)
      as (st' & Hrun & Hpos & Hdev); try assumption; try reflexivity.
    - intros i oi Hi. rewrite Hd1, Hp1. now apply Hgives.
    - now rewrite Hd1, Hp1.
    - exists st'. split; [exact Hrun|]. split; [now rewrite Hpos, Hp1|congruence]. }
  destruct Hkind as [U|(U & n & a & Hn & Ha & Hknown & Hne)].
  - rewrite (exchange_interrupted fuel MOOLTIPASS_STATUS [] no_kwargs st
               ltac:(simpl; lia) eq_refl first Hfirst U).
    cbn. now apply Hloop.
  - rewrite (exchange_reply fuel MOOLTIPASS_STATUS [] no_kwargs st
               ltac:(simpl; lia) eq_refl eq_refl first n Hfirst U Hn
               ltac:(eauto)).
    unfold item. rewrite Ha. unfold bind.
    destruct (STATUS a) as [entry|] eqn:E.
    + destruct (STATUS_Some _ _ E) as [_ Hcode]. cbn [ret]. rewrite Hcode.
      now apply Hloop.
    + apply STATUS_None in E. contradiction.
Qed.

Lemma wait_status_unlocked_eventually_witness :
  exists st',
    wait_status_unlocked 4 being_unlocked = Ok tt st'
    /\ pos st' = 4%nat
    /\ device st' = device being_unlocked.
Proof.
  refine (wait_status_unlocked_eventually 4 being_unlocked [1; 0xB9; 3]
            [None; Some [1; 0xB9; 1]] [1; 0xB9; 5]
            ltac:(simpl; lia) eq_refl (or_introl (conj eq_refl eq_refl))
            _ _ eq_refl _).
  - intros [|[|i]] o H; try discriminate H; now injection H as <-.
  - apply Forall_cons. split; [exact I|].
    apply Forall_cons. split; [|apply Forall_nil_2].
    right. split; [intros [_ [= ]]|].
    exists 1, 1. split; [reflexivity|split; [reflexivity|discriminate]].
  - exists 1. split; reflexivity.
Defined.

(** ** Polling *)

Lemma is_unlocking_spec pkt : is_unlocking pkt = true <-> unlocking pkt.
Proof.
  unfold is_unlocking, unlocking.
  destruct (pkt !! CMD_INDEX) as [c|]; [|split; [discriminate|intros [[=] _]]].
  destruct (pkt !! DATA_INDEX) as [d|]; [|split; [discriminate|intros [_ [=]]]].
  rewrite andb_true_iff, !Z.eqb_eq. split.
  - now intros [-> ->].
  - now intros [[= ->] [= ->]].
Qed.

Lemma polled_slept o : slept o = true -> polled o =
  [EvSleep 1000; EvRead 1500 o; EvWrite status_query].
Proof. unfold polled. now intros ->. Qed.

Lemma polled_reply pkt :
  ~ unlocking pkt ->
  polled (Some pkt) = [EvRead 1500 (Some pkt); EvWrite status_query].
Proof.
  intros U. unfold polled, slept.
  destruct (is_unlocking pkt) eqn:E; [|reflexivity].
  now apply is_unlocking_spec in E.
Qed.

(** The loop, turn by turn: through any run of pending outcomes, then
    the reply that reports [UNLOCKED]. *)
Lemma wait_loop_polls outcomes :
  forall fuel res st pkt a,
    (S (List.length outcomes) < fuel)%nat ->
    res !! 0%nat = Some a ->
    a <> status_code UNLOCKED ->
    gives st (pos st) outcomes ->
    Forall pending outcomes ->
    device st (pos st + List.length outcomes)%nat = Some pkt ->
    reports pkt UNLOCKED ->
    wait_loop fuel res st =
      Ok tt {| device := device st;
               pos := S (pos st + List.length outcomes);
               log := EvRead 1500 (Some pkt) :: EvWrite status_query
                        :: flat_map polled (rev outcomes) ++ log st |}.
Proof.
  induction outcomes as [|o outcomes IH];
    intros fuel res st pkt a Hfuel Hres Ha Hgives Hpend Hpkt Hrep;
    (destruct fuel as [|n]; [simpl in Hfuel; lia|]);
    cbn [wait_loop]; unfold bind at 1; unfold item; rewrite Hres;
    (destruct (Z.eqb_spec a (status_code UNLOCKED)) as [|_];
       [contradiction|]).
  - cbn [List.length] in Hpkt. rewrite Nat.add_0_r in Hpkt.
    pose proof (reports_decodable pkt UNLOCKED Hrep ltac:(discriminate)) as U.
    destruct Hrep as (len & Hlen & Hfive).
    unfold bind, try_except.
    rewrite (exchange_reply n MOOLTIPASS_STATUS [] no_kwargs st
               ltac:(simpl; lia) eq_refl eq_refl pkt len Hpkt U Hlen
               ltac:(eauto)).
    destruct n as [|n]; [simpl in Hfuel; lia|].
    cbn [wait_loop]. unfold bind, item. rewrite Hfive.
    rewrite Z.eqb_refl. unfold ret, after_read. cbn. rewrite Hpkt.
    now rewrite Nat.add_0_r.
  - pose proof (Hgives 0%nat o eq_refl) as Ho. rewrite Nat.add_0_r in Ho.
    apply Forall_cons in Hpend as [Hpo Hpend].
    assert (forall st2 res2 a2,
      device st2 = device st -> pos st2 = S (pos st) ->
      log st2 = polled o ++ log st ->
      res2 !! 0%nat = Some a2 -> a2 <> status_code UNLOCKED ->
      wait_loop n res2 st2 =
        Ok tt {| device := device st;
                 pos := S (pos st + List.length (o :: outcomes));
                 log := EvRead 1500 (Some pkt) :: EvWrite status_query
                          :: flat_map polled (rev (o :: outcomes))
                          ++ log st |}) as Hnext.
    { intros st2 res2 a2 Hd2 Hp2 Hl2 Hres2 Ha2.
      rewrite (IH n res2 st2 pkt a2); try assumption.
      - rewrite Hd2, Hp2, Hl2. cbn [List.length rev].
        rewrite flat_map_app. cbn [flat_map].
        rewrite app_nil_r, <- app_assoc.
        now replace (S (pos st) + List.length outcomes)%nat
          with (pos st + S (List.length outcomes))%nat by lia.
      - cbn [List.length] in Hfuel. lia.
      - intros i oi Hi. rewrite Hd2, Hp2.
        replace (S (pos st) + i)%nat with (pos st + S i)%nat by lia.
        now apply Hgives.
      - rewrite Hd2, Hp2. rewrite <- Hpkt. f_equal. cbn [List.length]. lia. }
    unfold bind, try_except.
    destruct o as [p|].
    + destruct Hpo as [U|(U & len & a' & Hlen & Ha' & Hne)].
      * rewrite (exchange_interrupted n MOOLTIPASS_STATUS [] no_kwargs st
                   ltac:(simpl; lia) eq_refl p Ho U).
        cbn [sleep]. unfold ret. apply (Hnext _ res a); try easy.
        rewrite polled_slept by now apply is_unlocking_spec.
        cbn. now rewrite Ho.
      * rewrite (exchange_reply n MOOLTIPASS_STATUS [] no_kwargs st
                   ltac:(simpl; lia) eq_refl eq_refl p len Ho U Hlen
                   ltac:(eauto)).
        apply (Hnext _ (payload_of p len) a'); try easy.
        rewrite polled_reply by exact U. cbn. now rewrite Ho.
    + rewrite (exchange_timeout n MOOLTIPASS_STATUS [] no_kwargs st
                 ltac:(simpl; lia) eq_refl Ho).
      cbn [sleep]. unfold ret. apply (Hnext _ res a); try easy.
      cbn. now rewrite Ho.
Qed.

(** While every outcome is pending the loop neither returns nor
    raises. *)
Lemma wait_loop_keeps_polling fuel :
  forall res st a,
    res !! 0%nat = Some a ->
    a <> status_code UNLOCKED ->
    (forall i, pending (device st (pos st + i)%nat)) ->
    wait_loop fuel res st = OutOfFuel.
Proof.
  induction fuel as [|n IH]; intros res st a Hres Ha Hpend; [reflexivity|].
  cbn [wait_loop]. unfold bind at 1. unfold item. rewrite Hres.
  destruct (Z.eqb_spec a (status_code UNLOCKED)) as [|_]; [contradiction|].
  assert (forall st2,
    device st2 = device st -> pos st2 = S (pos st) ->
    forall i, pending (device st2 (pos st2 + i)%nat)) as Hshift.
  { intros st2 -> -> i.
    replace (S (pos st) + i)%nat with (pos st + S i)%nat by lia.
    apply Hpend. }
  pose proof (Hpend 0%nat) as Hpo. rewrite Nat.add_0_r in Hpo.
  unfold bind, try_except.
  destruct (device st (pos st)) as [p|] eqn:Ho.
  - destruct Hpo as [U|(U & len & a' & Hlen & Ha' & Hne)].
    + rewrite (exchange_interrupted n MOOLTIPASS_STATUS [] no_kwargs st
                 ltac:(simpl; lia) eq_refl p Ho U).
      cbn [sleep]. unfold ret. apply (IH res _ a); try easy.
      now apply Hshift.
    + rewrite (exchange_reply n MOOLTIPASS_STATUS [] no_kwargs st
                 ltac:(simpl; lia) eq_refl eq_refl p len Ho U Hlen
                 ltac:(eauto)).
      apply (IH _ _ a'); try easy. now apply Hshift.
  - rewrite (exchange_timeout n MOOLTIPASS_STATUS [] no_kwargs st
               ltac:(simpl; lia) eq_refl Ho).
    cbn [sleep]. unfold ret. apply (IH res _ a); try easy.
    now apply Hshift.
Qed.

(** What [get_status] makes of a first reply after which the polling
    starts: the status the loop begins with, no sleep. *)
Lemma get_status_still_locked fuel st first :
  device st (pos st) = Some first ->
  still_locked first ->
  exists entry,
    get_status fuel st =
      Ok entry (after_read 1500 (emit (EvWrite status_query) st))
    /\ status_code (status entry) <> status_code UNLOCKED.
Proof.
  intros Hfirst [U|(U & n & a & Hn & Ha & Hknown & Hne)];
    unfold get_status; unfold bind at 1; unfold try_except.
  - rewrite (exchange_interrupted fuel MOOLTIPASS_STATUS [] no_kwargs st
               ltac:(simpl; lia) eq_refl first Hfirst U).
    cbn. eexists. split; [reflexivity|discriminate].
  - rewrite (exchange_reply fuel MOOLTIPASS_STATUS [] no_kwargs st
               ltac:(simpl; lia) eq_refl eq_refl first n Hfirst U Hn
               ltac:(eauto)).
    unfold item. rewrite Ha. unfold bind.
    destruct (STATUS a) as [entry|] eqn:E.
    + destruct (STATUS_Some _ _ E) as [_ Hcode]. exists entry.
      split; [reflexivity|]. now rewrite Hcode.
    + apply STATUS_None in E. contradiction.
Qed.

(** C7. [wait_status_unlocked] returns only on a reply that reports
    [UNLOCKED], and polls until one does.  Whenever it returns, the
    last thing that happened is the read of a packet the device sent
    and whose payload starts with the code of [UNLOCKED], so on a
    device none of whose packets reports [UNLOCKED] it does not return.
    After a first reply that is an unlocking report or carries another
    status of the table, which [get_status] takes without a sleep, the
    loop keeps sending [MOOLTIPASS_STATUS]: through every run of
    timeouts, unlocking reports and other statuses, with a sleep of one
    second after each timeout and each unlocking report and none after
    a reply, it returns at the first reply that reports [UNLOCKED]; and
    while no such reply comes it neither returns nor raises. *)
Theorem wait_status_unlocked_returns_unlocked fuel st :
  (forall st',
      wait_status_unlocked fuel st = Ok tt st' ->
      exists entry st1 polls pkt,
        get_status fuel st = Ok entry st1
        /\ log st' = rev polls ++ log st1
        /\ poll_trace polls
        /\ head (log st') = Some (EvRead 1500 (Some pkt))
        /\ device st (pred (pos st')) = Some pkt
        /\ reports pkt UNLOCKED)
  /\ ((forall n pkt, device st n = Some pkt -> ~ reports pkt UNLOCKED) ->
      forall st', wait_status_unlocked fuel st <> Ok tt st')
  /\ (forall first,
        device st (pos st) = Some first ->
        still_locked first ->
        (forall outcomes pkt,
            (S (List.length outcomes) < fuel)%nat ->
            gives st (S (pos st)) outcomes ->
            Forall pending outcomes ->
            device st (S (pos st) + List.length outcomes)%nat = Some pkt ->
            reports pkt UNLOCKED ->
            wait_status_unlocked fuel st =
              Ok tt {| device := device st;
                       pos := S (S (pos st) + List.length outcomes);
                       log := EvRead 1500 (Some pkt) :: EvWrite status_query
                                :: flat_map polled (rev outcomes)
                                ++ EvRead 1500 (Some first)
                                :: EvWrite status_query :: log st |})
        /\ ((forall i, pending (device st (S (pos st) + i)%nat)) ->
            wait_status_unlocked fuel st = OutOfFuel)).
Proof.
  assert (forall st',
      wait_status_unlocked fuel st = Ok tt st' ->
      exists entry st1 polls pkt,
        get_status fuel st = Ok entry st1
        /\ log st' = rev polls ++ log st1
        /\ poll_trace polls
        /\ head (log st') = Some (EvRead 1500 (Some pkt))
        /\ device st (pred (pos st')) = Some pkt
        /\ reports pkt UNLOCKED) as Hret.
  { intros st'. unfold wait_status_unlocked, bind.
    destruct (get_status fuel st) as [entry st1|e st1|] eqn:Hg;
      try discriminate.
    intros H. apply wait_loop_ok in H as (polls & Hlog & Htr & Hd & Hlast).
    destruct (get_status_ok _ _ _ _ Hg) as (Hst1 & pkt0 & Hdev0 & Hfirst).
    assert (device st1 = device st) as Hd1 by now rewrite Hst1.
    destruct Hlast as [[-> Hu]|(pkt & Hhead & Hdev & Hrep)].
    - (* the loop never ran: [get_status] saw [UNLOCKED] *)
      injection Hu as Hu.
      exists entry, st1, polls, pkt0. repeat split; try assumption.
      + rewrite Hst1. cbn. now rewrite Hdev0.
      + rewrite Hst1. exact Hdev0.
      + destruct Hfirst as [[_ Hs]|[_ Hrep]].
        * rewrite Hs in Hu. discriminate Hu.
        * destruct (status entry); try discriminate Hu. exact Hrep.
    - exists entry, st1, polls, pkt. repeat split; try assumption.
      now rewrite <- Hd1. }
  split; [exact Hret|]. split.
  { intros Hnever st' H.
    apply Hret in H as (_ & _ & _ & pkt & _ & _ & _ & _ & Hdev & Hrep).
    exact (Hnever _ _ Hdev Hrep). }
  intros first Hfirst Hkind.
  destruct (get_status_still_locked fuel st first Hfirst Hkind)
    as (entry & Hg & Hne).
  unfold wait_status_unlocked, bind. rewrite Hg. split.
  - intros outcomes pkt Hfuel Hgives Hpend Hpkt Hrep.
    rewrite (wait_loop_polls outcomes fuel _ _ pkt
               (status_code (status entry))); try easy.
    cbn. now rewrite Hfirst.
  - intros Hpend.
    now apply (wait_loop_keeps_polling fuel _ _ (status_code (status entry))).
Qed.

Lemma wait_status_unlocked_returns_unlocked_witness :
  wait_status_unlocked 5 slow_unlock =
    Ok tt {| device := device slow_unlock; pos := 5;
             log := [EvRead 1500 (Some [1; 0xB9; 5]); EvWrite [0; 0xB9];
                     EvRead 1500 (Some [1; 0xB9; 9]); EvWrite [0; 0xB9];
                     EvSleep 1000; EvRead 1500 None; EvWrite [0; 0xB9];
                     EvSleep 1000; EvRead 1500 (Some [1; 0xB9; 3]);
                     EvWrite [0; 0xB9];
                     EvRead 1500 (Some [1; 0xB9; 1]); EvWrite [0; 0xB9]] |}.
Proof.
  refine (proj1 (proj2 (proj2
            (wait_status_unlocked_returns_unlocked 5 slow_unlock))
            [1; 0xB9; 1] eq_refl _)
            [Some [1; 0xB9; 3]; None; Some [1; 0xB9; 9]] [1; 0xB9; 5]
            ltac:(simpl; lia) _ _ eq_refl _).
  - right. split; [intros [_ [= ]]|].
    exists 1, 1. split; [reflexivity|split; [reflexivity|]].
    split; [|discriminate]. apply elem_of_cons. right. apply elem_of_cons.
    now left.
  - intros [|[|[|i]]] o H; try discriminate H; now injection H as <-.
  - apply Forall_cons. split; [left; split; reflexivity|].
    apply Forall_cons. split; [exact I|].
    apply Forall_cons. split; [|apply Forall_nil_2].
    right. split; [intros [_ [= ]]|].
    exists 1, 9. split; [reflexivity|split; [reflexivity|discriminate]].
  - exists 1. split; reflexivity.
Defined.

(** An unlocking report at the first query is not slept on: [get_status]
    absorbs the [InterruptedError] of that exchange, and the loop sends
    its query at once. *)
Lemma wait_status_unlocked_returns_unlocked_counterexample :
  _send_command 2 MOOLTIPASS_STATUS [] no_kwargs interrupted_once
    = Raise InterruptedError
        (after_read 1500 (emit (EvWrite status_query) interrupted_once))
  /\ wait_status_unlocked 2 interrupted_once =
       Ok tt {| device := device interrupted_once; pos := 2;
                log := [EvRead 1500 (Some [1; 0xB9; 5]); EvWrite [0; 0xB9];
                        EvRead 1500 (Some [1; 0xB9; 3]);
                        EvWrite [0; 0xB9]] |}
  /\ ~ In (EvSleep 1000)
         (log (stopped (wait_status_unlocked 2 interrupted_once)
                 interrupted_once)).
Proof.
  split; [reflexivity|split; [reflexivity|]].
  simpl. intros [H|[H|[H|[H|[]]]]]; discriminate H.
Qed.

(** ** More on the handshake *)

(** An exchange without arguments and without [retry_on_locked]
    stops one read after its packet. *)
Lemma bare_exchange_final fuel command st :
  final (_send_command fuel command [] no_kwargs st) =
    Some (after_read 1500 (emit (EvWrite [0; cmd_code command]) st)).
Proof.
  rewrite send_command_writes by (simpl; lia).
  apply (read_data_final fuel no_kwargs _ eq_refl).
Qed.


Lemma echo_answered r0 r1 pkt n st :
  echo r0 r1 pkt ->
  pkt !! LEN_INDEX = Some n ->
  ping_unanswered (Some (payload_of pkt n)) [r0; r1] st = Ok false st.
Proof.
  intros (_ & n' & Hn' & H0 & H1) Hn.
  rewrite Hn in Hn'. injection Hn' as <-.
  unfold ping_unanswered, bind, item, ret. rewrite H0, H1.
  simpl. rewrite Z.eqb_refl. simpl. now rewrite Z.eqb_refl.
Qed.

(** X18. Connecting succeeds on a device that echoes the ping at once
    and answers [VERSION] with a payload: one [PING] exchange, one
    [VERSION] exchange, no retry and no sleep but the settling one. *)
Theorem enter_succeeds fuel r0 r1 st pkt ver m :
  is_byte r0 = true ->
  is_byte r1 = true ->
  device st (pos st) = Some pkt ->
  echo r0 r1 pkt ->
  device st (S (pos st)) = Some ver ->
  ~ unlocking ver ->
  ver !! LEN_INDEX = Some m ->
  is_Some (payload_of ver m !! 0%nat) ->
  __enter__ (S fuel) r0 r1 st =
    Ok tt {| device := device st; pos := S (S (pos st));
             log := EvRead 1500 (Some ver) :: EvWrite [0; cmd_code VERSION]
                      :: EvRead 2000 (Some pkt)
                      :: EvWrite [2; cmd_code PING; r0; r1]
                      :: EvSleep 500 :: log st |}.
Proof.
  intros Hr0 Hr1 Hdev He Hver Uver Hm Hv.
  pose proof He as (U & n & Hn & H0 & H1).
  unfold __enter__. unfold bind at 1. cbn [sleep].
  unfold bind at 1.
  rewrite (ping_first_reply _ r0 r1 _ pkt n); try assumption; [|eauto].
  cbn [ping_loop]. unfold bind at 1.
  rewrite (echo_answered r0 r1 pkt n _ He Hn). cbn [ret negb].
  unfold bind.
  rewrite (exchange_reply (S fuel) VERSION [] no_kwargs _
             ltac:(simpl; lia) eq_refl eq_refl ver m);
    try assumption.
  unfold item. destruct Hv as [v ->]. unfold after_read. cbn.
  now rewrite Hdev, Hver.
Qed.

Lemma enter_succeeds_witness :
  __enter__ 1 1 2
    {| device := script [Some [2; 0xA1; 1; 2]; Some [1; 0xA2; 11]];
       pos := 0; log := [] |} =
    Ok tt {| device := script [Some [2; 0xA1; 1; 2]; Some [1; 0xA2; 11]];
             pos := 2;
             log := [EvRead 1500 (Some [1; 0xA2; 11]); EvWrite [0; 0xA2];
                     EvRead 2000 (Some [2; 0xA1; 1; 2]);
                     EvWrite [2; 0xA1; 1; 2]; EvSleep 500] |}.
Proof.
  refine (enter_succeeds 0 1 2
            {| device := script [Some [2; 0xA1; 1; 2]; Some [1; 0xA2; 11]];
               pos := 0; log := [] |}
            [2; 0xA1; 1; 2] [1; 0xA2; 11] 1
            eq_refl eq_refl eq_refl _ eq_refl _ eq_refl _).
  - split; [intros [[= ] _]|]. exists 2. repeat split.
  - intros [[= ] _].
  - now exists 11.
Defined.

(** X19. A transport that is silent at the first read of the handshake
    does not get the retries: the [TimeoutError] of the [PING] exchange
    has no handler in [_ping], so [__enter__] ends in [TimeoutError],
    not in [IOError], after one packet and one read. *)
Theorem enter_silent_device fuel r0 r1 st :
  is_byte r0 = true ->
  is_byte r1 = true ->
  device st (pos st) = None ->
  __enter__ fuel r0 r1 st =
    Raise TimeoutError
      {| device := device st; pos := S (pos st);
         log := EvRead 2000 None :: EvWrite [2; cmd_code PING; r0; r1]
                  :: EvSleep 500 :: log st |}.
Proof.
  intros Hr0 Hr1 Hdev.
  unfold __enter__, _ping, bind, append, try_except. cbn [sleep].
  rewrite Hr0, Hr1. cbn [app].
  rewrite (exchange_timeout fuel PING [[r0; r1]] ping_kwargs
             (emit (EvSleep 500) st) ltac:(simpl; lia) eq_refl Hdev).
  unfold after_read. cbn. now rewrite Hdev.
Qed.

Lemma enter_silent_device_witness :
  __enter__ 9 1 2 {| device := script []; pos := 0; log := [] |} =
    Raise TimeoutError
      {| device := script []; pos := 1;
         log := [EvRead 2000 None; EvWrite [2; 0xA1; 1; 2]; EvSleep 500] |}.
Proof.
  exact (enter_silent_device 9 1 2
           {| device := script []; pos := 0; log := [] |}
           eq_refl eq_refl eq_refl).
Defined.

(** One read of the retry loop that brings no echo leaves the loop with
    a [_res] it takes for unanswered. *)
Lemma retry_read_no_answer fuel r0 r1 st :
  no_answer r0 r1 (device st (pos st)) ->
  exists _res',
    try_except (let* r := _read_data fuel ping_kwargs in ret (Some r))
      (fun e => match e with
                | TimeoutError => Some (ret None)
                | _ => None
                end) st = Ok _res' (after_read 2000 st)
    /\ forall s, ping_unanswered _res' [r0; r1] s = Ok true s.
Proof.
  intros Hno. unfold try_except, bind.
  destruct (device st (pos st)) as [pkt|] eqn:Hpkt.
  - destruct Hno as (U & len & a & Hlen & Ha & Hmis).
    exists (Some (payload_of pkt len)).
    rewrite (read_data_reply fuel ping_kwargs st pkt len);
      try reflexivity; try assumption; [|now exists a].
    split; [reflexivity|]. intros s.
    apply no_echo_unanswered; [|exact Hlen].
    split; [exact U|]. now exists len, a.
  - exists None. rewrite read_data_no_retry by reflexivity.
    cbn [timeout ping_kwargs]. cbn zeta. rewrite Hpkt.
    split; reflexivity.
Qed.

Lemma retry_log_shift st1 st k :
  device st1 = device st -> pos st1 = S (pos st) ->
  retry_log st1 0 k = retry_log st 1 k.
Proof.
  intros Hd Hp. unfold retry_log. rewrite flat_map_seq_S. f_equal.
  apply flat_map_ext. intros i. rewrite Hd, Hp.
  now replace (S (pos st) + i)%nat with (pos st + S i)%nat by lia.
Qed.

(** The retry loop succeeds when the echo comes within the reads it
    makes. *)
Lemma ping_loop_answered r0 r1 k :
  forall fuel _res retries st pkt,
    0 <= retries -> retries + Z.of_nat k <= 3 -> (S k < fuel)%nat ->
    (forall s, ping_unanswered _res [r0; r1] s = Ok true s) ->
    (forall i, (i < k)%nat -> no_answer r0 r1 (device st (pos st + i)%nat)) ->
    device st (pos st + k)%nat = Some pkt ->
    echo r0 r1 pkt ->
    ping_loop fuel [r0; r1] _res retries st =
      Ok true {| device := device st; pos := S (pos st + k);
                 log := EvRead 2000 (Some pkt) :: EvSleep 200
                          :: retry_log st 0 k ++ log st |}.
Proof.
  induction k as [|k IH];
    intros fuel _res retries st pkt Hr Hk Hfuel Hun Hno Hpkt He;
    (destruct fuel as [|n]; [lia|]);
    cbn [ping_loop]; unfold bind at 1; rewrite Hun;
    (assert ((retries >? _max_reties) = false) as ->
       by (unfold _max_reties; rewrite Z.gtb_ltb; apply Z.ltb_ge; lia));
    unfold bind at 1; cbn [sleep]; unfold bind at 1.
  - rewrite Nat.add_0_r in Hpkt.
    pose proof He as (U & len & Hlen & H0 & H1).
    unfold try_except, bind.
    rewrite (read_data_reply n ping_kwargs _ pkt len);
      try reflexivity; try assumption; [|eauto].
    destruct n as [|n]; [lia|].
    cbn [ping_loop ret]. unfold bind.
    rewrite (echo_answered r0 r1 pkt len _ He Hlen).
    unfold after_read. cbn. now rewrite Hpkt, Nat.add_0_r.
  - destruct (retry_read_no_answer n r0 r1 (emit (EvSleep 200) st))
      as (_res' & -> & Hun').
    { specialize (Hno 0%nat ltac:(lia)). now rewrite Nat.add_0_r in Hno. }
    rewrite (IH n _res' (retries + 1) _ pkt); try assumption; try lia.
    + cbn [device pos after_read emit log]. f_equal. f_equal; [lia|].
      f_equal. f_equal. unfold retry_log.
      change (seq 0 (S k)) with (0%nat :: seq 1 k). cbn [flat_map].
      rewrite flat_map_seq_S, rev_app_distr, Nat.add_0_r. simpl.
      rewrite <- !app_assoc. f_equal.
      * f_equal. apply flat_map_ext. intros i.
        now replace (pos st + S i)%nat with (S (pos st) + i)%nat by lia.
    + intros i Hi. cbn [device pos after_read emit].
      replace (S (pos st) + i)%nat with (pos st + S i)%nat by lia.
      apply Hno. lia.
    + cbn [device pos after_read emit]. rewrite <- Hpkt. f_equal. lia.
Qed.

(** X20. The handshake succeeds on a late echo: after a first reply
    that does not echo, and up to three more reads that time out or do
    not echo, a reply that echoes the two bytes makes [_ping] return
    [True], each retry read having been preceded by a sleep of 200 ms. *)
Theorem ping_late_echo fuel r0 r1 st first k pkt :
  is_byte r0 = true ->
  is_byte r1 = true ->
  (k <= 3)%nat -> (S k < fuel)%nat ->
  device st (pos st) = Some first ->
  no_echo r0 r1 first ->
  (forall i, (i < k)%nat ->
             no_answer r0 r1 (device st (S (pos st) + i)%nat)) ->
  device st (S (pos st) + k)%nat = Some pkt ->
  echo r0 r1 pkt ->
  _ping fuel r0 r1 st =
    Ok true {| device := device st; pos := S (S (pos st) + k);
               log := EvRead 2000 (Some pkt) :: EvSleep 200
                        :: retry_log st 1 k
                        ++ EvRead 2000 (Some first)
                        :: EvWrite [2; cmd_code PING; r0; r1] :: log st |}.
Proof.
  intros Hr0 Hr1 Hk Hfuel Hfirst Hno Hrest Hpkt He.
  pose proof Hno as (U & len & a & Hlen & Ha & Hmis).
  rewrite (ping_first_reply fuel r0 r1 st first len);
    try assumption; [|eauto].
  rewrite (ping_loop_answered r0 r1 k fuel _ 0 _ pkt);
    try assumption; try lia.
  - rewrite (retry_log_shift
               (after_read 2000 (emit (EvWrite [2; cmd_code PING; r0; r1]) st))
               st k eq_refl eq_refl).
    cbn [device pos after_read emit log]. now rewrite Hfirst.
  - intros s. now apply no_echo_unanswered.
Qed.

Lemma ping_late_echo_witness :
  _ping 3 1 2
    {| device := script [Some [2; 0xA1; 0; 0]; None; Some [2; 0xA1; 1; 2]];
       pos := 0; log := [] |} =
    Ok true
       {| device := script [Some [2; 0xA1; 0; 0]; None; Some [2; 0xA1; 1; 2]];
          pos := 3;
          log := [EvRead 2000 (Some [2; 0xA1; 1; 2]); EvSleep 200;
                  EvRead 2000 None; EvSleep 200;
                  EvRead 2000 (Some [2; 0xA1; 0; 0]);
                  EvWrite [2; 0xA1; 1; 2]] |}.
Proof.
  refine (ping_late_echo 3 1 2
            {| device := script [Some [2; 0xA1; 0; 0]; None;
                                 Some [2; 0xA1; 1; 2]];
               pos := 0; log := [] |}
            [2; 0xA1; 0; 0] 1 [2; 0xA1; 1; 2]
            eq_refl eq_refl ltac:(lia) ltac:(lia) eq_refl _ _ eq_refl _).
  - split; [intros [[= ] _]|]. exists 2, 0.
    split; [reflexivity|split; [reflexivity|left; lia]].
  - intros [|i] Hi; [exact I|lia].
  - split; [intros [[= ] _]|]. exists 2. repeat split.
Defined.

Lemma ping_unanswered_state _res _data st :
  (exists b, ping_unanswered _res _data st = Ok b st)
  \/ ping_unanswered _res _data st = Raise IndexError st.
Proof.
  unfold ping_unanswered, bind, item, ret.
  destruct _res as [r|]; [|left; eauto].
  destruct (r !! 0%nat) as [a|]; [|now right].
  destruct (_data !! 0%nat) as [d0|]; [|now right].
  destruct (a =? d0); [|left; eauto].
  destruct (r !! 1%nat) as [b|]; [|now right].
  destruct (_data !! 1%nat) as [d1|]; [|now right].
  left. eauto.
Qed.

(** The retry loop stops by itself: with [_retries] at [4 - j] or more
    it reads [j] more times at most. *)
Lemma ping_loop_stops j :
  forall fuel _data _res retries st,
    4 - Z.of_nat j <= retries -> (j < fuel)%nat ->
    exists st',
      final (ping_loop fuel _data _res retries st) = Some st'
      /\ (pos st <= pos st' <= pos st + j)%nat.
Proof.
  induction j as [|j IH]; intros fuel _data _res retries st Hr Hfuel;
    (destruct fuel as [|n]; [lia|]);
    cbn [ping_loop]; unfold bind at 1;
    (destruct (ping_unanswered_state _res _data st) as [[b ->]| ->];
       [|exists st; split; [reflexivity|lia]]);
    (destruct b; [|exists st; split; [reflexivity|lia]]).
  - assert ((retries >? _max_reties) = true) as ->
      by (unfold _max_reties; rewrite Z.gtb_ltb; apply Z.ltb_lt; lia).
    exists st. split; [reflexivity|lia].
  - destruct (retries >? _max_reties);
      [exists st; split; [reflexivity|lia]|].
    unfold bind at 1. cbn [sleep]. unfold bind at 1. unfold try_except, bind.
    pose proof (read_data_final n ping_kwargs (emit (EvSleep 200) st) eq_refl)
      as Hf.
    assert (forall _res',
      exists st',
        final (ping_loop n _data _res' (retries + 1)
                 (after_read 2000 (emit (EvSleep 200) st))) = Some st'
        /\ (pos st <= pos st' <= pos st + S j)%nat) as Hnext.
    { intros _res'.
      destruct (IH n _data _res' (retries + 1)
                  (after_read 2000 (emit (EvSleep 200) st)))
        as (st' & Hrun & Hpos); [lia|lia|].
      exists st'. split; [exact Hrun|]. cbn in Hpos. lia. }
    destruct (_read_data n ping_kwargs (emit (EvSleep 200) st))
      as [r s|e s|]; cbn in Hf; try discriminate Hf; injection Hf as ->.
    + apply Hnext.
    + destruct e; try (eexists; split; [reflexivity|cbn; lia]).
      apply Hnext.
Qed.

(** X21. Connecting always comes to an end when the first packet the
    device sends is not an unlocking report: whatever the device does
    after that, [__enter__] returns or raises after six reads at most
    (the [PING] exchange, four retries, the [VERSION] exchange). *)
Theorem enter_always_ends k r0 r1 st :
  (forall pkt, device st (pos st) = Some pkt -> ~ unlocking pkt) ->
  exists st',
    final (__enter__ (5 + k) r0 r1 st) = Some st'
    /\ (pos st' <= pos st + 6)%nat.
Proof.
  intros Hfirst. unfold __enter__. unfold bind at 1. cbn [sleep].
  set (st0 := emit (EvSleep 500) st). unfold bind at 1.
  assert (exists st1,
    final (_ping (5 + k) r0 r1 st0) = Some st1
    /\ (pos st1 <= pos st + 5)%nat) as (st1 & Hping & Hpos1).
  { unfold _ping, bind, append.
    destruct (is_byte r0); [|exists st0; split; [reflexivity|cbn; lia]].
    destruct (is_byte r1); [|exists st0; split; [reflexivity|cbn; lia]].
    cbn [app]. unfold try_except.
    rewrite send_command_writes by (simpl; lia).
    set (st2 := emit (EvWrite _) st0).
    pose proof (read_data_cases (5 + k) ping_kwargs st2 eq_refl) as Hc.
    cbn [device pos st2 st0 emit timeout ping_kwargs full_packet] in Hc.
    destruct (device st (pos st)) as [pkt|] eqn:Hdev.
    - destruct Hc as [[U _]|[->|(_ & n & _ & ->)]].
      + now destruct (Hfirst pkt eq_refl).
      + eexists. split; [reflexivity|cbn; lia].
      + destruct (ping_loop_stops 4 (5 + k) [r0; r1]
                    (Some (slice pkt DATA_INDEX (DATA_INDEX + Z.to_nat n))) 0
                    (after_read 2000 st2))
          as (st1 & Hrun & Hpos); [lia|lia|].
        exists st1. split; [exact Hrun|]. cbn in Hpos. lia.
    - rewrite Hc. eexists. split; [reflexivity|cbn; lia]. }
  destruct (_ping (5 + k) r0 r1 st0) as [answered s|e s|];
    cbn in Hping; try discriminate Hping; injection Hping as ->;
    [|exists st1; split; [reflexivity|lia]].
  destruct answered; cbn [negb];
    [|exists st1; split; [reflexivity|lia]].
  unfold bind.
  pose proof (bare_exchange_final (5 + k) VERSION st1) as Hf.
  destruct (_send_command (5 + k) VERSION [] no_kwargs st1) as [res s|e s|];
    cbn in Hf; try discriminate Hf; injection Hf as ->.
  - unfold item. destruct (res !! 0%nat);
      (eexists; split; [reflexivity|cbn; lia]).
  - eexists; split; [reflexivity|cbn; lia].
Qed.

Lemma enter_always_ends_witness :
  exists st',
    final (__enter__ 5 1 2 never_echoes) = Some st'
    /\ (pos st' <= pos never_echoes + 6)%nat.
Proof.
  apply (enter_always_ends 0 1 2 never_echoes).
  intros pkt [= <-] [[= ] _].
Defined.

(** ** More on the memory-management mode *)

(** The [START_MEMORYMGMT] exchange, made with [retry_on_locked], never
    raises [InterruptedError]. *)
Lemma read_data_retry_never_interrupted fuel st st' :
  _send_command fuel START_MEMORYMGMT [] start_kwargs st
  <> Raise InterruptedError st'.
Proof.
  rewrite send_command_writes by (simpl; lia).
  unfold _read_data, bind, read. cbn [timeout retry_on_locked start_kwargs].
  destruct (device _ _) as [p0|]; [|discriminate].
  match goal with
  | |- context [retry_locked fuel ?t p0 ?s] =>
      pose proof (retry_locked_spec fuel t p0 s) as Hspec;
      destruct (retry_locked fuel t p0 s) as [res' s1|e s1|]
  end; [|subst e; discriminate|discriminate].
  unfold item. destruct (res' !! LEN_INDEX); discriminate.
Qed.

(** How the [try] block ends tells what [_success] is. *)
Lemma start_loop_success fuel :
  forall st fr entered,
    start_loop fuel st = (fr, entered) ->
    match entered with
    | Ok _ _ => _success fr = Some true
    | Raise e _ =>
        (e = InterruptedError -> _success fr = None)
        /\ (e <> InterruptedError -> _success fr = Some false)
    | OutOfFuel => True
    end.
Proof.
  induction fuel as [|n IH]; intros st fr entered H; cbn [start_loop] in H.
  { now injection H as <- <-. }
  pose proof (read_data_retry_never_interrupted n st) as Hni.
  destruct (_send_command n START_MEMORYMGMT [] start_kwargs st)
    as [res st1|e st1|].
  - unfold item in H. destruct (res !! 0%nat) as [r|];
      [destruct (r =? SUCCESS)|]; injection H as <- <-; cbn;
      try reflexivity; split; congruence.
  - destruct e; try (injection H as <- <-; cbn; split; congruence).
    + now apply IH in H.
    + now destruct (Hni st1).
  - now injection H as <- <-.
Qed.

Lemma mgmt_enter_success fuel st fr entered :
  mgmt_enter fuel st = (fr, entered) ->
  match entered with
  | Ok _ _ => _success fr = Some true
  | Raise e _ => e <> InterruptedError -> _success fr = Some false
  | OutOfFuel => True
  end.
Proof.
  unfold mgmt_enter. intros H.
  destruct (wait_status_unlocked fuel st) as [[] st0|e st0|].
  - apply start_loop_success in H. destruct entered; try exact H.
    now destruct H.
  - now injection H as <- <-.
  - now injection H as <- <-.
Qed.

(** X22. The exit command is sent for a mode that was never entered:
    when the entry fails with anything but the [InterruptedError] of a
    declined entry (the status check or the [START_MEMORYMGMT] exchange
    raised), the enclosed operation is not run, yet the [finally] block
    sends one [END_MEMORYMGMT] and reads once before the scope raises. *)
Theorem mode_entry_failure_sends_END {A} fuel (body : state -> result A)
    st fr e st1 :
  mgmt_enter fuel st = (fr, Raise e st1) ->
  e <> InterruptedError ->
  final (_data_management_mode fuel body st) =
    Some (after_read 1500 (emit (EvWrite [0; cmd_code END_MEMORYMGMT]) st1))
  /\ (forall a stf, _data_management_mode fuel body st <> Ok a stf)
  /\ (forall r stf,
        _send_command fuel END_MEMORYMGMT [] no_kwargs st1 = Ok r stf ->
        _data_management_mode fuel body st = Raise e stf).
Proof.
  intros Henter He.
  pose proof (mgmt_enter_success fuel st fr _ Henter He) as Hs.
  pose proof (mgmt_exit_sends fuel fr st1 false Hs) as Hx.
  unfold _data_management_mode. rewrite Henter. unfold bind.
  split; [|split].
  - destruct (mgmt_exit fuel fr st1); try discriminate Hx; exact Hx.
  - intros a stf. destruct (mgmt_exit fuel fr st1); discriminate.
  - intros r stf Hend. unfold mgmt_exit, bind. rewrite Hs, Hend. reflexivity.
Qed.

Lemma mode_entry_failure_sends_END_witness :
  final (_data_management_mode 2 (ret tt)
           {| device := script [Some [1; 0xB9; 7]]; pos := 0; log := [] |}) =
    Some {| device := script [Some [1; 0xB9; 7]]; pos := 2;
            log := [EvRead 1500 None; EvWrite [0; 0xD3];
                    EvRead 1500 (Some [1; 0xB9; 7]); EvWrite [0; 0xB9]] |}.
Proof.
  refine (proj1 (mode_entry_failure_sends_END 2 (ret tt)
            {| device := script [Some [1; 0xB9; 7]]; pos := 0; log := [] |}
            {| _success := Some false; _res := None |} KeyError
            {| device := script [Some [1; 0xB9; 7]]; pos := 1;
               log := [EvRead 1500 (Some [1; 0xB9; 7]); EvWrite [0; 0xB9]] |}
            eq_refl _)).
  discriminate.
Defined.

(** X23. An error of the exit exchange masks what the enclosed operation
    came to.  In a mode that was entered, when the [END_MEMORYMGMT]
    exchange returns, the scope ends as the enclosed operation did (its
    value, or its exception); when that exchange raises, the scope
    raises that exception instead. *)
Theorem mode_exit_masks {A} fuel (body : state -> result A)
    st fr st1 stb :
  mgmt_enter fuel st = (fr, Ok tt st1) ->
  final (body st1) = Some stb ->
  (forall r stf,
      _send_command fuel END_MEMORYMGMT [] no_kwargs stb = Ok r stf ->
      _data_management_mode fuel body st =
        match body st1 with
        | Ok a _ => Ok a stf
        | Raise e _ => Raise e stf
        | OutOfFuel => OutOfFuel
        end)
  /\ (forall e' stf,
        _send_command fuel END_MEMORYMGMT [] no_kwargs stb = Raise e' stf ->
        _data_management_mode fuel body st = Raise e' stf).
Proof.
  intros Henter Hb.
  pose proof (mgmt_enter_success fuel st fr _ Henter) as Hs. cbn in Hs.
  unfold _data_management_mode. rewrite Henter.
  split.
  - intros r stf Hend.
    destruct (body st1) as [a s|e s|]; try discriminate Hb;
      injection Hb as ->; unfold mgmt_exit, bind; now rewrite Hs, Hend.
  - intros e' stf Hend.
    destruct (body st1) as [a s|e s|]; try discriminate Hb;
      injection Hb as ->; unfold mgmt_exit, bind; now rewrite Hs, Hend.
Qed.

Lemma mode_exit_masks_witness :
  _data_management_mode 2 (ret 7)
    {| device := script [Some [1; 0xB9; 5]; Some [1; 0xAD; 1]];
       pos := 0; log := [] |} =
    Raise TimeoutError
      {| device := script [Some [1; 0xB9; 5]; Some [1; 0xAD; 1]]; pos := 3;
         log := [EvRead 1500 None; EvWrite [0; 0xD3];
                 EvRead 2000 (Some [1; 0xAD; 1]); EvWrite [0; 0xAD];
                 EvRead 1500 (Some [1; 0xB9; 5]); EvWrite [0; 0xB9]] |}.
Proof.
  exact (proj2 (mode_exit_masks 2 (ret 7)
           {| device := script [Some [1; 0xB9; 5]; Some [1; 0xAD; 1]];
              pos := 0; log := [] |}
           {| _success := Some true; _res := Some [1] |}
           {| device := script [Some [1; 0xB9; 5]; Some [1; 0xAD; 1]];
              pos := 2;
              log := [EvRead 2000 (Some [1; 0xAD; 1]); EvWrite [0; 0xAD];
                      EvRead 1500 (Some [1; 0xB9; 5]); EvWrite [0; 0xB9]] |}
           _ eq_refl eq_refl) TimeoutError _ eq_refl).
Defined.

Lemma start_exchange_timeout fuel st :
  device st (pos st) = None ->
  _send_command fuel START_MEMORYMGMT [] start_kwargs st =
    Raise TimeoutError
      (after_read 2000 (emit (EvWrite [0; cmd_code START_MEMORYMGMT]) st)).
Proof.
  intros Hdev. rewrite send_command_writes by (simpl; lia).
  unfold _read_data, bind, read, after_read. cbn. now rewrite Hdev.
Qed.

Lemma start_exchange_reply fuel st pkt n :
  device st (pos st) = Some pkt ->
  ~ unlocking pkt -> (3 <= List.length pkt)%nat ->
  pkt !! LEN_INDEX = Some n ->
  _send_command (S fuel) START_MEMORYMGMT [] start_kwargs st =
    Ok (payload_of pkt n)
       (after_read 2000 (emit (EvWrite [0; cmd_code START_MEMORYMGMT]) st)).
Proof.
  intros Hdev U Hlen Hn. rewrite send_command_writes by (simpl; lia).
  unfold _read_data, bind, read.
  cbn [timeout retry_on_locked full_packet start_kwargs device pos emit].
  rewrite Hdev. cbn [retry_locked]. unfold bind.
  rewrite (unlocking_report_false pkt _ U Hlen). cbn [ret].
  unfold item. rewrite Hn. unfold after_read. cbn. now rewrite Hdev.
Qed.

Lemma concat_replicate_comm {A} (x : list A) k :
  List.concat (replicate k x) ++ x = x ++ List.concat (replicate k x).
Proof.
  induction k as [|k IH]; cbn [replicate List.concat].
  - now rewrite app_nil_r.
  - now rewrite <- app_assoc, IH.
Qed.

(** The loop of the entry re-sends [START_MEMORYMGMT] after each
    exchange that timed out, one second later, until a reply comes. *)
Lemma start_loop_retries k :
  forall fuel st pkt n,
    (S k < fuel)%nat ->
    (forall i, (i < k)%nat -> device st (pos st + i)%nat = None) ->
    device st (pos st + k)%nat = Some pkt ->
    ~ unlocking pkt -> (3 <= List.length pkt)%nat ->
    pkt !! LEN_INDEX = Some n ->
    payload_of pkt n !! 0%nat = Some SUCCESS ->
    start_loop fuel st =
      ({| _success := Some true; _res := Some (payload_of pkt n) |},
       Ok tt {| device := device st; pos := S (pos st + k);
                log := EvRead 2000 (Some pkt)
                         :: EvWrite [0; cmd_code START_MEMORYMGMT]
                         :: List.concat
                              (replicate k
                                 [EvSleep 1000; EvRead 2000 None;
                                  EvWrite [0; cmd_code START_MEMORYMGMT]])
                         ++ log st |}).
Proof.
  induction k as [|k IH]; intros fuel st pkt n Hfuel Hnone Hpkt U Hlen Hn Hok;
    (destruct fuel as [|fuel]; [lia|]); cbn [start_loop].
  - rewrite Nat.add_0_r in Hpkt.
    destruct fuel as [|fuel]; [lia|].
    rewrite (start_exchange_reply fuel st pkt n Hpkt U Hlen Hn).
    unfold item. rewrite Hok, Z.eqb_refl.
    unfold after_read. cbn. now rewrite Hpkt, Nat.add_0_r.
  - assert (device st (pos st) = None) as Hfirst.
    { specialize (Hnone 0%nat ltac:(lia)). now rewrite Nat.add_0_r in Hnone. }
    rewrite (start_exchange_timeout fuel st Hfirst).
    rewrite (IH fuel _ pkt n); try assumption; try lia.
    + cbn [device pos log after_read emit]. rewrite Hfirst.
      f_equal. f_equal. f_equal; [lia|]. f_equal. f_equal.
      cbn [replicate List.concat].
      change (EvSleep 1000 :: EvRead 2000 None
                :: EvWrite [0; cmd_code START_MEMORYMGMT] :: log st)
        with ([EvSleep 1000; EvRead 2000 None;
               EvWrite [0; cmd_code START_MEMORYMGMT]] ++ log st).
      now rewrite app_assoc, concat_replicate_comm, <- app_assoc.
    + intros i Hi. cbn [device pos after_read emit].
      replace (S (pos st) + i)%nat with (pos st + S i)%nat by lia.
      apply Hnone. lia.
    + cbn [device pos after_read emit]. rewrite <- Hpkt. f_equal. lia.
Qed.

(** X24. The entry to the memory-management mode is patient with
    timeouts: once the device is unlocked, each [START_MEMORYMGMT]
    exchange that times out is followed by a sleep of one second and a
    new [START_MEMORYMGMT], and the first reply that starts with the
    success code enters the mode. *)
Theorem mode_entry_retries_on_timeout fuel st st0 k pkt n :
  wait_status_unlocked fuel st = Ok tt st0 ->
  (S k < fuel)%nat ->
  (forall i, (i < k)%nat -> device st0 (pos st0 + i)%nat = None) ->
  device st0 (pos st0 + k)%nat = Some pkt ->
  ~ unlocking pkt -> (3 <= List.length pkt)%nat ->
  pkt !! LEN_INDEX = Some n ->
  payload_of pkt n !! 0%nat = Some SUCCESS ->
  mgmt_enter fuel st =
    ({| _success := Some true; _res := Some (payload_of pkt n) |},
     Ok tt {| device := device st0; pos := S (pos st0 + k);
              log := EvRead 2000 (Some pkt)
                       :: EvWrite [0; cmd_code START_MEMORYMGMT]
                       :: List.concat
                            (replicate k
                               [EvSleep 1000; EvRead 2000 None;
                                EvWrite [0; cmd_code START_MEMORYMGMT]])
                       ++ log st0 |}).
Proof.
  intros Hwait Hfuel Hnone Hpkt U Hlen Hn Hok.
  unfold mgmt_enter. rewrite Hwait.
  now apply start_loop_retries.
Qed.

Lemma mode_entry_retries_on_timeout_witness :
  mgmt_enter 3
    {| device := script [Some [1; 0xB9; 5]; None; Some [1; 0xAD; 1]];
       pos := 0; log := [] |} =
    ({| _success := Some true; _res := Some [1] |},
     Ok tt {| device := script [Some [1; 0xB9; 5]; None; Some [1; 0xAD; 1]];
              pos := 3;
              log := [EvRead 2000 (Some [1; 0xAD; 1]); EvWrite [0; 0xAD];
                      EvSleep 1000; EvRead 2000 None; EvWrite [0; 0xAD];
                      EvRead 1500 (Some [1; 0xB9; 5]); EvWrite [0; 0xB9]] |}).
Proof.
  refine (mode_entry_retries_on_timeout 3
            {| device := script [Some [1; 0xB9; 5]; None; Some [1; 0xAD; 1]];
               pos := 0; log := [] |}
            {| device := script [Some [1; 0xB9; 5]; None; Some [1; 0xAD; 1]];
               pos := 1;
               log := [EvRead 1500 (Some [1; 0xB9; 5]); EvWrite [0; 0xB9]] |}
            1 [1; 0xAD; 1] 1
            eq_refl ltac:(lia) _ eq_refl _ ltac:(simpl; lia) eq_refl eq_refl).
  - intros [|i] Hi; [reflexivity|lia].
  - intros [[= ] _].
Defined.

(** ** [DataBuffer] *)

Lemma append_each_spec items :
  forall buf,
    append_each buf items =
      (buf ++ leading_bytes items,
       if forallb is_byte items then None else Some OverflowError).
Proof.
  induction items as [|v items IH]; intros buf; cbn.
  - now rewrite app_nil_r.
  - destruct (is_byte v); cbn.
    + now rewrite IH, <- app_assoc.
    + now rewrite app_nil_r.
Qed.

(** X25. [<<] on a [DataBuffer] appends: an array is appended whole; a
    tuple item by item, and when an item is not a byte the call raises
    [OverflowError] with the items before it already in the buffer; a
    single item is a tuple of one.  What the session builds with
    [append] is what [<<] builds. *)
Theorem lshift_appends buf items v st :
  __lshift__ buf (OpTuple items) =
    (buf ++ leading_bytes items,
     if forallb is_byte items then None else Some OverflowError)
  /\ (forallb is_byte items = true ->
      __lshift__ buf (OpTuple items) = __lshift__ buf (OpArray items))
  /\ __lshift__ buf (OpItem v) = __lshift__ buf (OpTuple [v])
  /\ append buf v st =
       match __lshift__ buf (OpItem v) with
       | (buf', None) => Ok buf' st
       | (_, Some e) => Raise e st
       end.
Proof.
  split; [apply append_each_spec|split; [|split]].
  - intros Hall. cbn [__lshift__]. rewrite append_each_spec, Hall.
    f_equal. f_equal. clear -Hall.
    induction items as [|x items IH]; [reflexivity|]. cbn in *.
    apply andb_true_iff in Hall as [-> Hall]. now rewrite IH.
  - cbn. now destruct (is_byte v).
  - unfold append. cbn. now destruct (is_byte v).
Qed.

Lemma lshift_appends_witness :
  __lshift__ [1] (OpTuple [2; 3; 300; 4]) = ([1; 2; 3], Some OverflowError).
Proof. exact (proj1 (lshift_appends [1] [2; 3; 300; 4] 0 never_echoes)). Defined.

(** ** More on favorites *)

(** X26. Strings end at the first NUL: of a buffer whose first zero byte
    comes after [prefix], [c_string] gives the characters of [prefix],
    whatever follows the zero; of a buffer without a zero byte it gives
    them all. *)
Theorem c_string_stops_at_nul prefix rest :
  Forall (fun c => c <> 0) prefix ->
  c_string (prefix ++ 0 :: rest) = string_of_list_ascii (chr <$> prefix)
  /\ c_string prefix = string_of_list_ascii (chr <$> prefix)
  /\ String.length (c_string (prefix ++ 0 :: rest)) = List.length prefix.
Proof.
  intros Hnz.
  assert (forall tail,
    c_string (prefix ++ tail) =
      String.append (string_of_list_ascii (chr <$> prefix)) (c_string tail))
    as Happ.
  { intros tail. induction Hnz as [|c prefix Hc _ IH]; [reflexivity|].
    cbn. destruct (Z.eqb_spec c 0); [contradiction|]. now rewrite IH. }
  assert (forall s : string, String.append s EmptyString = s) as Hnil
    by (intros s0; induction s0 as [|a s0 IH]; [reflexivity|];
        change (String a (String.append s0 EmptyString) = String a s0);
        now rewrite IH).
  split; [|split].
  - rewrite Happ. cbn. apply Hnil.
  - rewrite <- (app_nil_r prefix) at 1. rewrite Happ. cbn. apply Hnil.
  - rewrite Happ. cbn. rewrite Hnil. clear.
    induction prefix as [|c prefix IH]; cbn; [reflexivity|now rewrite IH].
Qed.

Lemma c_string_stops_at_nul_witness :
  c_string ([97; 98; 99] ++ 0 :: [103; 97; 114]) = "abc"%string.
Proof.
  refine (proj1 (c_string_stops_at_nul [97; 98; 99] [103; 97; 114] _)).
  repeat constructor; discriminate.
Defined.

Lemma read_data_ok_state fuel st data st' :
  _read_data fuel no_kwargs st = Ok data st' -> st' = after_read 1500 st.
Proof.
  intros H. pose proof (read_data_final fuel no_kwargs st eq_refl) as Hf.
  rewrite H in Hf. now injection Hf as ->.
Qed.

Lemma read_node_ok_state fuel addr st node st' :
  (List.length addr <= 255)%nat ->
  read_node fuel addr st = Ok node st' -> st' = node_read addr st.
Proof.
  intros Hlen. unfold read_node. unfold bind at 1.
  rewrite send_command_writes by (simpl; rewrite app_nil_r; exact Hlen).
  cbn [List.concat]. rewrite app_nil_r.
  destruct (_read_data fuel no_kwargs _) as [d0 s0|?|] eqn:E0; try discriminate.
  apply read_data_ok_state in E0 as ->. unfold bind at 1.
  destruct (_read_data fuel no_kwargs _) as [d1 s1|?|] eqn:E1; try discriminate.
  apply read_data_ok_state in E1 as ->. unfold bind at 1.
  destruct (_read_data fuel no_kwargs _) as [d2 s2|?|] eqn:E2; try discriminate.
  apply read_data_ok_state in E2 as ->. now intros [= _ <-].
Qed.

(** X27. A populated slot costs two flash-node reads.  When the reply
    to [GET_FAVORITE] does not start with two zero bytes and the turn
    for the slot completes, the turn has sent [READ_FLASH_NODE] with
    bytes 0-1 of the reply and read three times, then [READ_FLASH_NODE]
    with bytes 2-3 and read three times, and the slot is bound in the
    mapping. *)
Theorem fav_slot_populated fuel slot (favs favs' : gmap Z favorite)
    st reply st1 st' :
  is_byte slot = true ->
  _send_command fuel GET_FAVORITE [[slot]] no_kwargs st = Ok reply st1 ->
  ~ (reply !! 0%nat = Some 0 /\ reply !! 1%nat = Some 0) ->
  fav_slot fuel slot favs st = Ok favs' st' ->
  st' = node_read (slice reply 2 4) (node_read (slice reply 0 2) st1)
  /\ is_Some (favs' !! slot)
  /\ forall k, k <> slot -> favs' !! k = favs !! k.
Proof.
  intros Hb Hx Hne. unfold fav_slot. unfold bind at 1. unfold append.
  rewrite Hb. cbn [app]. unfold bind at 1. rewrite Hx. unfold bind at 1.
  assert (slot_empty reply st1 = Ok false st1
          \/ exists e, slot_empty reply st1 = Raise e st1) as [-> | [e ->]];
    [|  |discriminate].
  { unfold slot_empty, bind, item, ret.
    destruct (reply !! 0%nat) as [a|]; [|right; eauto].
    destruct (Z.eqb_spec a 0) as [->|_]; [|now left].
    destruct (reply !! 1%nat) as [b|]; [|right; eauto].
    destruct (Z.eqb_spec b 0) as [->|_]; [|now left].
    now destruct Hne. }
  unfold bind at 1.
  destruct (read_node fuel (slice reply 0 2) st1) as [parent s2|?|] eqn:Ep;
    try discriminate.
  apply read_node_ok_state in Ep as ->;
    [|unfold slice; rewrite length_drop, length_take; lia].
  unfold bind at 1.
  destruct (read_node fuel (slice reply 2 4) _) as [child s3|?|] eqn:Ec;
    try discriminate.
  apply read_node_ok_state in Ec as ->;
    [|unfold slice; rewrite length_drop, length_take; lia].
  intros [= <- <-]. split; [reflexivity|split].
  - rewrite lookup_insert_eq. eauto.
  - intros k Hk. now apply lookup_insert_ne.
Qed.

(** A device with one bound slot: its parent node says "git", its child
    node "ab". *)
Lemma fav_slot_populated_witness :
  let st :=
    {| device := script [Some [4; 0xC7; 1; 2; 3; 4];
                         Some [10; 0xC5; 0; 0; 0; 0; 0; 0; 0; 0; 103; 105];
                         Some [3; 0xC5; 116; 0; 7]; Some [1; 0xC5; 0];
                         Some [2; 0xC5; 0; 0];
                         Some ([36; 0xC5] ++ replicate 35 0 ++ [97]);
                         Some [2; 0xC5; 98; 0]];
       pos := 0; log := [] |} in
  rev (log (stopped (fav_slot 0 5 ∅ st) st)) =
    [EvWrite [1; 0xC7; 5]; EvRead 1500 (Some [4; 0xC7; 1; 2; 3; 4]);
     EvWrite [2; 0xC5; 1; 2];
     EvRead 1500 (Some [10; 0xC5; 0; 0; 0; 0; 0; 0; 0; 0; 103; 105]);
     EvRead 1500 (Some [3; 0xC5; 116; 0; 7]); EvRead 1500 (Some [1; 0xC5; 0]);
     EvWrite [2; 0xC5; 3; 4]; EvRead 1500 (Some [2; 0xC5; 0; 0]);
     EvRead 1500 (Some ([36; 0xC5] ++ replicate 35 0 ++ [97]));
     EvRead 1500 (Some [2; 0xC5; 98; 0])].
Proof.
  intros st.
  pose (st1 := after_read 1500 (emit (EvWrite [1; 0xC7; 5]) st)).
  assert (fav_slot 0 5 ∅ st =
          Ok {[ 5 := {| context := "git"; login := "ab" |} ]}
             (stopped (fav_slot 0 5 ∅ st) st)) as Hrun
    by (vm_compute; reflexivity).
  assert (~ ([1; 2; 3; 4] !! 0%nat = Some 0
             /\ [1; 2; 3; 4] !! 1%nat = Some 0)) as Hne
    by (intros [[= ] _]).
  rewrite (proj1 (fav_slot_populated 0 5 ∅ _ st [1; 2; 3; 4] st1 _
                    eq_refl eq_refl Hne Hrun)).
  reflexivity.
Defined.

(** X28. The mapping [get_favorites_list] returns is keyed by slot
    indices: every key is between 0 and 13. *)
Theorem favorites_keys_in_range fuel st (result : gmap Z favorite) st' k :
  get_favorites_list fuel st = Ok result st' ->
  is_Some (result !! k) ->
  0 <= k < 14.
Proof.
  intros Hget Hk.
  destruct (decide (k ∈ seqZ 0 14)) as [Hin|Hout];
    [apply elem_of_seqZ in Hin; lia|].
  exfalso. unfold get_favorites_list, _data_management_mode in Hget.
  destruct (mgmt_enter fuel st) as [fr [[] st0|e st0|]];
    [| |discriminate Hget].
  - destruct (fav_loop fuel (seqZ 0 14) ∅ st0) as [favs s|e s|] eqn:Hloop;
      [| |discriminate Hget].
    + unfold bind in Hget.
      destruct (mgmt_exit fuel fr s); try discriminate Hget.
      injection Hget as <- _.
      rewrite (fav_loop_other _ _ _ _ _ _ k Hout Hloop), lookup_empty in Hk.
      now destruct Hk.
    + unfold bind in Hget. destruct (mgmt_exit fuel fr s); discriminate Hget.
  - unfold bind in Hget. destruct (mgmt_exit fuel fr st0); discriminate Hget.
Qed.

Lemma favorites_keys_in_range_witness : 0 <= 0 < 14.
Proof.
  refine (favorites_keys_in_range 2 one_bound
            {[ 0 := {| context := "git"; login := "ab" |} ]}
            (stopped (get_favorites_list 2 one_bound) one_bound) 0 _ _).
  - vm_compute. reflexivity.
  - rewrite lookup_singleton_eq. eauto.
Defined.

Lemma slot_query_steps slots :
  forall st,
    pos (fold_left (fun s slot => slot_query slot s) slots st)
      = (pos st + List.length slots)%nat
    /\ device (fold_left (fun s slot => slot_query slot s) slots st)
        = device st.
Proof.
  induction slots as [|slot rest IH]; intros st; cbn [fold_left List.length].
  - split; [lia|reflexivity].
  - destruct (IH (slot_query slot st)) as [Hp Hd]. rewrite Hp, Hd.
    cbn. split; [lia|reflexivity].
Qed.

(** Over slots that are all empty the loop is one [GET_FAVORITE]
    exchange per slot and leaves the mapping as it was. *)
Lemma fav_loop_all_empty fuel slots :
  forall (favs : gmap Z favorite) st,
    Forall (fun slot => is_byte slot = true) slots ->
    (forall i, (i < List.length slots)%nat ->
       exists pkt, device st (pos st + i)%nat = Some pkt
                   /\ empty_slot_reply pkt) ->
    fav_loop fuel slots favs st =
      Ok favs (fold_left (fun s slot => slot_query slot s) slots st).
Proof.
  induction slots as [|slot rest IH]; intros favs st Hbytes Hdev;
    [reflexivity|].
  apply Forall_cons in Hbytes as [Hb Hbytes].
  destruct (Hdev 0%nat ltac:(cbn; lia)) as (pkt & Hpkt & U & n & Hn & H0 & H1).
  rewrite Nat.add_0_r in Hpkt.
  cbn [fav_loop fold_left]. unfold bind at 1.
  rewrite (fav_slot_empty fuel slot favs st (payload_of pkt n)
             (slot_query slot st) Hb); try assumption.
  - apply IH; [exact Hbytes|]. intros i Hi. cbn [pos device slot_query
      after_read emit].
    replace (S (pos st) + i)%nat with (pos st + S i)%nat by lia.
    apply Hdev. cbn. lia.
  - apply (exchange_reply fuel GET_FAVORITE [[slot]] no_kwargs st
             ltac:(simpl; lia) eq_refl eq_refl pkt n Hpkt U Hn). eauto.
Qed.

(** X29. On a device all of whose fourteen slots are empty,
    [get_favorites_list] asks for each slot once, in order, and for
    nothing else, and returns the empty mapping provided the
    [END_MEMORYMGMT] exchange returns. *)
Theorem favorites_all_empty fuel st fr st0 :
  mgmt_enter fuel st = (fr, Ok tt st0) ->
  (forall i, (i < 14)%nat ->
     exists pkt, device st0 (pos st0 + i)%nat = Some pkt
                 /\ empty_slot_reply pkt) ->
  let st14 := fold_left (fun s slot => slot_query slot s) (seqZ 0 14) st0 in
  pos st14 = (pos st0 + 14)%nat
  /\ forall r stf,
       _send_command fuel END_MEMORYMGMT [] no_kwargs st14 = Ok r stf ->
       get_favorites_list fuel st = Ok ∅ stf.
Proof.
  intros Henter Hdev st14. split.
  - unfold st14. now rewrite (proj1 (slot_query_steps (seqZ 0 14) st0)).
  - intros r stf Hend.
    pose proof (mgmt_enter_success fuel st fr _ Henter) as Hs. cbn in Hs.
    unfold get_favorites_list, _data_management_mode. rewrite Henter.
    rewrite (fav_loop_all_empty fuel (seqZ 0 14) ∅ st0).
    + fold st14. unfold mgmt_exit, bind. now rewrite Hs, Hend.
    + apply Forall_seqZ. intros slot Hslot. unfold is_byte.
      apply andb_true_iff. split; apply Z.leb_le; lia.
    + intros i Hi. apply Hdev. rewrite length_seqZ in Hi. lia.
Qed.

Lemma favorites_all_empty_witness :
  get_favorites_list 2 all_empty =
    Ok ∅ (stopped (get_favorites_list 2 all_empty) all_empty).
Proof.
  pose (st0 := stopped (snd (mgmt_enter 2 all_empty)) all_empty).
  assert (mgmt_enter 2 all_empty = (fst (mgmt_enter 2 all_empty), Ok tt st0))
    as Henter by (vm_compute; reflexivity).
  refine (proj2 (favorites_all_empty 2 all_empty _ st0 Henter _) [1] _ _).
  - intros i Hi. exists [4; 0xC7; 0; 0; 0; 0]. split.
    + do 14 (destruct i as [|i]; [reflexivity|]). lia.
    + split; [intros [[= ] _]|]. exists 4. repeat split.
  - vm_compute. reflexivity.
Defined.
